(** * Disk-encryption events handler of dde-file-manager-extensions

    A shallow embedding of
    [src/dde-file-manager/dfmplugin-disk-encrypt-entry/events/eventshandler.cpp]:
    the slots that answer the daemon's notifications, the two registries of
    progress dialogs, the outcome presenters and the password hook.

    Conventions.
    - A [QString] is a [string]; one character stands for one [QChar].
    - [tr] is the identity: every text is the source text, as it is shown
      when no translation catalogue is installed.
    - A C++ [int] is a [Z] in the 32-bit range; unary minus wraps.
    - A [double] is its 64-bit pattern; the handlers only pass it on.
    - Pointers to dialogs are handles into a heap of dialog objects; using a
      handle whose object is gone is undefined behaviour, written [None]. *)

From Stdlib Require Import ZArith Ascii String Bool Lia.
From stdpp Require Import base option list gmap strings pretty.

Open Scope Z_scope.

(** ** QString *)

Module QString.

(** [QString::isEmpty]. *)
Definition isEmpty (s : string) : bool :=
  match s with
  | EmptyString => true
  | String _ _ => false
  end.

(** [QString::mid(position)]: the part from [position] to the end; empty
    when [position] is past the end. *)
Fixpoint mid (position : nat) (s : string) : string :=
  match position, s with
  | O, _ => s
  | S _, EmptyString => EmptyString
  | S p, String _ r => mid p r
  end.

(** [QChar::digitValue] on the ASCII digits. *)
Definition digitValue (c : ascii) : option nat :=
  let n := nat_of_ascii c in
  if (48 <=? n)%nat && (n <=? 57)%nat then Some (n - 48)%nat else None.

Definition is_percent (c : ascii) : bool := Ascii.eqb c "%"%char.
Definition is_L (c : ascii) : bool := Ascii.eqb c "L"%char.

(** One or two digits at the head of [r]: the escape number and how many
    characters it takes. *)
Definition escape_number (r : string) : option (nat * nat) :=
  match r with
  | EmptyString => None
  | String d1 r1 =>
      match digitValue d1 with
      | None => None
      | Some n1 =>
          match r1 with
          | EmptyString => Some (n1, 1%nat)
          | String d2 _ =>
              match digitValue d2 with
              | Some n2 => Some ((10 * n1 + n2)%nat, 2%nat)
              | None => Some (n1, 1%nat)
              end
          end
      end
  end.

(** What follows a ['%']: a place marker [%n], [%nn], [%Ln] or [%Lnn]
    gives its number and the characters it takes after the ['%']. *)
Definition marker_at (r : string) : option (nat * nat) :=
  match r with
  | EmptyString => None
  | String c r1 =>
      if is_L c
      then match escape_number r1 with
           | Some (n, k) => Some (n, S k)
           | None => None
           end
      else escape_number r
  end.

(** The numbers of the place markers of [s], left to right (the scan of
    Qt's [findArgEscapes]). *)
Fixpoint escapes (s : string) : list nat :=
  match s with
  | EmptyString => []
  | String c r =>
      if is_percent c
      then match marker_at r with
           | Some (n, _) => n :: escapes r
           | None => escapes r
           end
      else escapes r
  end.

(** The lowest marker number, if there is a marker at all. *)
Definition min_escape (s : string) : option nat :=
  match escapes s with
  | [] => None
  | n :: ns => Some (foldr Nat.min n ns)
  end.

(** Qt's [replaceArgEscapes]: every marker numbered [lowest] becomes [a],
    the rest of the text is copied. [skip] counts the characters of a
    replaced marker that are still to be dropped. *)
Fixpoint replaceArgEscapes (lowest : nat) (a : string) (skip : nat)
    (s : string) : string :=
  match s with
  | EmptyString => EmptyString
  | String c r =>
      match skip with
      | S k => replaceArgEscapes lowest a k r
      | O =>
          if is_percent c
          then match marker_at r with
               | Some (n, len) =>
                   if (n =? lowest)%nat
                   then a +:+ replaceArgEscapes lowest a len r
                   else String c (replaceArgEscapes lowest a O r)
               | None => String c (replaceArgEscapes lowest a O r)
               end
          else String c (replaceArgEscapes lowest a O r)
      end
  end.

(** [QString::arg(const QString &)]: the lowest-numbered place marker is
    replaced by [a], at each of its occurrences; a string without marker
    is returned as it is (Qt warns "Argument missing"). *)
Definition arg (s a : string) : string :=
  match min_escape s with
  | None => s
  | Some lowest => replaceArgEscapes lowest a O s
  end.

(** [QString::number(int)]: decimal, with a leading minus sign. *)
Definition number (n : Z) : string := pretty n.

(** [QString::arg(int)]. A [%L] marker asks for the locale's rendering of
    the number; the model writes the plain decimal text there too, which
    is what a locale without digit grouping gives. *)
Definition argInt (s : string) (n : Z) : string := arg s (number n).

(** [needle] occurs in [hay]. *)
Definition contains (needle hay : string) : Prop :=
  exists pre post, hay = pre +:+ needle +:+ post.

End QString.


(** ** Values of the interface *)

(** A C++ [int]. *)
Definition int_min : Z := - 2 ^ 31.
Definition int_max : Z := 2 ^ 31 - 1.
Definition is_int (z : Z) : Prop := int_min <= z <= int_max.

(** Two's-complement wrap-around of a 32-bit signed result. *)
Definition int_wrap (z : Z) : Z := (z + 2 ^ 31) mod 2 ^ 32 - 2 ^ 31.

(** Unary minus on [int]. *)
Definition int_neg (z : Z) : Z := int_wrap (- z).

(** A [double], kept as its bit pattern. *)
Definition double : Type := Z.

(** Modelled from the spec: the declarations of the result codes
    (dfmplugin_disk_encrypt_global.h) are not among the sources; section 6
    gives 0 = success and the negated magnitudes 1 = user-cancelled,
    2 = wrong-passphrase, 3 = change-passphrase-failed. The value of the
    reboot-required sentinel is not given and stays a parameter below. *)
Definition kSuccess : Z := 0.
Definition kUserCancelled : Z := 1.
Definition kErrorWrongPassphrase : Z := 2.
Definition kErrorChangePassphraseFailed : Z := 3.

(** [dialog_utils::kInfo] and [dialog_utils::kError]. *)
Inductive DialogType := kInfo | kError.

(** The key kinds of [UnlockPartitionDialog]: the two the handler names, and
    [kRec] for any other kind the dialog may hand back. *)
Inductive UnlockType := kPwd | kPin | kRec.

Definition UnlockType_eqb (a b : UnlockType) : bool :=
  match a, b with
  | kPwd, kPwd | kPin, kPin | kRec, kRec => true
  | _, _ => false
  end.

(** A pointer to a progress dialog. *)
Definition Handle : Type := nat.

(** The slot connected to a dialog's [destroyed] signal: the lambda
    [[this, dev] { encryptDialogs.remove(dev); }]. *)
Inductive Slot := RemoveEncryptDialog (dev : string).

(** An [EncryptProcessDialog] object. *)
Record EncryptProcessDialog := mkDialog {
  dlgTitle : string;
  dlgProgress : option double;
  dlgVisible : bool;
  dlgDestroyed : list Slot
}.

(** What the handler does to the outside, in the order it does it. *)
Inductive Event :=
| RestoreOverrideCursor
| ShowDialog (title msg : string) (type : DialogType)
| ExecDDialog (title msg : string) (buttons : list string)
| ExecUnlockDialog (init : UnlockType)
| RequestReboot
| NewProcessDialog (h : Handle) (title : string)
| UpdateProgress (h : Handle) (progress : double)
| ShowProcessDialog (h : Handle)
| DeleteLater (h : Handle)
| Destroyed (h : Handle).

(** The handler's two registries, the live dialog objects, the deletions
    posted to the event loop, and the log of events. *)
Record World := mkWorld {
  encryptDialogs : gmap string Handle;
  decryptDialogs : gmap string Handle;
  heap : gmap Handle EncryptProcessDialog;
  deferred : list Handle;
  trace : list Event
}.

Definition emptyWorld : World := mkWorld ∅ ∅ ∅ [] [].

(** ** Commands: state passing with undefined behaviour as failure *)

Definition Cmd (A : Type) : Type := World -> option (A * World).

Definition ret {A} (a : A) : Cmd A := fun w => Some (a, w).

Definition bind {A B} (c : Cmd A) (k : A -> Cmd B) : Cmd B :=
  fun w => match c w with
           | Some (a, w') => k a w'
           | None => None
           end.

Notation "'let*' x := c 'in' k" := (bind c (fun x => k))
  (at level 10, x name, c at level 100, k at level 200).
Notation "c ';;;' k" := (bind c (fun _ => k))
  (at level 100, k at level 200, right associativity).

Definition get : Cmd World := fun w => Some (w, w).
Definition modify (f : World -> World) : Cmd unit := fun w => Some (tt, f w).

(** The world after a command, when it is defined. *)
Definition exec {A} (c : Cmd A) (w : World) : option World :=
  match c w with
  | Some (_, w') => Some w'
  | None => None
  end.

Definition emit (e : Event) : Cmd unit :=
  modify (fun w => mkWorld (encryptDialogs w) (decryptDialogs w) (heap w)
                           (deferred w) (trace w ++ [e])).

Definition setEncryptDialogs (f : gmap string Handle -> gmap string Handle) : Cmd unit :=
  modify (fun w => mkWorld (f (encryptDialogs w)) (decryptDialogs w) (heap w)
                           (deferred w) (trace w)).

Definition setDecryptDialogs (f : gmap string Handle -> gmap string Handle) : Cmd unit :=
  modify (fun w => mkWorld (encryptDialogs w) (f (decryptDialogs w)) (heap w)
                           (deferred w) (trace w)).

Definition setHeap (f : gmap Handle EncryptProcessDialog -> gmap Handle EncryptProcessDialog)
  : Cmd unit :=
  modify (fun w => mkWorld (encryptDialogs w) (decryptDialogs w) (f (heap w))
                           (deferred w) (trace w)).

Definition setDeferred (f : list Handle -> list Handle) : Cmd unit :=
  modify (fun w => mkWorld (encryptDialogs w) (decryptDialogs w) (heap w)
                           (f (deferred w)) (trace w)).

(** Dereferencing a pointer: null and dangling pointers are undefined. *)
Definition deref (p : option Handle) : Cmd (Handle * EncryptProcessDialog) :=
  fun w => match p with
           | None => None
           | Some h => match heap w !! h with
                       | Some d => Some ((h, d), w)
                       | None => None
                       end
           end.

(** [new EncryptProcessDialog(title)]: an object at an address that holds no
    live dialog. *)
Definition newEncryptProcessDialog (title : string) : Cmd Handle :=
  let* w := get in
  let h := fresh (dom (heap w)) in
  setHeap (insert h (mkDialog title None false []));;;
  emit (NewProcessDialog h title);;;
  ret h.

(** [connect(dlg, &EncryptProcessDialog::destroyed, this, slot)]. *)
Definition connectDestroyed (p : option Handle) (s : Slot) : Cmd unit :=
  let* hd := deref p in
  let d := snd hd in
  setHeap (insert (fst hd)
             (mkDialog (dlgTitle d) (dlgProgress d) (dlgVisible d) (dlgDestroyed d ++ [s]))).

(** [dlg->updateProgress(progress)]. *)
Definition updateProgress (p : option Handle) (progress : double) : Cmd unit :=
  let* hd := deref p in
  let d := snd hd in
  setHeap (insert (fst hd)
             (mkDialog (dlgTitle d) (Some progress) (dlgVisible d) (dlgDestroyed d)));;;
  emit (UpdateProgress (fst hd) progress).

(** [dlg->show()]. *)
Definition show (p : option Handle) : Cmd unit :=
  let* hd := deref p in
  let d := snd hd in
  setHeap (insert (fst hd)
             (mkDialog (dlgTitle d) (dlgProgress d) true (dlgDestroyed d)));;;
  emit (ShowProcessDialog (fst hd)).

Definition runSlot (s : Slot) : Cmd unit :=
  match s with
  | RemoveEncryptDialog dev => setEncryptDialogs (delete dev)
  end.

Fixpoint runSlots (ss : list Slot) : Cmd unit :=
  match ss with
  | [] => ret tt
  | s :: ss' => runSlot s;;; runSlots ss'
  end.

(** The end of a dialog object: its [destroyed] signal runs the connected
    slots, the object leaves the heap and a posted deletion of it lapses.
    This is what [delete] does, what the event loop does for a posted
    deletion, and what happens when anything else destroys the dialog. *)
Definition destroy (p : option Handle) : Cmd unit :=
  let* hd := deref p in
  emit (Destroyed (fst hd));;;
  runSlots (dlgDestroyed (snd hd));;;
  setHeap (delete (fst hd));;;
  setDeferred (filter (fun h => h <> fst hd)).

(** [dlg->deleteLater()]: the deletion is posted to the event loop. *)
Definition deleteLater (p : option Handle) : Cmd unit :=
  let* hd := deref p in
  setDeferred (fun l => l ++ [fst hd]);;;
  emit (DeleteLater (fst hd)).

(** [QApplication::restoreOverrideCursor()]. *)
Definition restoreOverrideCursor : Cmd unit := emit RestoreOverrideCursor.

(** [dialog_utils::showDialog(title, msg, type)]. *)
Definition showDialog (title msg : string) (type : DialogType) : Cmd unit :=
  emit (ShowDialog title msg type).

(** [tr]: the source text. *)
Definition tr (s : string) : string := s.

(** [QString("%1(%2)").arg(devName).arg(dev.mid(5))], the text every
    presenter builds for the device. *)
Definition deviceLabel (devName dev : string) : string :=
  QString.arg (QString.arg "%1(%2)" devName) (QString.mid 5 dev).

(** ** The handler *)

Section EventsHandler.

(** The reboot-required sentinel of the result codes. *)
Variable kRebootRequired : Z.

(** [SecKeyType]: the three key types the password hook knows. *)
Variables kPasswordOnly kTPMOnly kTPMAndPIN : Z.

(** [device_utils::encKeyType]. *)
Variable encKeyType : string -> Z.

(** [tpm_passphrase_utils::getPassphraseFromTPM(dev, pin)]. *)
Variable getPassphraseFromTPM : string -> string -> string.

(** The user at an [UnlockPartitionDialog] opened for a key kind: what
    [exec] returns and what [getUnlockKey] hands back afterwards. *)
Variable unlockDialogUser : UnlockType -> Z * (UnlockType * string).

(** The user at the reboot [DDialog]: the index [exec] returns. *)
Variable rebootDialogUser : Z.

(** A notification of the daemon, by the signal that carries it. *)
Inductive Notification :=
| PrepareEncryptDiskResult (dev devName unused : string) (code : Z)
| EncryptDiskResult (dev devName : string) (code : Z)
| EncryptProgress (dev devName : string) (progress : double)
| DecryptDiskResult (dev devName unused : string) (code : Z)
| DecryptProgress (dev devName : string) (progress : double)
| ChangePassphressResult (dev devName unused : string) (code : Z).

Definition hasEnDecryptJob : Cmd bool :=
  let* w := get in
  ret (negb (bool_decide (encryptDialogs w = ∅) && bool_decide (decryptDialogs w = ∅))).

Definition requestReboot : Cmd unit := emit RequestReboot.

Definition showRebootOnPreencrypted (device devName : string) : Cmd unit :=
  let dev := deviceLabel devName device in
  emit (ExecDDialog (tr "Preencrypt done")
          (QString.arg (tr "Device %1 has been preencrypt, please reboot to finish encryption.") dev)
          [tr "Reboot later"; tr "Reboot now"]);;;
  if rebootDialogUser =? 1 then requestReboot else ret tt.

Definition showRebootOnDecrypted (device devName : string) : Cmd unit :=
  let dev := deviceLabel devName device in
  emit (ExecDDialog (tr "Decrypt device")
          (QString.arg (tr "Please reboot to decrypt device %1.") dev)
          [tr "Reboot later"; tr "Reboot now"]);;;
  if rebootDialogUser =? 1 then requestReboot else ret tt.

(** The title, message and dialog type [showPreEncryptError] settles on. *)
Definition preEncryptOutcome (dev devName : string) (code : Z)
  : string * string * DialogType :=
  let device := deviceLabel devName dev in
  let sel := int_neg code in
  if sel =? kSuccess then
    (tr "Preencrypt done",
     QString.arg (tr "Device %1 has been preencrypt, please reboot to finish encryption.") device,
     kInfo)
  else if sel =? kUserCancelled then
    (tr "Encrypt disk", tr "User cancelled operation", kInfo)
  else
    (tr "Preencrypt failed",
     QString.argInt
       (QString.arg (tr "Device %1 preencrypt failed, please see log for more information.(%2)") device)
       code,
     kError).

Definition showPreEncryptError (dev devName : string) (code : Z) : Cmd unit :=
  let '(title, msg, type) := preEncryptOutcome dev devName code in
  showDialog title msg type.

(** The title, message and dialog type [showDecryptError] settles on. *)
Definition decryptOutcome (dev devName : string) (code : Z)
  : string * string * DialogType :=
  let device := deviceLabel devName dev in
  let sel := int_neg code in
  if sel =? kSuccess then
    (tr "Decrypt done", QString.arg (tr "Device %1 has been decrypted") device, kInfo)
  else if sel =? kUserCancelled then
    (tr "Decrypt disk", tr "User cancelled operation", kInfo)
  else if sel =? kErrorWrongPassphrase then
    (tr "Decrypt disk", tr "Wrong passpharse or PIN", kError)
  else
    (tr "Decrypt failed",
     QString.argInt
       (QString.arg (tr "Device %1 Decrypt failed, please see log for more information.(%2)") device)
       code,
     kError).

Definition showDecryptError (dev devName : string) (code : Z) : Cmd unit :=
  let '(title, msg, type) := decryptOutcome dev devName code in
  showDialog title msg type.

(** The title, message and dialog type [showChgPwdError] settles on. *)
Definition chgPwdOutcome (dev devName : string) (code : Z)
  : string * string * DialogType :=
  let device := deviceLabel devName dev in
  let sel := int_neg code in
  if sel =? kSuccess then
    (tr "Change passphrase done", QString.arg (tr "%1's passphrase has been changed") device, kInfo)
  else if sel =? kUserCancelled then
    (tr "Change passphrase", tr "User cancelled operation", kInfo)
  else if sel =? kErrorChangePassphraseFailed then
    (tr "Change passphrase failed", tr "Wrong passpharse or PIN", kError)
  else
    (tr "Change passphrase failed",
     QString.argInt
       (QString.arg (tr "Device %1 change passphrase failed, please see log for more information.(%2)") device)
       code,
     kError).

Definition showChgPwdError (dev devName : string) (code : Z) : Cmd unit :=
  let '(title, msg, type) := chgPwdOutcome dev devName code in
  showDialog title msg type.

Definition onPreencryptResult (dev devName unused : string) (code : Z) : Cmd unit :=
  restoreOverrideCursor;;;
  if negb (code =? kSuccess)
  then showPreEncryptError dev devName code
  else showRebootOnPreencrypted dev devName.

Definition onEncryptResult (dev devName : string) (code : Z) : Cmd unit :=
  restoreOverrideCursor;;;
  let* w := get in
  (if bool_decide (is_Some (encryptDialogs w !! dev))
   then destroy (encryptDialogs w !! dev);;;
        setEncryptDialogs (delete dev)
   else ret tt);;;
  let device := deviceLabel devName dev in
  let title := if negb (code =? 0) then tr "Encrypt failed" else tr "Encrypt done" in
  let msg :=
    if negb (code =? 0)
    then QString.argInt
           (QString.arg (tr "Device %1 encrypt failed, please see log for more information.(%2)") device)
           code
    else QString.arg (tr "Device %1 has been encrypted") device in
  showDialog title msg (if negb (code =? 0) then kError else kInfo).

Definition onDecryptResult (dev devName unused : string) (code : Z) : Cmd unit :=
  restoreOverrideCursor;;;
  let* w := get in
  (if bool_decide (is_Some (decryptDialogs w !! dev))
   then deleteLater (decryptDialogs w !! dev);;;
        setDecryptDialogs (delete dev)
   else ret tt);;;
  if code =? - kRebootRequired
  then showRebootOnDecrypted dev devName
  else showDecryptError dev devName code.

Definition onChgPassphraseResult (dev devName unused : string) (code : Z) : Cmd unit :=
  restoreOverrideCursor;;;
  showChgPwdError dev devName code.

Definition onEncryptProgress (dev devName : string) (progress : double) : Cmd unit :=
  let* w := get in
  (if negb (bool_decide (is_Some (encryptDialogs w !! dev)))
   then let device := deviceLabel devName dev in
        restoreOverrideCursor;;;
        let* dlg := newEncryptProcessDialog (QString.arg (tr "Encrypting...%1") device) in
        connectDestroyed (Some dlg) (RemoveEncryptDialog dev);;;
        setEncryptDialogs (insert dev dlg)
   else ret tt);;;
  let* w' := get in
  let dlg := encryptDialogs w' !! dev in
  updateProgress dlg progress;;;
  show dlg.

Definition onDecryptProgress (dev devName : string) (progress : double) : Cmd unit :=
  let* w := get in
  (if negb (bool_decide (is_Some (decryptDialogs w !! dev)))
   then let device := deviceLabel devName dev in
        restoreOverrideCursor;;;
        let* dlg := newEncryptProcessDialog (QString.arg (tr "Decrypting...%1") device) in
        setDecryptDialogs (insert dev dlg)
   else ret tt);;;
  let* w' := get in
  let dlg := decryptDialogs w' !! dev in
  updateProgress dlg progress;;;
  show dlg.

(** [acquirePassphrase(dev, cancelled)]: the text and the referenced flag
    after the call. *)
Definition acquirePassphrase (dev : string) (cancelled : bool) : Cmd (string * bool) :=
  emit (ExecUnlockDialog kPwd);;;
  let '(r, keys) := unlockDialogUser kPwd in
  if negb (r =? 1)
  then ret (EmptyString, true)
  else ret (snd keys, cancelled).

Definition acquirePassphraseByPIN (dev : string) (cancelled : bool) : Cmd (string * bool) :=
  emit (ExecUnlockDialog kPin);;;
  let '(r, keys) := unlockDialogUser kPin in
  if negb (r =? 1)
  then ret (EmptyString, true)
  else if UnlockType_eqb (fst keys) kPin
       then ret (getPassphraseFromTPM dev (snd keys), cancelled)
       else ret (snd keys, cancelled).

Definition acquirePassphraseByTPM (dev : string) (cancelled : bool) : Cmd (string * bool) :=
  ret (getPassphraseFromTPM dev EmptyString, cancelled).

(** What the hook hands back: its return value and the two output slots.
    A slot is [None] for a null pointer, else the value it holds. *)
Record Acquired := mkAcquired {
  acqReturn : bool;
  acqPwd : option string;
  acqCancelled : option bool
}.

Definition onAcquireDevicePwd (dev : string) (pwd : option string)
    (cancelled : option bool) : Cmd Acquired :=
  match pwd, cancelled with
  | Some _, Some c0 =>
      let type := encKeyType dev in
      let* sub :=
        (if type =? kTPMAndPIN then
           let* r := acquirePassphraseByPIN dev c0 in ret (Some r)
         else if type =? kTPMOnly then
           let* r := acquirePassphraseByTPM dev c0 in ret (Some r)
         else if type =? kPasswordOnly then
           let* r := acquirePassphrase dev c0 in ret (Some r)
         else ret None) in
      match sub with
      | None => ret (mkAcquired false pwd cancelled)
      | Some (p, c1) =>
          if QString.isEmpty p && negb c1
          then
            let title :=
              if type =? kTPMAndPIN then tr "Wrong PIN"
              else if type =? kPasswordOnly then tr "Wrong passphrase"
              else tr "TPM error" in
            showDialog title (tr "Please use recovery key to unlock device.") kInfo;;;
            ret (mkAcquired true (Some p) (Some true))
          else ret (mkAcquired true (Some p) (Some c1))
      end
  | _, _ => ret (mkAcquired false pwd cancelled)
  end.

(** [bindDaemonSignals]: the slot each signal of the daemon is connected
    to. *)
Definition bindDaemonSignals (n : Notification) : Cmd unit :=
  match n with
  | PrepareEncryptDiskResult dev devName unused code =>
      onPreencryptResult dev devName unused code
  | EncryptDiskResult dev devName code => onEncryptResult dev devName code
  | EncryptProgress dev devName progress => onEncryptProgress dev devName progress
  | DecryptDiskResult dev devName unused code =>
      onDecryptResult dev devName unused code
  | DecryptProgress dev devName progress => onDecryptProgress dev devName progress
  | ChangePassphressResult dev devName unused code =>
      onChgPassphraseResult dev devName unused code
  end.

(** The event loop delivering notifications one after the other. *)
Fixpoint deliver (ns : list Notification) : Cmd unit :=
  match ns with
  | [] => ret tt
  | n :: ns' => bindDaemonSignals n;;; deliver ns'
  end.

End EventsHandler.

(** ** Notions used in the statements *)

(** The key type of the device is one of the three the hook serves. *)
Definition knownKeyType (kPasswordOnly kTPMOnly kTPMAndPIN : Z)
    (encKeyType : string -> Z) (dev : string) : Prop :=
  encKeyType dev = kPasswordOnly \/ encKeyType dev = kTPMOnly \/
  encKeyType dev = kTPMAndPIN.

(** Exactly one of two outcomes. *)
Definition exactlyOne (A B : Prop) : Prop := (A \/ B) /\ ~ (A /\ B).

(** The guarantee of the password hook read for every initial content of
    the output slots: whenever the hook returns true, exactly one of "the
    passphrase is not empty" and "cancelled is true" holds. *)
Definition acquireExactlyOne : Prop :=
  forall kPasswordOnly kTPMOnly kTPMAndPIN encKeyType getPassphraseFromTPM
         unlockDialogUser dev pwd cancelled w r w',
    onAcquireDevicePwd kPasswordOnly kTPMOnly kTPMAndPIN encKeyType
      getPassphraseFromTPM unlockDialogUser dev pwd cancelled w = Some (r, w') ->
    acqReturn r = true ->
    exists p c,
      acqPwd r = Some p /\ acqCancelled r = Some c /\
      exactlyOne (QString.isEmpty p = false) (c = true).

(** A setting for the concrete runs. The numbering of [SecKeyType] and the
    value of the reboot sentinel are not in the sources; any distinct values
    do. The TPM hands out a passphrase for the PIN "1234" only. *)
Module Sample.
Definition kPasswordOnly : Z := 0.
Definition kTPMOnly : Z := 1.
Definition kTPMAndPIN : Z := 2.
Definition kRebootRequired : Z := 4.

Definition encKeyType (dev : string) : Z :=
  if String.eqb dev "/dev/sda1" then kPasswordOnly
  else if String.eqb dev "/dev/sdb1" then kTPMAndPIN
  else if String.eqb dev "/dev/sdc1" then kTPMOnly
  else -1.

Definition getPassphraseFromTPM (dev pin : string) : string :=
  if String.eqb pin "1234" then "tpm-secret" else "".

(** A user who accepts every unlock dialog and types "abc123". *)
Definition userAccepts (init : UnlockType) : Z * (UnlockType * string) :=
  (1, (init, "abc123")).

(** A user who dismisses every unlock dialog. *)
Definition userDismisses (init : UnlockType) : Z * (UnlockType * string) :=
  (0, (init, "")).

(** A user who accepts every unlock dialog without typing anything. *)
Definition userAcceptsEmpty (init : UnlockType) : Z * (UnlockType * string) :=
  (1, (init, EmptyString)).

Definition hook (user : UnlockType -> Z * (UnlockType * string)) :=
  onAcquireDevicePwd kPasswordOnly kTPMOnly kTPMAndPIN encKeyType
    getPassphraseFromTPM user.
End Sample.

(** The two kinds of operation that have a registry. *)
Inductive OperationKind := Encrypt | Decrypt.

#[global] Instance OperationKind_eq_dec : EqDecision OperationKind.
Proof. solve_decision. Defined.

Definition registry (kind : OperationKind) (w : World) : gmap string Handle :=
  match kind with
  | Encrypt => encryptDialogs w
  | Decrypt => decryptDialogs w
  end.

(** The dialog object behind a handle is alive. *)
Definition live (w : World) (h : Handle) : Prop := is_Some (heap w !! h).

(** The entry of [dev] in a registry, if there is one, points to a live
    dialog. *)
Definition entryLive (kind : OperationKind) (dev : string) (w : World) : Prop :=
  forall h, registry kind w !! dev = Some h -> live w h.

(** Every entry of both registries points to a live dialog. *)
Definition registriesLive (w : World) : Prop :=
  forall kind dev, entryLive kind dev w.

(** What the slots connected to a dialog's [destroyed] signal do to the
    encrypt registry. *)
Definition slotsRemove (ss : list Slot) (m : gmap string Handle) : gmap string Handle :=
  foldl (fun m s => match s with RemoveEncryptDialog dev => delete dev m end) m ss.

(** The dialog [onEncryptResult] ends with. *)
Definition encryptResultDialog (dev devName : string) (code : Z) : Event :=
  let device := deviceLabel devName dev in
  if code =? 0
  then ShowDialog (tr "Encrypt done")
         (QString.arg (tr "Device %1 has been encrypted") device) kInfo
  else ShowDialog (tr "Encrypt failed")
         (QString.argInt
            (QString.arg (tr "Device %1 encrypt failed, please see log for more information.(%2)") device)
            code) kError.

(** The events of the reboot confirmation after a decryption. *)
Definition rebootOnDecryptedEvents (rebootDialogUser : Z) (dev devName : string)
  : list Event :=
  ExecDDialog (tr "Decrypt device")
    (QString.arg (tr "Please reboot to decrypt device %1.") (deviceLabel devName dev))
    [tr "Reboot later"; tr "Reboot now"]
  :: (if rebootDialogUser =? 1 then [RequestReboot] else []).

(** The outcome dialog of a decryption. *)
Definition decryptOutcomeDialog (dev devName : string) (code : Z) : Event :=
  let '(title, msg, type) := decryptOutcome dev devName code in
  ShowDialog title msg type.

(** What [onDecryptResult] presents for a result code. *)
Definition decryptResultEvents (kRebootRequired rebootDialogUser : Z)
    (dev devName : string) (code : Z) : list Event :=
  if code =? - kRebootRequired
  then rebootOnDecryptedEvents rebootDialogUser dev devName
  else [decryptOutcomeDialog dev devName code].

(** The result handler of an operation kind. *)
Definition onResult (kRebootRequired rebootDialogUser : Z) (kind : OperationKind)
    (dev devName unused : string) (code : Z) : Cmd unit :=
  match kind with
  | Encrypt => onEncryptResult dev devName code
  | Decrypt => onDecryptResult kRebootRequired rebootDialogUser dev devName unused code
  end.

(** The bit pattern of the double 0.5. *)
Definition half : double := 4602678819172646912.

(** Two worlds for the concrete runs: an encryption of /dev/sda1 and a
    decryption of /dev/sdb1 under way, each with its progress dialog. *)
Definition encryptingWorld : World :=
  mkWorld {[ "/dev/sda1" := 0%nat ]} ∅
    {[ 0%nat := mkDialog "Encrypting...disk(sda1)" (Some half) true
                  [RemoveEncryptDialog "/dev/sda1"] ]}
    []
    [RestoreOverrideCursor; NewProcessDialog 0%nat "Encrypting...disk(sda1)";
     UpdateProgress 0%nat half; ShowProcessDialog 0%nat].

Definition decryptingWorld : World :=
  mkWorld ∅ {[ "/dev/sdb1" := 0%nat ]}
    {[ 0%nat := mkDialog "Decrypting...data(sdb1)" (Some half) true [] ]}
    []
    [RestoreOverrideCursor; NewProcessDialog 0%nat "Decrypting...data(sdb1)";
     UpdateProgress 0%nat half; ShowProcessDialog 0%nat].

(** The progress notification of an operation kind. *)
Definition progressNotification (kind : OperationKind) (dev devName : string)
    (progress : double) : Notification :=
  match kind with
  | Encrypt => EncryptProgress dev devName progress
  | Decrypt => DecryptProgress dev devName progress
  end.

Definition isProgress (n : Notification) : bool :=
  match n with
  | EncryptProgress _ _ _ | DecryptProgress _ _ _ => true
  | _ => false
  end.

(** [n] is a progress notification of [kind] for [dev]. *)
Definition isProgressFor (kind : OperationKind) (dev : string) (n : Notification) : bool :=
  match kind, n with
  | Encrypt, EncryptProgress d _ _ => bool_decide (d = dev)
  | Decrypt, DecryptProgress d _ _ => bool_decide (d = dev)
  | _, _ => false
  end.

(** How many notifications of a sequence are not progress notifications of
    [kind] for [dev]. *)
Fixpoint others (kind : OperationKind) (dev : string) (ns : list Notification) : nat :=
  match ns with
  | [] => 0
  | n :: ns' => ((if isProgressFor kind dev n then 0 else 1) + others kind dev ns')%nat
  end.

(** How many progress dialogs a log of events has seen created. *)
Fixpoint created (evs : list Event) : nat :=
  match evs with
  | [] => 0
  | NewProcessDialog _ _ :: evs' => S (created evs')
  | _ :: evs' => created evs'
  end.

(** The event puts a dialog in front of the user. *)
Definition presentsDialog (e : Event) : bool :=
  match e with
  | ShowDialog _ _ _ | ExecDDialog _ _ _ | ExecUnlockDialog _
  | ShowProcessDialog _ => true
  | _ => false
  end.





(** The text has no ['%'], hence no place marker of its own. *)
Fixpoint noPercent (s : string) : bool :=
  match s with
  | EmptyString => true
  | String c r => negb (QString.is_percent c) && noPercent r
  end.

(** A run of progress notifications for the concrete runs. *)
Definition progressRun : list Notification :=
  [EncryptProgress "/dev/sda1" "disk" half;
   DecryptProgress "/dev/sdb1" "data" half;
   EncryptProgress "/dev/sda1" "disk" half].

(** ** The state the handler keeps between notifications *)

#[global] Instance Slot_eq_dec : EqDecision Slot.
Proof. solve_decision. Defined.

(** What holds of the registries and the dialogs as long as dialogs come and
    go through the handler only:
    - an encrypt entry points to a live dialog that carries the slot
      removing that entry;
    - a slot on a live dialog names a device registered to that very dialog;
    - a decrypt entry points to a live dialog without slots;
    - every live dialog is referenced by a registry or awaits its posted
      deletion;
    - a posted deletion is for a live dialog. *)
Definition wellFormedParts (enc dec : gmap string Handle)
    (hp : gmap Handle EncryptProcessDialog) (posted : list Handle) : Prop :=
  (forall dev h, enc !! dev = Some h ->
     exists d, hp !! h = Some d /\ RemoveEncryptDialog dev ∈ dlgDestroyed d) /\
  (forall h d dev, hp !! h = Some d -> RemoveEncryptDialog dev ∈ dlgDestroyed d ->
     enc !! dev = Some h) /\
  (forall dev h, dec !! dev = Some h ->
     exists d, hp !! h = Some d /\ dlgDestroyed d = []) /\
  (forall h d, hp !! h = Some d ->
     (exists dev, enc !! dev = Some h) \/ (exists dev, dec !! dev = Some h) \/
     h ∈ posted) /\
  (forall h, h ∈ posted -> is_Some (hp !! h)).

Definition wellFormed (w : World) : Prop :=
  wellFormedParts (encryptDialogs w) (decryptDialogs w) (heap w) (deferred w).

(** The result notification of an operation kind. *)
Definition resultNotification (kind : OperationKind) (dev devName unused : string)
    (code : Z) : Notification :=
  match kind with
  | Encrypt => EncryptDiskResult dev devName code
  | Decrypt => DecryptDiskResult dev devName unused code
  end.

(** Progress notifications of one kind for one device, each with the
    display name and the progress it carries. *)
Definition progressList (kind : OperationKind) (dev : string)
    (ps : list (string * double)) : list Notification :=
  map (fun np => progressNotification kind dev (fst np) (snd np)) ps.

(** One operation on a device as the daemon reports it: a first progress,
    more progress, the result. *)
Definition operation (kind : OperationKind) (dev devName : string) (progress : double)
    (ps : list (string * double)) (devName' unused : string) (code : Z)
  : list Notification :=
  progressNotification kind dev devName progress
  :: progressList kind dev ps ++ [resultNotification kind dev devName' unused code].

(** A mixed run of notifications for the concrete runs. *)
Definition notificationRun : list Notification :=
  [EncryptProgress "/dev/sda1" "disk" 0;
   DecryptProgress "/dev/sdb1" "data" half;
   PrepareEncryptDiskResult "/dev/sdc1" "usb" "" (-1);
   EncryptDiskResult "/dev/sda1" "disk" 0;
   DecryptDiskResult "/dev/sdb1" "data" "" (-4);
   DecryptDiskResult "/dev/sdb1" "data" "" (-4);
   ChangePassphressResult "/dev/sda1" "disk" "" (-3);
   EncryptProgress "/dev/sda1" "disk" half].

(** The registry a notification works on, if any. *)
Definition registryOf (n : Notification) : option OperationKind :=
  match n with
  | EncryptDiskResult _ _ _ | EncryptProgress _ _ _ => Some Encrypt
  | DecryptDiskResult _ _ _ _ | DecryptProgress _ _ _ => Some Decrypt
  | PrepareEncryptDiskResult _ _ _ _ | ChangePassphressResult _ _ _ _ => None
  end.

(** The device a notification is about. *)
Definition deviceOf (n : Notification) : string :=
  match n with
  | PrepareEncryptDiskResult dev _ _ _ | EncryptDiskResult dev _ _
  | EncryptProgress dev _ _ | DecryptDiskResult dev _ _ _
  | DecryptProgress dev _ _ | ChangePassphressResult dev _ _ _ => dev
  end.

Definition isEncryptResult (n : Notification) : bool :=
  match n with
  | EncryptDiskResult _ _ _ => true
  | _ => false
  end.

Definition otherKind (kind : OperationKind) : OperationKind :=
  match kind with
  | Encrypt => Decrypt
  | Decrypt => Encrypt
  end.

(** How many reboot requests a log of events holds. *)
Fixpoint requests (evs : list Event) : nat :=
  match evs with
  | [] => 0
  | RequestReboot :: evs' => S (requests evs')
  | _ :: evs' => requests evs'
  end.

(** The notification leads to a reboot confirmation: a successful
    pre-encryption, or a decryption that ends with the reboot sentinel. *)
Definition asksReboot (kRebootRequired : Z) (n : Notification) : bool :=
  match n with
  | PrepareEncryptDiskResult _ _ _ code => code =? kSuccess
  | DecryptDiskResult _ _ _ code => code =? - kRebootRequired
  | _ => false
  end.

(** The reboot confirmation after a pre-encryption. *)
Definition rebootOnPreencryptedDialog (dev devName : string) : Event :=
  ExecDDialog (tr "Preencrypt done")
    (QString.arg (tr "Device %1 has been preencrypt, please reboot to finish encryption.")
       (deviceLabel devName dev))
    [tr "Reboot later"; tr "Reboot now"].

(** The three key types are different numbers, as the case labels of one
    switch are. *)
Definition distinctKeyTypes (kPasswordOnly kTPMOnly kTPMAndPIN : Z) : Prop :=
  kPasswordOnly <> kTPMOnly /\ kPasswordOnly <> kTPMAndPIN /\ kTPMOnly <> kTPMAndPIN.

(** The advice the password hook ends with when no passphrase came out. *)
Definition recoveryAdvice (title : string) : Event :=
  ShowDialog title (tr "Please use recovery key to unlock device.") kInfo.

(** The world with more events in its log. *)
Definition logged (w : World) (evs : list Event) : World :=
  mkWorld (encryptDialogs w) (decryptDialogs w) (heap w) (deferred w) (trace w ++ evs).

(** How many advisory dialogs a log of events holds. *)
Fixpoint advices (evs : list Event) : nat :=
  match evs with
  | [] => 0
  | ShowDialog _ _ _ :: evs' => S (advices evs')
  | _ :: evs' => advices evs'
  end.

(** How many unlock dialogs a log of events holds. *)
Fixpoint unlockDialogs (evs : list Event) : nat :=
  match evs with
  | [] => 0
  | ExecUnlockDialog _ :: evs' => S (unlockDialogs evs')
  | _ :: evs' => unlockDialogs evs'
  end.

(** The result of the decryption of /dev/sdb1 that asks for a reboot in the
    sample setting. *)
Definition decryptRebootResult : Notification :=
  DecryptDiskResult "/dev/sdb1" "data" "" (-4).

(** The unlock step of the password hook is accepted: the unlock dialog of
    the device's scheme ends with 1, or the scheme has no dialog (TPM
    only). A device of no served scheme has no unlock step. *)
Definition accepted (kPasswordOnly kTPMOnly kTPMAndPIN : Z)
    (encKeyType : string -> Z)
    (unlockDialogUser : UnlockType -> Z * (UnlockType * string))
    (dev : string) : bool :=
  let type := encKeyType dev in
  if type =? kTPMAndPIN then fst (unlockDialogUser kPin) =? 1
  else if type =? kTPMOnly then true
  else if type =? kPasswordOnly then fst (unlockDialogUser kPwd) =? 1
  else false.

(** "On every accepting path the cancelled slot retains whatever value the
    caller passed in." *)
Definition cancelledKeptOnAccept : Prop :=
  forall kPasswordOnly kTPMOnly kTPMAndPIN encKeyType getPassphraseFromTPM
         unlockDialogUser dev pwd c0 w r w',
    accepted kPasswordOnly kTPMOnly kTPMAndPIN encKeyType unlockDialogUser dev = true ->
    onAcquireDevicePwd kPasswordOnly kTPMOnly kTPMAndPIN encKeyType
      getPassphraseFromTPM unlockDialogUser dev pwd (Some c0) w = Some (r, w') ->
    acqReturn r = true ->
    acqCancelled r = Some c0.

(** The progress value a progress notification carries. *)
Definition progressOf (n : Notification) : option double :=
  match n with
  | EncryptProgress _ _ progress | DecryptProgress _ _ progress => Some progress
  | _ => None
  end.

(** How many notifications of a sequence are progress notifications of
    [kind] for [dev]. *)
Fixpoint repeats (kind : OperationKind) (dev : string) (ns : list Notification) : nat :=
  match ns with
  | [] => 0
  | n :: ns' => ((if isProgressFor kind dev n then 1 else 0) + repeats kind dev ns')%nat
  end.

(** The progress value of the last notification of [kind] for [dev] in a
    sequence, [p0] when the sequence has none. *)
Fixpoint lastProgress (kind : OperationKind) (dev : string) (p0 : double)
    (ns : list Notification) : double :=
  match ns with
  | [] => p0
  | n :: ns' =>
      lastProgress kind dev
        (if isProgressFor kind dev n then default p0 (progressOf n) else p0) ns'
  end.

(** How many times a log of events has seen the dialog [h] updated. *)
Fixpoint updates (h : Handle) (evs : list Event) : nat :=
  match evs with
  | [] => 0
  | UpdateProgress h' _ :: evs' =>
      ((if bool_decide (h' = h) then 1 else 0) + updates h evs')%nat
  | _ :: evs' => updates h evs'
  end.

(** The example of Qt's documentation of [arg]: chained calls substitute
    into what the first call inserted. *)
Example arg_chained_doc :
  QString.arg (QString.arg "%1 %2" "%1f") "Hello" = "Hellof %2".
Proof. reflexivity. Qed.

Example arg_two_markers :
  QString.arg (QString.arg "%1(%2)" "disk") (QString.mid 5 "/dev/sda1") = "disk(sda1)".
Proof. reflexivity. Qed.

Example argInt_negative :
  QString.argInt "failed.(%2)" (-7) = "failed.(-7)".
Proof. vm_compute. reflexivity. Qed.

Example onEncryptProgress_first :
  exec (onEncryptProgress "/dev/sda1" "disk" half) emptyWorld = Some encryptingWorld.
Proof. vm_compute. reflexivity. Qed.

Example onDecryptProgress_first :
  exec (onDecryptProgress "/dev/sdb1" "data" half) emptyWorld = Some decryptingWorld.
Proof. vm_compute. reflexivity. Qed.

(** ** The password hook *)

Section PasswordHook.

Variables kPasswordOnly kTPMOnly kTPMAndPIN : Z.
Variable encKeyType : string -> Z.
Variable getPassphraseFromTPM : string -> string -> string.
Variable unlockDialogUser : UnlockType -> Z * (UnlockType * string).

Let hook := onAcquireDevicePwd kPasswordOnly kTPMOnly kTPMAndPIN encKeyType
              getPassphraseFromTPM unlockDialogUser.

Let known := knownKeyType kPasswordOnly kTPMOnly kTPMAndPIN encKeyType.

Let takes := accepted kPasswordOnly kTPMOnly kTPMAndPIN encKeyType unlockDialogUser.

Ltac hook_unfold :=
  unfold hook, onAcquireDevicePwd, acquirePassphraseByPIN, acquirePassphraseByTPM,
    acquirePassphrase, showDialog, emit, modify, bind, ret.

Ltac hook_cases :=
  repeat match goal with
    | _ => progress (cbn [negb andb fst snd QString.isEmpty UnlockType_eqb])
    | |- context [Z.eqb ?a ?b] => destruct (Z.eqb_spec a b)
    | |- context [unlockDialogUser ?t] =>
        let r := fresh "r" in let k := fresh "k" in let s := fresh "s" in
        destruct (unlockDialogUser t) as [r [k s]] eqn:?
    | |- context [UnlockType_eqb ?a kPin] => is_var a; destruct a
    | |- context [QString.isEmpty ?p] => destruct (QString.isEmpty p) eqn:?
    | |- context [negb ?c] => is_var c; destruct c
    end.

(** The hook never runs into undefined behaviour and leaves the registries
    and the dialogs alone: it only adds events. *)
Lemma onAcquireDevicePwd_defined dev pwd cancelled w :
  exists r evs,
    hook dev pwd cancelled w
    = Some (r, mkWorld (encryptDialogs w) (decryptDialogs w) (heap w) (deferred w)
                       (trace w ++ evs)).
Proof.
  hook_unfold. destruct w as [e d h q t]; cbn [encryptDialogs decryptDialogs heap deferred trace].
  destruct pwd as [p0|], cancelled as [c0|]; hook_cases;
    cbn [encryptDialogs decryptDialogs heap deferred trace];
    rewrite <- ?app_assoc;
    first [ eexists; eexists; reflexivity
          | eexists; exists []; rewrite app_nil_r; reflexivity ].
Qed.

(** C2. The hook returns false exactly when an output pointer is null or
    the key type of the device is none of [kPasswordOnly], [kTPMOnly],
    [kTPMAndPIN]; in every other case, whatever the user does at the
    dialog, it returns true. It is defined on every input. *)
Theorem onAcquireDevicePwd_false_iff dev pwd cancelled w :
  exists r w',
    hook dev pwd cancelled w = Some (r, w') /\
    (acqReturn r = false <->
     pwd = None \/ cancelled = None \/ ~ known dev).
Proof.
  hook_unfold. unfold known, knownKeyType.
  destruct pwd as [p0|], cancelled as [c0|]; hook_cases;
    (eexists; eexists; split; [reflexivity|]); cbn [acqReturn];
    (split;
     [ intros H; try discriminate;
       first [ left; reflexivity | right; left; reflexivity
             | right; right; intros [?|[?|?]]; congruence ]
     | intros [H|[H|H]]; try discriminate; try reflexivity;
       exfalso; apply H; auto ]).
Qed.

(** The hook is defined and, when it returns true, both slots are
    non-null and hold the values below. *)
Lemma onAcquireDevicePwd_true_slots dev pwd cancelled w r w' :
  hook dev pwd cancelled w = Some (r, w') ->
  acqReturn r = true ->
  exists p0 c0 p c,
    pwd = Some p0 /\ cancelled = Some c0 /\
    acqPwd r = Some p /\ acqCancelled r = Some c /\
    (QString.isEmpty p = false \/ c = true) /\
    (c = c0 \/ c = true) /\
    (QString.isEmpty p = false -> c = c0).
Proof.
  hook_unfold.
  destruct pwd as [p0|], cancelled as [c0|]; hook_cases;
    intros Hrun; inversion Hrun; subst; clear Hrun;
    cbn [acqReturn acqPwd acqCancelled]; try discriminate;
    intros _; do 4 eexists; repeat split; try reflexivity; auto;
    solve [congruence | cbn; discriminate].
Qed.

(** C1, as the handler has it. Whenever the hook returns true, the
    passphrase is not empty or cancelled is true: never both falsy. When
    the caller passed cancelled = false, exactly one of the two holds. *)
Theorem onAcquireDevicePwd_never_both_falsy dev pwd cancelled w :
  exists r w',
    hook dev pwd cancelled w = Some (r, w') /\
    (acqReturn r = true ->
     exists p c,
       acqPwd r = Some p /\ acqCancelled r = Some c /\
       (QString.isEmpty p = false \/ c = true) /\
       (cancelled = Some false ->
        exactlyOne (QString.isEmpty p = false) (c = true))).
Proof.
  destruct (onAcquireDevicePwd_defined dev pwd cancelled w) as (r & evs & Hrun).
  exists r. eexists. split; [exact Hrun|]. intros Htrue.
  destruct (onAcquireDevicePwd_true_slots _ _ _ _ _ _ Hrun Htrue)
    as (p0 & c0 & p & c & -> & -> & Hp & Hc & Hone & Hset & Hkeep).
  exists p, c. split; [exact Hp|]. split; [exact Hc|]. split; [exact Hone|].
  intros [= ->]. split; [exact Hone|].
  intros [Hne Hct]. specialize (Hkeep Hne). congruence.
Qed.

(** What the unlock step decides about the slots of a run that returns
    true: accepted, the cancelled slot ends as the caller's value or-ed
    with "the passphrase is empty"; dismissed, it ends true next to an
    empty passphrase. *)
Lemma onAcquireDevicePwd_accepted_slots dev pwd cancelled w r w' c0 p c :
  hook dev pwd cancelled w = Some (r, w') ->
  acqReturn r = true ->
  cancelled = Some c0 -> acqPwd r = Some p -> acqCancelled r = Some c ->
  (takes dev = true -> c = c0 || QString.isEmpty p) /\
  (takes dev = false -> c = true /\ p = EmptyString).
Proof.
  hook_unfold. unfold takes, accepted.
  destruct pwd as [p0|], cancelled as [c1|]; hook_cases;
    intros Hrun; inversion Hrun; subst; clear Hrun;
    cbn [acqReturn acqPwd acqCancelled]; try discriminate;
    intros _ Hc0 Hp Hc;
    injection Hc0 as <-; injection Hp as <-; injection Hc as <-;
    (split; intros Htakes; try discriminate Htakes);
    try (exfalso; cbn [fst snd QString.isEmpty] in *; congruence);
    repeat match goal with
      | H : QString.isEmpty _ = _ |- _ => rewrite H
      end;
    try (split; reflexivity);
    try (destruct c1; reflexivity).
Qed.

(** C9, as the handler has it. The hook never writes false to the
    cancelled slot. When it returns false both slots are as the caller
    left them. When it returns true the slot holds the caller's value or
    true and a true passed in stays true; on an accepting path the slot
    ends as the caller's value or-ed with "the passphrase is empty": it
    keeps the caller's value when a passphrase came out, and is set to
    true when none did. On a dismissal it is true and the passphrase is
    empty. *)
Theorem onAcquireDevicePwd_cancelled_only_set dev pwd cancelled w :
  exists r w',
    hook dev pwd cancelled w = Some (r, w') /\
    (acqReturn r = false -> acqPwd r = pwd /\ acqCancelled r = cancelled) /\
    (acqReturn r = true ->
     exists c0 p c,
       cancelled = Some c0 /\ acqPwd r = Some p /\ acqCancelled r = Some c /\
       (c = c0 \/ c = true) /\
       (c0 = true -> c = true) /\
       (QString.isEmpty p = false -> c = c0) /\
       (takes dev = true -> c = c0 || QString.isEmpty p) /\
       (takes dev = false -> c = true /\ p = EmptyString)).
Proof.
  destruct (onAcquireDevicePwd_defined dev pwd cancelled w) as (r & evs & Hrun).
  exists r. eexists. split; [exact Hrun|]. split.
  - revert Hrun. hook_unfold.
    destruct pwd as [p0|], cancelled as [c0|]; hook_cases;
      intros Hrun; inversion Hrun; subst; clear Hrun;
      cbn [acqReturn acqPwd acqCancelled]; intros; try discriminate; auto.
  - intros Htrue.
    destruct (onAcquireDevicePwd_true_slots _ _ _ _ _ _ Hrun Htrue)
      as (p0 & c0 & p & c & -> & -> & Hp & Hc & Hone & Hset & Hkeep).
    exists c0, p, c. split; [reflexivity|]. split; [exact Hp|].
    split; [exact Hc|]. split; [exact Hset|].
    split; [intros ->; destruct Hset; auto|]. split; [exact Hkeep|].
    exact (onAcquireDevicePwd_accepted_slots _ _ _ _ _ _ _ _ _
             Hrun Htrue eq_refl Hp Hc).
Qed.

End PasswordHook.

(** C1 read for every initial content of the slots does not hold: the
    device is protected by a password, the caller passes cancelled = true,
    the user types "abc123" and accepts. The hook returns true with a
    passphrase and with cancelled still true. *)
Lemma acquireExactlyOne_fails : ~ acquireExactlyOne.
Proof.
  intros Hclaim.
  destruct (Hclaim Sample.kPasswordOnly Sample.kTPMOnly Sample.kTPMAndPIN
              Sample.encKeyType Sample.getPassphraseFromTPM Sample.userAccepts
              "/dev/sda1" (Some "") (Some true) emptyWorld
              (mkAcquired true (Some "abc123") (Some true))
              (mkWorld ∅ ∅ ∅ [] [ExecUnlockDialog kPwd])
              eq_refl eq_refl)
    as (p & c & Hp & Hc & _ & Hboth).
  cbn in Hp, Hc. injection Hp as <-. injection Hc as <-.
  apply Hboth. split; reflexivity.
Qed.

Example onAcquireDevicePwd_stale_cancelled :
  Sample.hook Sample.userAccepts "/dev/sda1" (Some "") (Some true) emptyWorld
  = Some (mkAcquired true (Some "abc123") (Some true),
          mkWorld ∅ ∅ ∅ [] [ExecUnlockDialog kPwd]).
Proof. reflexivity. Qed.

Example onAcquireDevicePwd_password_accepted :
  Sample.hook Sample.userAccepts "/dev/sda1" (Some "") (Some false) emptyWorld
  = Some (mkAcquired true (Some "abc123") (Some false),
          mkWorld ∅ ∅ ∅ [] [ExecUnlockDialog kPwd]).
Proof. reflexivity. Qed.

Example onAcquireDevicePwd_password_dismissed :
  Sample.hook Sample.userDismisses "/dev/sda1" (Some "old") (Some false) emptyWorld
  = Some (mkAcquired true (Some "") (Some true),
          mkWorld ∅ ∅ ∅ [] [ExecUnlockDialog kPwd]).
Proof. reflexivity. Qed.

(** The PIN "abc123" is not the one the TPM knows: the passphrase comes back
    empty, the advice is shown once and cancelled is forced. *)
Example onAcquireDevicePwd_wrong_pin :
  Sample.hook Sample.userAccepts "/dev/sdb1" (Some "") (Some false) emptyWorld
  = Some (mkAcquired true (Some "") (Some true),
          mkWorld ∅ ∅ ∅ []
            [ExecUnlockDialog kPin;
             ShowDialog "Wrong PIN" "Please use recovery key to unlock device." kInfo]).
Proof. reflexivity. Qed.

Example onAcquireDevicePwd_tpm_only :
  Sample.hook Sample.userAccepts "/dev/sdc1" (Some "") (Some false) emptyWorld
  = Some (mkAcquired true (Some "") (Some true),
          mkWorld ∅ ∅ ∅ []
            [ShowDialog "TPM error" "Please use recovery key to unlock device." kInfo]).
Proof. reflexivity. Qed.

Example onAcquireDevicePwd_unknown_scheme :
  Sample.hook Sample.userAccepts "/dev/sdd1" (Some "old") (Some false) emptyWorld
  = Some (mkAcquired false (Some "old") (Some false), emptyWorld).
Proof. reflexivity. Qed.

Example onAcquireDevicePwd_null_slot :
  Sample.hook Sample.userAccepts "/dev/sda1" None (Some false) emptyWorld
  = Some (mkAcquired false None (Some false), emptyWorld).
Proof. reflexivity. Qed.

(** The hook at a concrete request: password device, cancelled = false, the
    user accepts. *)
Lemma onAcquireDevicePwd_never_both_falsy_witness :
  exists r w',
    Sample.hook Sample.userAccepts "/dev/sda1" (Some "") (Some false) emptyWorld
    = Some (r, w') /\
    acqReturn r = true /\
    exists p c,
      acqPwd r = Some p /\ acqCancelled r = Some c /\
      (QString.isEmpty p = false \/ c = true) /\
      exactlyOne (QString.isEmpty p = false) (c = true).
Proof.
  destruct (onAcquireDevicePwd_never_both_falsy
              Sample.kPasswordOnly Sample.kTPMOnly Sample.kTPMAndPIN
              Sample.encKeyType Sample.getPassphraseFromTPM Sample.userAccepts
              "/dev/sda1" (Some "") (Some false) emptyWorld)
    as (r & w' & Hrun & Hprop).
  exists r, w'. split; [exact Hrun|].
  assert (Htrue : acqReturn r = true).
  { vm_compute in Hrun. injection Hrun as <- _. reflexivity. }
  split; [exact Htrue|].
  destruct (Hprop Htrue) as (p & c & Hp & Hc & Hone & Hex).
  exists p, c. repeat split; auto; apply Hex; reflexivity.
Defined.

(** C9 read as "an accepted unlock step leaves the cancelled slot as the
    caller passed it" does not hold: the device is protected by a password,
    the caller passes cancelled = false, the user accepts the dialog with
    nothing typed. The passphrase comes back empty, the advice is shown and
    the slot is set to true. *)
Lemma cancelledKeptOnAccept_fails : ~ cancelledKeptOnAccept.
Proof.
  intros Hclaim.
  specialize (Hclaim Sample.kPasswordOnly Sample.kTPMOnly Sample.kTPMAndPIN
                Sample.encKeyType Sample.getPassphraseFromTPM Sample.userAcceptsEmpty
                "/dev/sda1" (Some "old") false emptyWorld
                (mkAcquired true (Some "") (Some true))
                (mkWorld ∅ ∅ ∅ []
                   [ExecUnlockDialog kPwd;
                    ShowDialog "Wrong passphrase"
                      "Please use recovery key to unlock device." kInfo])
                eq_refl eq_refl eq_refl).
  discriminate Hclaim.
Qed.

Example onAcquireDevicePwd_accepted_empty :
  Sample.hook Sample.userAcceptsEmpty "/dev/sda1" (Some "old") (Some false) emptyWorld
  = Some (mkAcquired true (Some "") (Some true),
          mkWorld ∅ ∅ ∅ []
            [ExecUnlockDialog kPwd;
             ShowDialog "Wrong passphrase" "Please use recovery key to unlock device."
               kInfo]).
Proof. reflexivity. Qed.

(** The hook at a concrete request: password device, cancelled = false, the
    user types "abc123" and accepts. The slot still holds false. *)
Lemma onAcquireDevicePwd_cancelled_only_set_witness :
  exists r w',
    Sample.hook Sample.userAccepts "/dev/sda1" (Some "old") (Some false) emptyWorld
    = Some (r, w') /\
    acqReturn r = true /\
    accepted Sample.kPasswordOnly Sample.kTPMOnly Sample.kTPMAndPIN
      Sample.encKeyType Sample.userAccepts "/dev/sda1" = true /\
    acqPwd r = Some "abc123" /\
    acqCancelled r = Some false.
Proof.
  destruct (onAcquireDevicePwd_cancelled_only_set
              Sample.kPasswordOnly Sample.kTPMOnly Sample.kTPMAndPIN
              Sample.encKeyType Sample.getPassphraseFromTPM Sample.userAccepts
              "/dev/sda1" (Some "old") (Some false) emptyWorld)
    as (r & w' & Hrun & _ & Hprop).
  exists r, w'. split; [exact Hrun|].
  assert (Hr : r = mkAcquired true (Some "abc123") (Some false)).
  { vm_compute in Hrun. injection Hrun as <- _. reflexivity. }
  assert (Htrue : acqReturn r = true) by (rewrite Hr; reflexivity).
  split; [exact Htrue|]. split; [reflexivity|].
  destruct (Hprop Htrue) as (c0 & p & c & Hc0 & Hp & Hc & _ & _ & Hkeep & Htakes & _).
  assert (Hp' : p = "abc123") by (rewrite Hr in Hp; cbn in Hp; congruence).
  split; [rewrite Hp, Hp'; reflexivity|].
  rewrite Hc. f_equal.
  rewrite (Hkeep ltac:(rewrite Hp'; reflexivity)). congruence.
Defined.

(** ** The registries of progress dialogs *)

Ltac cmd_unfold :=
  unfold exec, newEncryptProcessDialog, connectDestroyed, updateProgress, show,
    destroy, deleteLater, restoreOverrideCursor, showDialog, requestReboot, deref,
    setEncryptDialogs, setDecryptDialogs, setHeap, setDeferred, emit, modify, get,
    bind, ret;
  cbn [encryptDialogs decryptDialogs heap deferred trace fst snd].

Ltac heap_simpl :=
  repeat first
    [ match goal with H : _ !! _ = _ |- _ => rewrite H end
    | rewrite lookup_insert_eq
    | rewrite insert_insert_eq
    | rewrite <- app_assoc
    | progress cbn [encryptDialogs decryptDialogs heap deferred trace fst snd
                    dlgTitle dlgProgress dlgVisible dlgDestroyed app negb
                    bool_decide is_Some_dec decide_rel] ].

(** [hasEnDecryptJob] answers true exactly when one of the registries has
    an entry. *)
Lemma hasEnDecryptJob_spec w :
  exists b,
    hasEnDecryptJob w = Some (b, w) /\
    (b = false <-> encryptDialogs w = ∅ /\ decryptDialogs w = ∅).
Proof.
  unfold hasEnDecryptJob, bind, get, ret. eexists. split; [reflexivity|].
  rewrite negb_false_iff, andb_true_iff, !bool_decide_eq_true. reflexivity.
Qed.

(** *** Progress notifications *)

Lemma onEncryptProgress_new dev devName progress w :
  encryptDialogs w !! dev = None ->
  let h := fresh (dom (heap w)) in
  let title := QString.arg (tr "Encrypting...%1") (deviceLabel devName dev) in
  exec (onEncryptProgress dev devName progress) w
  = Some (mkWorld (<[dev := h]> (encryptDialogs w)) (decryptDialogs w)
            (<[h := mkDialog title (Some progress) true [RemoveEncryptDialog dev]]> (heap w))
            (deferred w)
            (trace w ++ [RestoreOverrideCursor; NewProcessDialog h title;
                         UpdateProgress h progress; ShowProcessDialog h])).
Proof.
  intros Hnone h title. unfold onEncryptProgress. cmd_unfold.
  heap_simpl. reflexivity.
Qed.

Lemma onDecryptProgress_new dev devName progress w :
  decryptDialogs w !! dev = None ->
  let h := fresh (dom (heap w)) in
  let title := QString.arg (tr "Decrypting...%1") (deviceLabel devName dev) in
  exec (onDecryptProgress dev devName progress) w
  = Some (mkWorld (encryptDialogs w) (<[dev := h]> (decryptDialogs w))
            (<[h := mkDialog title (Some progress) true []]> (heap w))
            (deferred w)
            (trace w ++ [RestoreOverrideCursor; NewProcessDialog h title;
                         UpdateProgress h progress; ShowProcessDialog h])).
Proof.
  intros Hnone h title. unfold onDecryptProgress. cmd_unfold.
  heap_simpl. reflexivity.
Qed.

Lemma onEncryptProgress_update dev devName progress w h d :
  encryptDialogs w !! dev = Some h ->
  heap w !! h = Some d ->
  exec (onEncryptProgress dev devName progress) w
  = Some (mkWorld (encryptDialogs w) (decryptDialogs w)
            (<[h := mkDialog (dlgTitle d) (Some progress) true (dlgDestroyed d)]> (heap w))
            (deferred w)
            (trace w ++ [UpdateProgress h progress; ShowProcessDialog h])).
Proof.
  intros Hsome Hlive. unfold onEncryptProgress. cmd_unfold.
  heap_simpl. reflexivity.
Qed.

Lemma onDecryptProgress_update dev devName progress w h d :
  decryptDialogs w !! dev = Some h ->
  heap w !! h = Some d ->
  exec (onDecryptProgress dev devName progress) w
  = Some (mkWorld (encryptDialogs w) (decryptDialogs w)
            (<[h := mkDialog (dlgTitle d) (Some progress) true (dlgDestroyed d)]> (heap w))
            (deferred w)
            (trace w ++ [UpdateProgress h progress; ShowProcessDialog h])).
Proof.
  intros Hsome Hlive. unfold onDecryptProgress. cmd_unfold.
  heap_simpl. reflexivity.
Qed.

(** A progress notification for an entry whose dialog is gone dereferences
    a dangling pointer. *)
Lemma onDecryptProgress_dangling dev devName progress w h :
  decryptDialogs w !! dev = Some h ->
  heap w !! h = None ->
  exec (onDecryptProgress dev devName progress) w = None.
Proof.
  intros Hsome Hdead. unfold onDecryptProgress. cmd_unfold.
  heap_simpl. reflexivity.
Qed.

(** *** Destruction of a dialog *)

Lemma runSlots_spec ss w :
  runSlots ss w
  = Some (tt, mkWorld (slotsRemove ss (encryptDialogs w)) (decryptDialogs w)
                (heap w) (deferred w) (trace w)).
Proof.
  revert w. induction ss as [|[dev] ss IH]; intros w.
  - destruct w; reflexivity.
  - cbn [runSlots runSlot]. unfold bind, setEncryptDialogs, modify.
    rewrite IH. reflexivity.
Qed.

Lemma destroy_live h d w :
  heap w !! h = Some d ->
  exec (destroy (Some h)) w
  = Some (mkWorld (slotsRemove (dlgDestroyed d) (encryptDialogs w)) (decryptDialogs w)
            (delete h (heap w)) (filter (fun h' => h' <> h) (deferred w))
            (trace w ++ [Destroyed h])).
Proof.
  intros Hlive. cmd_unfold. heap_simpl.
  rewrite runSlots_spec. heap_simpl. reflexivity.
Qed.

Lemma destroy_dangling h w :
  heap w !! h = None -> exec (destroy (Some h)) w = None.
Proof. intros Hdead. cmd_unfold. heap_simpl. reflexivity. Qed.

(** *** Result notifications *)

Lemma onEncryptResult_absent dev devName code w :
  encryptDialogs w !! dev = None ->
  exec (onEncryptResult dev devName code) w
  = Some (mkWorld (encryptDialogs w) (decryptDialogs w) (heap w) (deferred w)
            (trace w ++ [RestoreOverrideCursor; encryptResultDialog dev devName code])).
Proof.
  intros Hnone. unfold onEncryptResult, encryptResultDialog. cmd_unfold.
  heap_simpl. destruct (code =? 0); reflexivity.
Qed.

Lemma onEncryptResult_present dev devName code w h d :
  encryptDialogs w !! dev = Some h ->
  heap w !! h = Some d ->
  exec (onEncryptResult dev devName code) w
  = Some (mkWorld (delete dev (slotsRemove (dlgDestroyed d) (encryptDialogs w)))
            (decryptDialogs w) (delete h (heap w))
            (filter (fun h' => h' <> h) (deferred w))
            (trace w ++ [RestoreOverrideCursor; Destroyed h;
                         encryptResultDialog dev devName code])).
Proof.
  intros Hsome Hlive. unfold onEncryptResult, encryptResultDialog. cmd_unfold.
  heap_simpl. rewrite runSlots_spec. heap_simpl.
  destruct (code =? 0); reflexivity.
Qed.

Lemma onEncryptResult_dangling dev devName code w h :
  encryptDialogs w !! dev = Some h ->
  heap w !! h = None ->
  exec (onEncryptResult dev devName code) w = None.
Proof.
  intros Hsome Hdead. unfold onEncryptResult. cmd_unfold. heap_simpl. reflexivity.
Qed.

Section DecryptResult.

Variables kRebootRequired rebootDialogUser : Z.

Let onDecryptResult' := onDecryptResult kRebootRequired rebootDialogUser.
Let presented := decryptResultEvents kRebootRequired rebootDialogUser.

Lemma onDecryptResult_absent dev devName unused code w :
  decryptDialogs w !! dev = None ->
  exec (onDecryptResult' dev devName unused code) w
  = Some (mkWorld (encryptDialogs w) (decryptDialogs w) (heap w) (deferred w)
            (trace w ++ RestoreOverrideCursor :: presented dev devName code)).
Proof.
  intros Hnone.
  unfold onDecryptResult', presented, onDecryptResult, decryptResultEvents,
    showRebootOnDecrypted, rebootOnDecryptedEvents, showDecryptError,
    decryptOutcomeDialog.
  cmd_unfold. heap_simpl.
  destruct (code =? - kRebootRequired).
  - destruct (rebootDialogUser =? 1); cmd_unfold; heap_simpl; reflexivity.
  - destruct (decryptOutcome dev devName code) as [[title msg] type].
    cmd_unfold; heap_simpl; reflexivity.
Qed.

Lemma onDecryptResult_present dev devName unused code w h d :
  decryptDialogs w !! dev = Some h ->
  heap w !! h = Some d ->
  exec (onDecryptResult' dev devName unused code) w
  = Some (mkWorld (encryptDialogs w) (delete dev (decryptDialogs w)) (heap w)
            (deferred w ++ [h])
            (trace w ++ RestoreOverrideCursor :: DeleteLater h
                     :: presented dev devName code)).
Proof.
  intros Hsome Hlive.
  unfold onDecryptResult', presented, onDecryptResult, decryptResultEvents,
    showRebootOnDecrypted, rebootOnDecryptedEvents, showDecryptError,
    decryptOutcomeDialog.
  cmd_unfold. heap_simpl.
  destruct (code =? - kRebootRequired).
  - destruct (rebootDialogUser =? 1); cmd_unfold; heap_simpl; reflexivity.
  - destruct (decryptOutcome dev devName code) as [[title msg] type].
    cmd_unfold; heap_simpl; reflexivity.
Qed.

Lemma onDecryptResult_dangling dev devName unused code w h :
  decryptDialogs w !! dev = Some h ->
  heap w !! h = None ->
  exec (onDecryptResult' dev devName unused code) w = None.
Proof.
  intros Hsome Hdead. unfold onDecryptResult', onDecryptResult. cmd_unfold.
  heap_simpl. reflexivity.
Qed.

End DecryptResult.

(** ** Terminal results *)

Section Results.

Variables kRebootRequired rebootDialogUser : Z.

Let result := onResult kRebootRequired rebootDialogUser.

(** A result notification is defined when the entry of the device is
    live, and leaves the registry of its kind without an entry for the
    device. *)
Lemma onResult_removes kind dev devName unused code w :
  entryLive kind dev w ->
  exists w1,
    exec (result kind dev devName unused code) w = Some w1 /\
    registry kind w1 !! dev = None.
Proof.
  intros Hlive. unfold result.
  destruct kind; cbn [onResult]; unfold entryLive in Hlive; cbn [registry] in Hlive.
  - destruct (encryptDialogs w !! dev) as [h|] eqn:Hreg.
    + destruct (Hlive h eq_refl) as [d Hd].
      rewrite (onEncryptResult_present _ _ _ _ _ _ Hreg Hd).
      eexists; split; [reflexivity|]. cbn [registry encryptDialogs].
      apply lookup_delete_eq.
    + rewrite (onEncryptResult_absent _ _ _ _ Hreg).
      eexists; split; [reflexivity|]. exact Hreg.
  - destruct (decryptDialogs w !! dev) as [h|] eqn:Hreg.
    + destruct (Hlive h eq_refl) as [d Hd].
      rewrite (onDecryptResult_present _ _ _ _ _ _ _ _ _ Hreg Hd).
      eexists; split; [reflexivity|]. cbn [registry decryptDialogs].
      apply lookup_delete_eq.
    + rewrite (onDecryptResult_absent _ _ _ _ _ _ _ Hreg).
      eexists; split; [reflexivity|]. exact Hreg.
Qed.

(** A result notification for a device without entry changes neither
    registry, nor the dialogs, nor the posted deletions. *)
Lemma onResult_absent kind dev devName unused code w :
  registry kind w !! dev = None ->
  exists w1,
    exec (result kind dev devName unused code) w = Some w1 /\
    encryptDialogs w1 = encryptDialogs w /\
    decryptDialogs w1 = decryptDialogs w /\
    heap w1 = heap w /\ deferred w1 = deferred w.
Proof.
  intros Hnone. unfold result. destruct kind; cbn [onResult registry] in *.
  - rewrite (onEncryptResult_absent _ _ _ _ Hnone).
    eexists; split; [reflexivity|]. repeat split.
  - rewrite (onDecryptResult_absent _ _ _ _ _ _ _ Hnone).
    eexists; split; [reflexivity|]. repeat split.
Qed.

(** C4. For either kind and every device whose entry, if any, is live: a
    result notification removes the entry of the device from the registry
    of its kind, and a second result notification right after it is
    defined and leaves both registries (and the dialogs) as they are. *)
Theorem onResult_removes_idempotent kind dev devName unused code
    devName' unused' code' w :
  entryLive kind dev w ->
  exists w1 w2,
    exec (result kind dev devName unused code) w = Some w1 /\
    registry kind w1 !! dev = None /\
    exec (result kind dev devName' unused' code') w1 = Some w2 /\
    encryptDialogs w2 = encryptDialogs w1 /\
    decryptDialogs w2 = decryptDialogs w1 /\
    heap w2 = heap w1 /\ deferred w2 = deferred w1.
Proof.
  intros Hlive.
  destruct (onResult_removes kind dev devName unused code w Hlive) as (w1 & Hrun1 & Hgone).
  destruct (onResult_absent kind dev devName' unused' code' w1 Hgone)
    as (w2 & Hrun2 & He & Hd & Hh & Hq).
  exists w1, w2. auto 10.
Qed.

(** C5. For every device and result code, [onDecryptResult] takes the
    entry of the device out of the decrypt registry (posting the deletion
    of its dialog) and then presents the reboot confirmation when the code
    is the negated reboot sentinel, the mapped outcome dialog for every
    other code. *)
Theorem onDecryptResult_removes_then_presents dev devName unused code w :
  entryLive Decrypt dev w ->
  exists w1 posted,
    exec (onDecryptResult kRebootRequired rebootDialogUser dev devName unused code) w
    = Some w1 /\
    decryptDialogs w1 = delete dev (decryptDialogs w) /\
    encryptDialogs w1 = encryptDialogs w /\
    posted = match decryptDialogs w !! dev with
             | Some h => [DeleteLater h]
             | None => []
             end /\
    ((code = - kRebootRequired /\
      trace w1 = trace w ++ RestoreOverrideCursor :: posted
                   ++ rebootOnDecryptedEvents rebootDialogUser dev devName) \/
     (code <> - kRebootRequired /\
      trace w1 = trace w ++ RestoreOverrideCursor :: posted
                   ++ [decryptOutcomeDialog dev devName code])).
Proof.
  intros Hlive. unfold entryLive in Hlive; cbn [registry] in Hlive.
  assert (Hcases :
    (code = - kRebootRequired /\
     decryptResultEvents kRebootRequired rebootDialogUser dev devName code
     = rebootOnDecryptedEvents rebootDialogUser dev devName) \/
    (code <> - kRebootRequired /\
     decryptResultEvents kRebootRequired rebootDialogUser dev devName code
     = [decryptOutcomeDialog dev devName code])).
  { unfold decryptResultEvents.
    destruct (Z.eqb_spec code (- kRebootRequired)); [left|right]; auto. }
  destruct (decryptDialogs w !! dev) as [h|] eqn:Hreg.
  - destruct (Hlive h eq_refl) as [d Hd].
    rewrite (onDecryptResult_present _ _ _ _ _ _ _ _ _ Hreg Hd).
    eexists; eexists; split; [reflexivity|].
    cbn [decryptDialogs encryptDialogs trace]. repeat split.
    destruct Hcases as [[Hc ->]|[Hc ->]]; [left|right]; auto.
  - rewrite (onDecryptResult_absent _ _ _ _ _ _ _ Hreg).
    eexists; eexists; split; [reflexivity|].
    cbn [decryptDialogs encryptDialogs trace]. repeat split.
    + symmetry. apply delete_id. exact Hreg.
    + destruct Hcases as [[Hc ->]|[Hc ->]]; [left|right]; auto.
Qed.

End Results.

Lemma encryptingWorld_live : entryLive Encrypt "/dev/sda1" encryptingWorld.
Proof.
  intros h Hreg. vm_compute in Hreg. injection Hreg as <-.
  eexists. vm_compute. reflexivity.
Qed.

Lemma decryptingWorld_live : entryLive Decrypt "/dev/sdb1" decryptingWorld.
Proof.
  intros h Hreg. vm_compute in Hreg. injection Hreg as <-.
  eexists. vm_compute. reflexivity.
Qed.

(** C4 at an encryption under way: the result arrives twice. *)
Lemma onResult_removes_idempotent_witness :
  entryLive Encrypt "/dev/sda1" encryptingWorld /\
  exists w1 w2,
    exec (onResult Sample.kRebootRequired 0 Encrypt "/dev/sda1" "disk" "" 0)
      encryptingWorld = Some w1 /\
    registry Encrypt w1 !! "/dev/sda1" = None /\
    exec (onResult Sample.kRebootRequired 0 Encrypt "/dev/sda1" "disk" "" 0) w1
    = Some w2 /\
    encryptDialogs w2 = encryptDialogs w1 /\
    decryptDialogs w2 = decryptDialogs w1 /\
    heap w2 = heap w1 /\ deferred w2 = deferred w1.
Proof.
  split; [exact encryptingWorld_live|].
  apply (onResult_removes_idempotent Sample.kRebootRequired 0 Encrypt
           "/dev/sda1" "disk" "" 0 "disk" "" 0 encryptingWorld).
  intros h Hreg. vm_compute in Hreg. injection Hreg as <-.
  eexists. vm_compute. reflexivity.
Defined.

(** C5 at a decryption under way that ends with the reboot sentinel. *)
Lemma onDecryptResult_removes_then_presents_witness :
  entryLive Decrypt "/dev/sdb1" decryptingWorld /\
  exists w1 posted,
    exec (onDecryptResult Sample.kRebootRequired 1 "/dev/sdb1" "data" "" (-4))
      decryptingWorld = Some w1 /\
    decryptDialogs w1 = delete "/dev/sdb1" (decryptDialogs decryptingWorld) /\
    encryptDialogs w1 = encryptDialogs decryptingWorld /\
    posted = match decryptDialogs decryptingWorld !! "/dev/sdb1" with
             | Some h => [DeleteLater h]
             | None => []
             end /\
    ((-4 = - Sample.kRebootRequired /\
      trace w1 = trace decryptingWorld ++ RestoreOverrideCursor :: posted
                   ++ rebootOnDecryptedEvents 1 "/dev/sdb1" "data") \/
     (-4 <> - Sample.kRebootRequired /\
      trace w1 = trace decryptingWorld ++ RestoreOverrideCursor :: posted
                   ++ [decryptOutcomeDialog "/dev/sdb1" "data" (-4)])).
Proof.
  split; [exact decryptingWorld_live|].
  apply (onDecryptResult_removes_then_presents Sample.kRebootRequired 1
           "/dev/sdb1" "data" "" (-4) decryptingWorld).
  intros h Hreg. vm_compute in Hreg. injection Hreg as <-.
  eexists. vm_compute. reflexivity.
Defined.

Example onDecryptResult_reboot :
  exec (onDecryptResult Sample.kRebootRequired 1 "/dev/sdb1" "data" "" (-4))
    decryptingWorld
  = Some (mkWorld ∅ ∅ (heap decryptingWorld) [0%nat]
            (trace decryptingWorld ++
             [RestoreOverrideCursor; DeleteLater 0%nat;
              ExecDDialog "Decrypt device" "Please reboot to decrypt device data(sdb1)."
                ["Reboot later"; "Reboot now"];
              RequestReboot])).
Proof. vm_compute. reflexivity. Qed.

Example onEncryptResult_failed :
  exec (onEncryptResult "/dev/sda1" "disk" (-5)) encryptingWorld
  = Some (mkWorld ∅ ∅ ∅ []
            (trace encryptingWorld ++
             [RestoreOverrideCursor; Destroyed 0%nat;
              ShowDialog "Encrypt failed"
                "Device disk(sda1) encrypt failed, please see log for more information.(-5)"
                kError])).
Proof. vm_compute. reflexivity. Qed.

(** ** Progress dialogs and their destruction *)

(** The encrypt path: the slot connected at creation takes the entry out of
    the registry when the dialog is destroyed. *)
Lemma onEncryptProgress_destroyed_removes dev devName progress w :
  encryptDialogs w !! dev = None ->
  exists h w1 w2,
    exec (onEncryptProgress dev devName progress) w = Some w1 /\
    encryptDialogs w1 !! dev = Some h /\
    exec (destroy (Some h)) w1 = Some w2 /\
    encryptDialogs w2 !! dev = None /\ heap w2 !! h = None.
Proof.
  intros Hnone. rewrite (onEncryptProgress_new _ _ _ _ Hnone).
  eexists; eexists; eexists. split; [reflexivity|].
  cbn [encryptDialogs]. split; [apply lookup_insert_eq|].
  split; [apply destroy_live; cbn [heap]; apply lookup_insert_eq|].
  cbn [encryptDialogs heap dlgDestroyed slotsRemove foldl].
  split; apply lookup_delete_eq.
Qed.

(** The decrypt path connects nothing: after the destruction of the dialog
    the registry still holds the entry, now a dangling pointer, and the next
    notification for the device dereferences it. *)
Lemma onDecryptProgress_destroyed_keeps dev devName progress w :
  decryptDialogs w !! dev = None ->
  exists h w1 w2,
    exec (onDecryptProgress dev devName progress) w = Some w1 /\
    decryptDialogs w1 !! dev = Some h /\
    exec (destroy (Some h)) w1 = Some w2 /\
    decryptDialogs w2 !! dev = Some h /\ heap w2 !! h = None.
Proof.
  intros Hnone. rewrite (onDecryptProgress_new _ _ _ _ Hnone).
  eexists; eexists; eexists. split; [reflexivity|].
  cbn [decryptDialogs]. split; [apply lookup_insert_eq|].
  split; [apply destroy_live; cbn [heap]; apply lookup_insert_eq|].
  cbn [decryptDialogs heap]. split; [apply lookup_insert_eq|apply lookup_delete_eq].
Qed.

(** C3, the decrypt path at a first progress notification for /dev/sdb1.
    The dialog is created with no slot on its [destroyed] signal; when the
    dialog is destroyed the decrypt registry keeps the entry, and the result
    notification that follows dereferences the dangling pointer. *)
Theorem onDecryptProgress_no_destroyed_slot :
  exists w1 w2,
    exec (onDecryptProgress "/dev/sdb1" "data" half) emptyWorld = Some w1 /\
    decryptDialogs w1 !! "/dev/sdb1" = Some 0%nat /\
    dlgDestroyed <$> heap w1 !! 0%nat = Some [] /\
    exec (destroy (Some 0%nat)) w1 = Some w2 /\
    decryptDialogs w2 !! "/dev/sdb1" = Some 0%nat /\
    heap w2 !! 0%nat = None /\
    exec (onDecryptResult Sample.kRebootRequired 0 "/dev/sdb1" "data" "" 0) w2 = None /\
    exec (onDecryptProgress "/dev/sdb1" "data" half) w2 = None.
Proof.
  exists decryptingWorld. eexists.
  split; [vm_compute; reflexivity|].
  split; [vm_compute; reflexivity|].
  split; [vm_compute; reflexivity|].
  split; [vm_compute; reflexivity|].
  repeat split; vm_compute; reflexivity.
Qed.

(** The same run on the encrypt path: the entry is gone with the dialog. *)
Example onEncryptProgress_destroyed_slot :
  exists w2,
    exec (destroy (Some 0%nat)) encryptingWorld = Some w2 /\
    encryptDialogs w2 !! "/dev/sda1" = None /\
    exec (onEncryptResult "/dev/sda1" "disk" 0) w2
    = Some (mkWorld ∅ ∅ ∅ []
              (trace w2 ++ [RestoreOverrideCursor;
                            ShowDialog "Encrypt done" "Device disk(sda1) has been encrypted" kInfo])).
Proof.
  eexists. split; [vm_compute; reflexivity|].
  split; vm_compute; reflexivity.
Qed.

(** *** Sequences of progress notifications *)

Lemma created_app evs evs' : created (evs ++ evs') = (created evs + created evs')%nat.
Proof.
  induction evs as [|e evs IH]; [reflexivity|].
  destruct e; cbn [created app]; rewrite IH; reflexivity.
Qed.

Lemma fresh_not_live w : heap w !! fresh (dom (heap w)) = None.
Proof. apply not_elem_of_dom. apply is_fresh. Qed.

Lemma live_insert w h d h' :
  is_Some (heap w !! h') -> is_Some (<[h := d]> (heap w) !! h').
Proof.
  intros Hlive. destruct (decide (h = h')) as [->|Hne].
  - rewrite lookup_insert_eq. eauto.
  - rewrite lookup_insert_ne by exact Hne. exact Hlive.
Qed.

Section ProgressSequences.

Variables kRebootRequired rebootDialogUser : Z.

Let handle := bindDaemonSignals kRebootRequired rebootDialogUser.
Let deliverAll := deliver kRebootRequired rebootDialogUser.

Lemma exec_deliver_cons n ns w :
  exec (deliverAll (n :: ns)) w
  = match exec (handle n) w with
    | Some w' => exec (deliverAll ns) w'
    | None => None
    end.
Proof.
  unfold deliverAll, handle, exec. cbn [deliver]. unfold bind.
  destruct (bindDaemonSignals kRebootRequired rebootDialogUser n w) as [[[] w']|];
    reflexivity.
Qed.

(** The first progress notification for a device without entry. *)
Lemma onProgress_first kind dev devName progress w :
  registriesLive w ->
  registry kind w !! dev = None ->
  exists h w1,
    exec (handle (progressNotification kind dev devName progress)) w = Some w1 /\
    heap w !! h = None /\
    registry kind w1 = <[dev := h]> (registry kind w) /\
    (forall kind', kind' <> kind -> registry kind' w1 = registry kind' w) /\
    dom (heap w1) = {[h]} ∪ dom (heap w) /\
    created (trace w1) = S (created (trace w)) /\
    registriesLive w1.
Proof.
  intros Hlive Hnone. exists (fresh (dom (heap w))). unfold handle.
  destruct kind; cbn [progressNotification bindDaemonSignals registry] in *.
  - rewrite (onEncryptProgress_new _ _ _ _ Hnone). eexists. split; [reflexivity|].
    cbn [encryptDialogs heap trace]. split; [apply fresh_not_live|].
    split; [reflexivity|].
    split; [intros [] Hk; [congruence|reflexivity]|].
    split; [apply dom_insert_L|].
    split; [rewrite created_app; cbn [created]; lia|].
    intros k d h. unfold entryLive, live. cbn [heap].
    destruct k; cbn [registry encryptDialogs decryptDialogs]; intros Hreg.
    + destruct (decide (dev = d)) as [->|Hne].
      * rewrite lookup_insert_eq in Hreg. injection Hreg as <-.
        rewrite lookup_insert_eq. eauto.
      * rewrite lookup_insert_ne in Hreg by exact Hne.
        apply live_insert. exact (Hlive Encrypt d h Hreg).
    + apply live_insert. exact (Hlive Decrypt d h Hreg).
  - rewrite (onDecryptProgress_new _ _ _ _ Hnone). eexists. split; [reflexivity|].
    cbn [decryptDialogs heap trace]. split; [apply fresh_not_live|].
    split; [reflexivity|].
    split; [intros [] Hk; [reflexivity|congruence]|].
    split; [apply dom_insert_L|].
    split; [rewrite created_app; cbn [created]; lia|].
    intros k d h. unfold entryLive, live. cbn [heap].
    destruct k; cbn [registry encryptDialogs decryptDialogs]; intros Hreg.
    + apply live_insert. exact (Hlive Encrypt d h Hreg).
    + destruct (decide (dev = d)) as [->|Hne].
      * rewrite lookup_insert_eq in Hreg. injection Hreg as <-.
        rewrite lookup_insert_eq. eauto.
      * rewrite lookup_insert_ne in Hreg by exact Hne.
        apply live_insert. exact (Hlive Decrypt d h Hreg).
Qed.

(** A progress notification for a device that has an entry: the entry and
    both registries stay, the dialog is updated, nothing is created. *)
Lemma onProgress_again kind dev devName progress w h :
  registry kind w !! dev = Some h ->
  live w h ->
  exists w1 d,
    exec (handle (progressNotification kind dev devName progress)) w = Some w1 /\
    encryptDialogs w1 = encryptDialogs w /\
    decryptDialogs w1 = decryptDialogs w /\
    heap w !! h = Some d /\
    heap w1 = <[h := mkDialog (dlgTitle d) (Some progress) true (dlgDestroyed d)]> (heap w) /\
    trace w1 = trace w ++ [UpdateProgress h progress; ShowProcessDialog h].
Proof.
  intros Hreg [d Hd]. unfold handle.
  destruct kind; cbn [progressNotification bindDaemonSignals registry] in *.
  - rewrite (onEncryptProgress_update _ _ _ _ _ _ Hreg Hd).
    eexists; exists d. repeat split. exact Hd.
  - rewrite (onDecryptProgress_update _ _ _ _ _ _ Hreg Hd).
    eexists; exists d. repeat split. exact Hd.
Qed.

Lemma isProgress_inv n :
  isProgress n = true ->
  exists kind dev devName progress, n = progressNotification kind dev devName progress.
Proof.
  destruct n; try discriminate; intros _.
  - exists Encrypt; eauto.
  - exists Decrypt; eauto.
Qed.

Lemma isProgressFor_true kind dev k d devName progress :
  isProgressFor kind dev (progressNotification k d devName progress) = true ->
  k = kind /\ d = dev.
Proof.
  destruct kind, k; cbn; try discriminate;
    intros H; apply bool_decide_eq_true in H; auto.
Qed.

Lemma isProgressFor_false kind dev k d devName progress :
  isProgressFor kind dev (progressNotification k d devName progress) = false ->
  k <> kind \/ d <> dev.
Proof.
  destruct kind, k; cbn; intros H; try (left; discriminate);
    apply bool_decide_eq_false in H; auto.
Qed.

(** One more progress notification, of any kind and for any device, while
    [dev] has the entry [h]. *)
Lemma onProgress_step kind dev h n w :
  registriesLive w ->
  registry kind w !! dev = Some h ->
  isProgress n = true ->
  exists w1,
    exec (handle n) w = Some w1 /\
    registriesLive w1 /\
    registry kind w1 !! dev = Some h /\
    (created (trace w) <= created (trace w1))%nat /\
    (created (trace w1)
     <= created (trace w) + (if isProgressFor kind dev n then 0 else 1))%nat /\
    (isProgressFor kind dev n = true ->
     encryptDialogs w1 = encryptDialogs w /\
     decryptDialogs w1 = decryptDialogs w /\
     dom (heap w1) = dom (heap w)).
Proof.
  intros Hlive Hreg Hprog.
  destruct (isProgress_inv n Hprog) as (k & d & devName & progress & ->).
  destruct (registry k w !! d) as [h2|] eqn:Hd.
  - destruct (onProgress_again k d devName progress w h2 Hd (Hlive k d h2 Hd))
      as (w1 & dlg & Hrun & He & Hdec & Hdlg & Hheap & Htrace).
    exists w1. split; [exact Hrun|].
    assert (Hregs : forall k', registry k' w1 = registry k' w)
      by (intros []; cbn [registry]; assumption).
    split.
    { intros k' d' h' Hreg'. rewrite Hregs in Hreg'. unfold live. rewrite Hheap.
      apply live_insert. exact (Hlive k' d' h' Hreg'). }
    split; [rewrite Hregs; exact Hreg|].
    rewrite Htrace, created_app. cbn [created].
    split; [lia|]. split; [lia|]. intros _.
    split; [exact He|]. split; [exact Hdec|].
    rewrite Hheap, dom_insert_L.
    apply subseteq_union_1_L, singleton_subseteq_l, elem_of_dom. eauto.
  - destruct (onProgress_first k d devName progress w Hlive Hd)
      as (h' & w1 & Hrun & Hfresh & Hk & Hother & Hdom & Hcreated & Hlive1).
    exists w1. split; [exact Hrun|]. split; [exact Hlive1|].
    destruct (isProgressFor kind dev (progressNotification k d devName progress))
      eqn:Hfor.
    + apply isProgressFor_true in Hfor as [-> ->]. congruence.
    + split.
      { apply isProgressFor_false in Hfor.
        destruct (decide (k = kind)) as [->|Hne].
        - rewrite Hk. destruct Hfor as [?|Hdev]; [congruence|].
          rewrite lookup_insert_ne by exact Hdev. exact Hreg.
        - rewrite (Hother kind) by congruence. exact Hreg. }
      split; [lia|]. split; [lia|]. discriminate.
Qed.

(** Any sequence of progress notifications while [dev] has the entry [h]:
    every notification is served, the entry stays [h] and live, and only
    notifications for other devices or the other kind create dialogs. *)
Lemma onProgress_sequence kind dev h ns w :
  registriesLive w ->
  registry kind w !! dev = Some h ->
  forallb isProgress ns = true ->
  exists w2,
    exec (deliverAll ns) w = Some w2 /\
    registriesLive w2 /\
    registry kind w2 !! dev = Some h /\
    (created (trace w) <= created (trace w2))%nat /\
    (created (trace w2) <= created (trace w) + others kind dev ns)%nat /\
    (others kind dev ns = 0%nat ->
     encryptDialogs w2 = encryptDialogs w /\
     decryptDialogs w2 = decryptDialogs w /\
     dom (heap w2) = dom (heap w)).
Proof.
  revert w. induction ns as [|n ns IH]; intros w Hlive Hreg Hall.
  - exists w. split; [destruct w; reflexivity|]. cbn [others]. repeat split; auto; lia.
  - cbn [forallb] in Hall. apply andb_true_iff in Hall as [Hn Hns].
    destruct (onProgress_step kind dev h n w Hlive Hreg Hn)
      as (w1 & Hrun & Hlive1 & Hreg1 & Hlo & Hhi & Hsame).
    destruct (IH w1 Hlive1 Hreg1 Hns) as (w2 & Hrun2 & Hlive2 & Hreg2 & Hlo2 & Hhi2 & Hsame2).
    exists w2. rewrite exec_deliver_cons, Hrun. split; [exact Hrun2|].
    split; [exact Hlive2|]. split; [exact Hreg2|]. cbn [others].
    split; [lia|]. split; [lia|].
    destruct (isProgressFor kind dev n); [|discriminate].
    cbn [Nat.add]. intros Hzero.
    destruct (Hsame eq_refl) as (He & Hd & Hh).
    destruct (Hsame2 Hzero) as (He2 & Hd2 & Hh2).
    repeat split; congruence.
Qed.

Lemma exec_deliver_progress_app ns ns' w :
  exec (deliverAll (ns ++ ns')) w
  = match exec (deliverAll ns) w with
    | Some w1 => exec (deliverAll ns') w1
    | None => None
    end.
Proof.
  revert w. induction ns as [|n ns IH]; intros w.
  - destruct w; reflexivity.
  - cbn [app]. rewrite !exec_deliver_cons.
    destruct (exec (handle n) w) as [w1|]; [apply IH|reflexivity].
Qed.

Lemma updates_app h evs evs' :
  updates h (evs ++ evs') = (updates h evs + updates h evs')%nat.
Proof.
  induction evs as [|e evs IH]; [reflexivity|].
  destruct e; cbn [updates app]; rewrite IH; lia.
Qed.

(** The dialog the first progress notification creates: it sits at the
    fresh handle, shows the progress received and is on screen. *)
Lemma onProgress_first_dialog kind dev devName progress w :
  registry kind w !! dev = None ->
  exists w1 title slots,
    exec (handle (progressNotification kind dev devName progress)) w = Some w1 /\
    registry kind w1 !! dev = Some (fresh (dom (heap w))) /\
    heap w1
    = <[fresh (dom (heap w)) := mkDialog title (Some progress) true slots]> (heap w) /\
    trace w1
    = trace w ++ [RestoreOverrideCursor; NewProcessDialog (fresh (dom (heap w))) title;
                  UpdateProgress (fresh (dom (heap w))) progress;
                  ShowProcessDialog (fresh (dom (heap w)))].
Proof.
  intros Hnone. unfold handle.
  destruct kind; cbn [progressNotification bindDaemonSignals registry] in *.
  - rewrite (onEncryptProgress_new _ _ _ _ Hnone).
    do 3 eexists. split; [reflexivity|]. cbn [encryptDialogs heap trace registry].
    split; [apply lookup_insert_eq|]. split; reflexivity.
  - rewrite (onDecryptProgress_new _ _ _ _ Hnone).
    do 3 eexists. split; [reflexivity|]. cbn [decryptDialogs heap trace registry].
    split; [apply lookup_insert_eq|]. split; reflexivity.
Qed.

(** One more progress notification while [dev] has the entry [h] and no
    other entry shares that dialog: a notification of [kind] for [dev]
    writes its progress into the dialog [h] and shows it; any other one
    leaves the dialog [h] as it is. *)
Lemma onProgress_step_dialog kind dev h n w :
  registriesLive w ->
  registry kind w !! dev = Some h ->
  (forall k d, registry k w !! d = Some h -> k = kind /\ d = dev) ->
  isProgress n = true ->
  exists w1 dlg,
    exec (handle n) w = Some w1 /\
    heap w !! h = Some dlg /\
    (forall k d, registry k w1 !! d = Some h -> k = kind /\ d = dev) /\
    heap w1 !! h
    = Some (if isProgressFor kind dev n
            then mkDialog (dlgTitle dlg) (progressOf n) true (dlgDestroyed dlg)
            else dlg) /\
    updates h (trace w1)
    = (updates h (trace w) + (if isProgressFor kind dev n then 1 else 0))%nat.
Proof.
  intros Hlive Hreg Hsole Hprog.
  destruct (isProgress_inv n Hprog) as (k & d & devName & progress & ->).
  destruct (Hlive kind dev h Hreg) as [dlg Hdlg].
  destruct (registry k w !! d) as [h2|] eqn:Hd.
  - destruct (onProgress_again k d devName progress w h2 Hd (Hlive k d h2 Hd))
      as (w1 & dlg2 & Hrun & He & Hdec & Hdlg2 & Hheap & Htrace).
    assert (Hregs : forall k', registry k' w1 = registry k' w)
      by (intros []; cbn [registry]; assumption).
    exists w1, dlg. split; [exact Hrun|]. split; [exact Hdlg|].
    split; [intros k' d' Hreg'; rewrite Hregs in Hreg'; exact (Hsole k' d' Hreg')|].
    rewrite Hheap, Htrace, updates_app. cbn [updates].
    destruct (isProgressFor kind dev (progressNotification k d devName progress))
      eqn:Hfor.
    + apply isProgressFor_true in Hfor as [-> ->].
      assert (h2 = h) as -> by congruence.
      assert (dlg2 = dlg) as -> by congruence.
      rewrite lookup_insert_eq, bool_decide_eq_true_2 by reflexivity.
      split; [destruct kind; reflexivity|lia].
    + assert (Hne : h2 <> h).
      { intros ->. destruct (Hsole k d Hd) as [-> ->].
        apply isProgressFor_false in Hfor. destruct Hfor; congruence. }
      rewrite lookup_insert_ne by exact Hne.
      rewrite bool_decide_eq_false_2 by exact Hne.
      split; [exact Hdlg|lia].
  - destruct (onProgress_first_dialog k d devName progress w Hd)
      as (w1 & title & slots & Hrun & Hk & Hheap & Htrace).
    destruct (onProgress_first k d devName progress w Hlive Hd)
      as (h' & w1' & Hrun' & Hfresh & Hk' & Hother & _).
    assert (w1' = w1) as -> by congruence.
    assert (Hne : fresh (dom (heap w)) <> h).
    { intros Heq. pose proof (fresh_not_live w) as Hnew. congruence. }
    assert (Hh' : h' = fresh (dom (heap w))).
    { rewrite Hk', lookup_insert_eq in Hk. congruence. }
    subst h'.
    exists w1, dlg. split; [exact Hrun|]. split; [exact Hdlg|].
    split.
    { intros k' d' Hreg'. destruct (decide (k' = k)) as [->|Hkne].
      - rewrite Hk' in Hreg'. destruct (decide (d = d')) as [->|Hdne].
        + rewrite lookup_insert_eq in Hreg'. congruence.
        + rewrite lookup_insert_ne in Hreg' by exact Hdne. exact (Hsole k d' Hreg').
      - rewrite (Hother k' Hkne) in Hreg'. exact (Hsole k' d' Hreg'). }
    destruct (isProgressFor kind dev (progressNotification k d devName progress))
      eqn:Hfor.
    + apply isProgressFor_true in Hfor as [-> ->]. congruence.
    + rewrite Hheap, Htrace, updates_app. cbn [updates].
      rewrite lookup_insert_ne by exact Hne.
      rewrite bool_decide_eq_false_2 by exact Hne.
      split; [exact Hdlg|lia].
Qed.

(** Any sequence of progress notifications while [dev] has the entry [h]
    and no other entry shares that dialog: the dialog [h] keeps its title
    and its slots, ends with the progress of the last notification of
    [kind] for [dev], and is updated once for each of them. *)
Lemma onProgress_sequence_dialog kind dev h ns w dlg :
  registriesLive w ->
  registry kind w !! dev = Some h ->
  (forall k d, registry k w !! d = Some h -> k = kind /\ d = dev) ->
  heap w !! h = Some dlg ->
  forallb isProgress ns = true ->
  exists w2 dlg2,
    exec (deliverAll ns) w = Some w2 /\
    heap w2 !! h = Some dlg2 /\
    dlgTitle dlg2 = dlgTitle dlg /\
    dlgDestroyed dlg2 = dlgDestroyed dlg /\
    (forall p0, dlgProgress dlg = Some p0 ->
                dlgProgress dlg2 = Some (lastProgress kind dev p0 ns)) /\
    (dlgVisible dlg = true -> dlgVisible dlg2 = true) /\
    updates h (trace w2) = (updates h (trace w) + repeats kind dev ns)%nat.
Proof.
  revert w dlg. induction ns as [|n ns IH]; intros w dlg Hlive Hreg Hsole Hdlg Hall.
  - exists w, dlg. split; [destruct w; reflexivity|]. cbn [repeats lastProgress].
    repeat split; auto; lia.
  - cbn [forallb] in Hall. apply andb_true_iff in Hall as [Hn Hns].
    destruct (onProgress_step kind dev h n w Hlive Hreg Hn)
      as (w1 & Hrun & Hlive1 & Hreg1 & _).
    destruct (onProgress_step_dialog kind dev h n w Hlive Hreg Hsole Hn)
      as (w1' & dlg' & Hrun' & Hdlg' & Hsole1 & Hdlg1 & Hupd1).
    assert (w1' = w1) as -> by congruence.
    assert (dlg' = dlg) as -> by congruence.
    destruct (IH w1 _ Hlive1 Hreg1 Hsole1 Hdlg1 Hns)
      as (w2 & dlg2 & Hrun2 & Hdlg2 & Htitle & Hslots & Hlast & Hvis & Hupd2).
    exists w2, dlg2. rewrite exec_deliver_cons, Hrun. split; [exact Hrun2|].
    split; [exact Hdlg2|]. cbn [repeats lastProgress].
    destruct (isProgress_inv n Hn) as (k & d & devName & progress & ->).
    destruct (isProgressFor kind dev (progressNotification k d devName progress));
      cbn [dlgTitle dlgDestroyed dlgProgress dlgVisible] in *.
    + split; [exact Htitle|]. split; [exact Hslots|].
      split.
      { intros p0 _. apply Hlast. destruct k; reflexivity. }
      split; [intros _; apply Hvis; reflexivity|]. lia.
    + split; [exact Htitle|]. split; [exact Hslots|].
      split; [exact Hlast|]. split; [exact Hvis|]. lia.
Qed.

(** Each progress notification of [kind] for [dev] in a sequence, while
    [dev] has the entry [h]: it is served in a world where the entry is
    still [h], and it writes its progress into the dialog [h] and shows
    it, with both registries as they are. *)
Lemma onProgress_each kind dev h ns w pre devName progress post :
  registriesLive w ->
  registry kind w !! dev = Some h ->
  forallb isProgress ns = true ->
  ns = pre ++ progressNotification kind dev devName progress :: post ->
  exists wa wb dlg,
    exec (deliverAll pre) w = Some wa /\
    exec (handle (progressNotification kind dev devName progress)) wa = Some wb /\
    exec (deliverAll post) wb = exec (deliverAll ns) w /\
    registry kind wa !! dev = Some h /\
    heap wa !! h = Some dlg /\
    encryptDialogs wb = encryptDialogs wa /\
    decryptDialogs wb = decryptDialogs wa /\
    heap wb = <[h := mkDialog (dlgTitle dlg) (Some progress) true (dlgDestroyed dlg)]>
                (heap wa) /\
    trace wb = trace wa ++ [UpdateProgress h progress; ShowProcessDialog h].
Proof.
  intros Hlive Hreg Hall ->.
  rewrite forallb_app in Hall. apply andb_true_iff in Hall as [Hpre _].
  destruct (onProgress_sequence kind dev h pre w Hlive Hreg Hpre)
    as (wa & Hruna & Hlivea & Hrega & _).
  destruct (onProgress_again kind dev devName progress wa h Hrega
              (Hlivea kind dev h Hrega))
    as (wb & dlg & Hrunb & He & Hd & Hdlg & Hheap & Htrace).
  exists wa, wb, dlg. split; [exact Hruna|]. split; [exact Hrunb|].
  split.
  { rewrite exec_deliver_progress_app, Hruna, exec_deliver_cons, Hrunb. reflexivity. }
  repeat split; assumption.
Qed.

(** C7. For either kind, in a world whose registry entries are live: the
    first progress notification for a device without entry creates exactly
    one dialog and one entry for it, and that dialog shows the progress
    received. In any sequence of progress notifications that follows,
    every one is served, the device keeps that same entry, and the
    notifications for this device and kind create no dialog: each of them
    finds the entry still in place, writes its progress into that same
    dialog and shows it, with both registries as they are. At the end the
    dialog has the title it was created with, shows the progress of the
    last notification for this device and kind, and has been updated once
    for each of them. When the sequence has only notifications for this
    device and kind, both registries and the set of dialogs stay exactly
    as they are. *)
Theorem onProgress_creates_once kind dev devName progress ns w :
  registriesLive w ->
  registry kind w !! dev = None ->
  forallb isProgress ns = true ->
  exists h w1 w2,
    exec (handle (progressNotification kind dev devName progress)) w = Some w1 /\
    heap w !! h = None /\
    registry kind w1 = <[dev := h]> (registry kind w) /\
    dom (heap w1) = {[h]} ∪ dom (heap w) /\
    created (trace w1) = S (created (trace w)) /\
    exec (deliverAll ns) w1 = Some w2 /\
    registry kind w2 !! dev = Some h /\
    live w2 h /\
    (created (trace w1) <= created (trace w2))%nat /\
    (created (trace w2) <= created (trace w1) + others kind dev ns)%nat /\
    (others kind dev ns = 0%nat ->
     encryptDialogs w2 = encryptDialogs w1 /\
     decryptDialogs w2 = decryptDialogs w1 /\
     dom (heap w2) = dom (heap w1)) /\
    (exists d1 d2,
       heap w1 !! h = Some d1 /\
       dlgProgress d1 = Some progress /\ dlgVisible d1 = true /\
       trace w1
       = trace w ++ [RestoreOverrideCursor; NewProcessDialog h (dlgTitle d1);
                     UpdateProgress h progress; ShowProcessDialog h] /\
       heap w2 !! h = Some d2 /\
       dlgTitle d2 = dlgTitle d1 /\
       dlgProgress d2 = Some (lastProgress kind dev progress ns) /\
       dlgVisible d2 = true) /\
    updates h (trace w2) = (updates h (trace w1) + repeats kind dev ns)%nat /\
    (forall pre devName' progress' post,
       ns = pre ++ progressNotification kind dev devName' progress' :: post ->
       exists wa wb d,
         exec (deliverAll pre) w1 = Some wa /\
         exec (handle (progressNotification kind dev devName' progress')) wa
         = Some wb /\
         exec (deliverAll post) wb = Some w2 /\
         registry kind wa !! dev = Some h /\
         heap wa !! h = Some d /\
         encryptDialogs wb = encryptDialogs wa /\
         decryptDialogs wb = decryptDialogs wa /\
         heap wb = <[h := mkDialog (dlgTitle d) (Some progress') true (dlgDestroyed d)]>
                     (heap wa) /\
         trace wb = trace wa ++ [UpdateProgress h progress'; ShowProcessDialog h]).
Proof.
  intros Hlive Hnone Hall.
  destruct (onProgress_first kind dev devName progress w Hlive Hnone)
    as (h & w1 & Hrun & Hfresh & Hk & Hother & Hdom & Hcreated & Hlive1).
  assert (Hreg1 : registry kind w1 !! dev = Some h)
    by (rewrite Hk; apply lookup_insert_eq).
  destruct (onProgress_first_dialog kind dev devName progress w Hnone)
    as (w1' & title & slots & Hrun' & Hreg1' & Hheap1 & Htrace1).
  assert (w1' = w1) as -> by congruence.
  assert (Hh : fresh (dom (heap w)) = h) by congruence.
  rewrite Hh in Hheap1, Htrace1. clear Hreg1' Hrun' Hh.
  assert (Hd1 : heap w1 !! h = Some (mkDialog title (Some progress) true slots))
    by (rewrite Hheap1; apply lookup_insert_eq).
  assert (Hsole : forall k d, registry k w1 !! d = Some h -> k = kind /\ d = dev).
  { intros k d Hreg. destruct (decide (k = kind)) as [->|Hkne].
    - split; [reflexivity|]. rewrite Hk in Hreg.
      destruct (decide (dev = d)) as [->|Hdne]; [reflexivity|].
      rewrite lookup_insert_ne in Hreg by exact Hdne.
      destruct (Hlive kind d h Hreg) as [x Hx]. congruence.
    - rewrite (Hother k Hkne) in Hreg.
      destruct (Hlive k d h Hreg) as [x Hx]. congruence. }
  destruct (onProgress_sequence kind dev h ns w1 Hlive1 Hreg1 Hall)
    as (w2 & Hrun2 & Hlive2 & Hreg2 & Hlo & Hhi & Hsame).
  destruct (onProgress_sequence_dialog kind dev h ns w1 _ Hlive1 Hreg1 Hsole Hd1 Hall)
    as (w2' & d2 & Hrun2' & Hd2 & Htitle & _ & Hlast & Hvis & Hupd).
  assert (w2' = w2) as -> by congruence.
  exists h, w1, w2.
  split; [exact Hrun|]. split; [exact Hfresh|]. split; [exact Hk|].
  split; [exact Hdom|]. split; [exact Hcreated|]. split; [exact Hrun2|].
  split; [exact Hreg2|]. split; [exact (Hlive2 kind dev h Hreg2)|].
  split; [exact Hlo|]. split; [exact Hhi|]. split; [exact Hsame|].
  split.
  { exists (mkDialog title (Some progress) true slots), d2.
    cbn [dlgTitle dlgProgress dlgVisible] in *.
    split; [exact Hd1|]. split; [reflexivity|]. split; [reflexivity|].
    split; [exact Htrace1|]. split; [exact Hd2|]. split; [exact Htitle|].
    split; [apply Hlast; reflexivity|apply Hvis; reflexivity]. }
  split; [exact Hupd|].
  intros pre devName' progress' post Hns.
  destruct (onProgress_each kind dev h ns w1 pre devName' progress' post
              Hlive1 Hreg1 Hall Hns)
    as (wa & wb & d & Hruna & Hrunb & Hpost & Hrega & Hda & He & Hdec & Hheap & Htrace).
  exists wa, wb, d. rewrite Hrun2 in Hpost. repeat split; assumption.
Qed.

End ProgressSequences.

Lemma decryptingWorld_registriesLive : registriesLive decryptingWorld.
Proof.
  intros kind dev h Hreg. destruct kind; cbn [registry decryptingWorld
    encryptDialogs decryptDialogs] in Hreg.
  - rewrite lookup_empty in Hreg. discriminate.
  - apply lookup_singleton_Some in Hreg as [_ <-]. eexists. vm_compute. reflexivity.
Qed.

(** C7 while a decryption of /dev/sdb1 is under way: an encryption of
    /dev/sda1 reports the progress 0, then 0.5 and, after a progress of the
    decryption, 0.5 again. The dialog created for it ends with 0.5 after two
    updates. *)
Lemma onProgress_creates_once_witness :
  registriesLive decryptingWorld /\
  registry Encrypt decryptingWorld !! "/dev/sda1" = None /\
  forallb isProgress progressRun = true /\
  lastProgress Encrypt "/dev/sda1" 0 progressRun = half /\
  repeats Encrypt "/dev/sda1" progressRun = 2%nat /\
  exists h w1 w2,
    exec (bindDaemonSignals Sample.kRebootRequired 0
            (progressNotification Encrypt "/dev/sda1" "disk" 0)) decryptingWorld
    = Some w1 /\
    heap decryptingWorld !! h = None /\
    registry Encrypt w1 = <[ "/dev/sda1" := h ]> (registry Encrypt decryptingWorld) /\
    dom (heap w1) = {[h]} ∪ dom (heap decryptingWorld) /\
    created (trace w1) = S (created (trace decryptingWorld)) /\
    exec (deliver Sample.kRebootRequired 0 progressRun) w1 = Some w2 /\
    registry Encrypt w2 !! "/dev/sda1" = Some h /\
    live w2 h /\
    (created (trace w1) <= created (trace w2))%nat /\
    (created (trace w2) <= created (trace w1) + others Encrypt "/dev/sda1" progressRun)%nat /\
    (others Encrypt "/dev/sda1" progressRun = 0%nat ->
     encryptDialogs w2 = encryptDialogs w1 /\
     decryptDialogs w2 = decryptDialogs w1 /\
     dom (heap w2) = dom (heap w1)) /\
    (exists d1 d2,
       heap w1 !! h = Some d1 /\
       dlgProgress d1 = Some 0 /\ dlgVisible d1 = true /\
       trace w1
       = trace decryptingWorld
         ++ [RestoreOverrideCursor; NewProcessDialog h (dlgTitle d1);
             UpdateProgress h 0; ShowProcessDialog h] /\
       heap w2 !! h = Some d2 /\
       dlgTitle d2 = dlgTitle d1 /\
       dlgProgress d2 = Some (lastProgress Encrypt "/dev/sda1" 0 progressRun) /\
       dlgVisible d2 = true) /\
    updates h (trace w2)
    = (updates h (trace w1) + repeats Encrypt "/dev/sda1" progressRun)%nat /\
    (forall pre devName' progress' post,
       progressRun
       = pre ++ progressNotification Encrypt "/dev/sda1" devName' progress' :: post ->
       exists wa wb d,
         exec (deliver Sample.kRebootRequired 0 pre) w1 = Some wa /\
         exec (bindDaemonSignals Sample.kRebootRequired 0
                 (progressNotification Encrypt "/dev/sda1" devName' progress')) wa
         = Some wb /\
         exec (deliver Sample.kRebootRequired 0 post) wb = Some w2 /\
         registry Encrypt wa !! "/dev/sda1" = Some h /\
         heap wa !! h = Some d /\
         encryptDialogs wb = encryptDialogs wa /\
         decryptDialogs wb = decryptDialogs wa /\
         heap wb = <[h := mkDialog (dlgTitle d) (Some progress') true (dlgDestroyed d)]>
                     (heap wa) /\
         trace wb = trace wa ++ [UpdateProgress h progress'; ShowProcessDialog h]).
Proof.
  split; [exact decryptingWorld_registriesLive|].
  split; [reflexivity|]. split; [reflexivity|].
  split; [reflexivity|]. split; [reflexivity|].
  apply (onProgress_creates_once Sample.kRebootRequired 0 Encrypt "/dev/sda1"
           "disk" 0 progressRun decryptingWorld).
  - exact decryptingWorld_registriesLive.
  - reflexivity.
  - reflexivity.
Defined.

Example deliver_progress :
  exec (deliver Sample.kRebootRequired 0
          [EncryptProgress "/dev/sda1" "disk" 0;
           EncryptProgress "/dev/sda1" "disk" half;
           DecryptProgress "/dev/sdb1" "data" half;
           EncryptProgress "/dev/sda1" "disk" half]) emptyWorld
  = Some (mkWorld {[ "/dev/sda1" := 0%nat ]} {[ "/dev/sdb1" := 1%nat ]}
            {[ 0%nat := mkDialog "Encrypting...disk(sda1)" (Some half) true
                          [RemoveEncryptDialog "/dev/sda1"];
               1%nat := mkDialog "Decrypting...data(sdb1)" (Some half) true [] ]}
            []
            [RestoreOverrideCursor; NewProcessDialog 0%nat "Encrypting...disk(sda1)";
             UpdateProgress 0%nat 0; ShowProcessDialog 0%nat;
             UpdateProgress 0%nat half; ShowProcessDialog 0%nat;
             RestoreOverrideCursor; NewProcessDialog 1%nat "Decrypting...data(sdb1)";
             UpdateProgress 1%nat half; ShowProcessDialog 1%nat;
             UpdateProgress 0%nat half; ShowProcessDialog 0%nat]).
Proof. vm_compute. reflexivity. Qed.

(** ** The override cursor *)

Section Cursor.

Variables kRebootRequired rebootDialogUser : Z.

Let handle := bindDaemonSignals kRebootRequired rebootDialogUser.

Lemma onPreencryptResult_trace dev devName unused code w :
  exists evs,
    exec (onPreencryptResult rebootDialogUser dev devName unused code) w
    = Some (mkWorld (encryptDialogs w) (decryptDialogs w) (heap w) (deferred w)
              (trace w ++ RestoreOverrideCursor :: evs)).
Proof.
  unfold onPreencryptResult, showPreEncryptError, showRebootOnPreencrypted.
  destruct (preEncryptOutcome dev devName code) as [[title msg] type].
  destruct (code =? kSuccess); cbn [negb].
  - destruct (rebootDialogUser =? 1); cmd_unfold; heap_simpl; eexists; reflexivity.
  - cmd_unfold; heap_simpl; eexists; reflexivity.
Qed.

Lemma onChgPassphraseResult_trace dev devName unused code w :
  exists evs,
    exec (onChgPassphraseResult dev devName unused code) w
    = Some (mkWorld (encryptDialogs w) (decryptDialogs w) (heap w) (deferred w)
              (trace w ++ RestoreOverrideCursor :: evs)).
Proof.
  unfold onChgPassphraseResult, showChgPwdError.
  destruct (chgPwdOutcome dev devName code) as [[title msg] type].
  cmd_unfold; heap_simpl; eexists; reflexivity.
Qed.



End Cursor.


Example onEncryptProgress_second :
  exec (onEncryptProgress "/dev/sda1" "disk" half) encryptingWorld
  = Some (mkWorld (encryptDialogs encryptingWorld) ∅ (heap encryptingWorld) []
            (trace encryptingWorld
             ++ [UpdateProgress 0%nat half; ShowProcessDialog 0%nat])).
Proof. vm_compute. reflexivity. Qed.


(** ** Texts: place markers and the device label *)

Lemma append_cons c (s t : string) : String c s +:+ t = String c (s +:+ t).
Proof. reflexivity. Qed.

Lemma append_assoc (a b c : string) : (a +:+ b) +:+ c = a +:+ b +:+ c.
Proof.
  induction a as [|x a IH]; [reflexivity|].
  rewrite !append_cons, IH. reflexivity.
Qed.

Lemma contains_cons c needle hay :
  QString.contains needle hay -> QString.contains needle (String c hay).
Proof.
  intros (pre & post & ->). exists (String c pre), post. reflexivity.
Qed.

Lemma contains_prefix needle rest : QString.contains needle (needle +:+ rest).
Proof. exists EmptyString, rest. reflexivity. Qed.

(** Scanning a text finds again every marker of each of its suffixes. *)
Lemma escapes_app x y :
  exists ns, QString.escapes (x +:+ y) = ns ++ QString.escapes y.
Proof.
  induction x as [|c x [ns IH]]; [exists []; reflexivity|].
  rewrite append_cons. cbn [QString.escapes]. rewrite IH.
  destruct (QString.is_percent c); [|exists ns; reflexivity].
  destruct (QString.marker_at (x +:+ y)) as [[n len]|];
    [exists (n :: ns)|exists ns]; reflexivity.
Qed.

Lemma foldr_min_elem n ns : foldr Nat.min n ns ∈ n :: ns.
Proof.
  induction ns as [|m ns IH]; cbn [foldr].
  - apply list_elem_of_here.
  - destruct (Nat.min_dec m (foldr Nat.min n ns)) as [Hm | Hm]; rewrite Hm.
    + apply list_elem_of_further, list_elem_of_here.
    + apply elem_of_cons in IH as [Hn|IH].
      * rewrite Hn. apply list_elem_of_here.
      * apply list_elem_of_further, list_elem_of_further, IH.
Qed.

(** Replacing a marker number that occurs in the text inserts the
    argument. *)
Lemma replaceArgEscapes_contains lowest a s :
  lowest ∈ QString.escapes s ->
  QString.contains a (QString.replaceArgEscapes lowest a O s).
Proof.
  induction s as [|c s IH]; cbn [QString.escapes QString.replaceArgEscapes].
  - intros Hin. apply elem_of_nil in Hin. contradiction.
  - destruct (QString.is_percent c).
    + destruct (QString.marker_at s) as [[n len]|].
      * intros Hin. destruct (Nat.eqb_spec n lowest) as [Heq|Hne].
        -- apply contains_prefix.
        -- apply elem_of_cons in Hin as [Hin|Hin]; [congruence|].
           apply contains_cons, IH, Hin.
      * intros Hin. apply contains_cons, IH, Hin.
    + intros Hin. apply contains_cons, IH, Hin.
Qed.

(** [arg] on a text with a place marker inserts the argument. *)
Lemma arg_contains s a :
  QString.escapes s <> [] -> QString.contains a (QString.arg s a).
Proof.
  intros Hsome. unfold QString.arg, QString.min_escape.
  destruct (QString.escapes s) as [|n ns] eqn:Hesc; [contradiction|].
  apply replaceArgEscapes_contains. rewrite Hesc. apply foldr_min_elem.
Qed.

(** Whatever is put in front of a text that ends in a marker, the
    marker is still there for the next [arg]. *)
Lemma arg_contains_after x y a :
  QString.escapes y <> [] -> QString.contains a (QString.arg (x +:+ y) a).
Proof.
  intros Hy. apply arg_contains.
  destruct (escapes_app x y) as [ns ->].
  destruct ns; [exact Hy|discriminate].
Qed.

(** [arg] on the label template. *)
Lemma arg_label_template devName :
  QString.arg "%1(%2)" devName = devName +:+ "(%2)".
Proof. reflexivity. Qed.

Lemma escapes_noPercent s t :
  noPercent s = true ->
  QString.escapes (s +:+ String "(" t) = QString.escapes (String "(" t).
Proof.
  induction s as [|c s IH]; [reflexivity|].
  cbn [noPercent]. intros H. apply andb_true_iff in H as [Hc Hs].
  rewrite append_cons. cbn [QString.escapes].
  apply negb_true_iff in Hc. rewrite Hc. apply IH, Hs.
Qed.

Lemma replaceArgEscapes_noPercent lowest a s t :
  noPercent s = true ->
  QString.replaceArgEscapes lowest a O (s +:+ String "(" t)
  = s +:+ QString.replaceArgEscapes lowest a O (String "(" t).
Proof.
  induction s as [|c s IH]; [reflexivity|].
  cbn [noPercent]. intros H. apply andb_true_iff in H as [Hc Hs].
  rewrite !append_cons. cbn [QString.replaceArgEscapes].
  apply negb_true_iff in Hc. rewrite Hc. rewrite (IH Hs). reflexivity.
Qed.

(** For a display name without ['%'] the label is the name followed, in
    parentheses, by the device identifier without its first five
    characters. *)
Lemma deviceLabel_plain devName dev :
  noPercent devName = true ->
  deviceLabel devName dev = devName +:+ "(" +:+ QString.mid 5 dev +:+ ")".
Proof.
  intros Hplain. unfold deviceLabel. rewrite arg_label_template.
  unfold QString.arg, QString.min_escape.
  rewrite (escapes_noPercent devName "%2)" Hplain).
  change (QString.escapes "(%2)") with [2%nat]. cbn [foldr].
  rewrite (replaceArgEscapes_noPercent _ _ devName "%2)" Hplain).
  f_equal.
Qed.

(** ** The outcome of a decryption *)

(** Unary minus on an [int] hits a small magnitude exactly at its
    negation; the least [int] wraps to itself. *)
Lemma int_neg_small code k :
  is_int code -> 0 <= k < 2 ^ 31 -> (int_neg code = k <-> code = - k).
Proof.
  unfold is_int, int_min, int_max, int_neg, int_wrap.
  change (2 ^ 31) with 2147483648. change (2 ^ 32) with 4294967296.
  intros Hcode Hk.
  pose proof (Z.div_mod (- code + 2147483648) 4294967296 ltac:(lia)) as Hdm.
  pose proof (Z.mod_pos_bound (- code + 2147483648) 4294967296 ltac:(lia)) as Hb.
  split; intros H; nia.
Qed.

Lemma int_neg_eqb code k :
  is_int code -> 0 <= k < 2 ^ 31 -> (int_neg code =? k) = (code =? - k).
Proof.
  intros Hcode Hk. destruct (int_neg_small code k Hcode Hk) as [H1 H2].
  destruct (Z.eqb_spec (int_neg code) k), (Z.eqb_spec code (- k)); auto; tauto.
Qed.

Example int_neg_least : int_neg int_min = int_min.
Proof. reflexivity. Qed.

Lemma showDecryptError_trace dev devName code w :
  exec (showDecryptError dev devName code) w
  = Some (mkWorld (encryptDialogs w) (decryptDialogs w) (heap w) (deferred w)
            (trace w ++ [decryptOutcomeDialog dev devName code])).
Proof.
  unfold showDecryptError, decryptOutcomeDialog.
  destruct (decryptOutcome dev devName code) as [[title msg] type].
  cmd_unfold. reflexivity.
Qed.

(** C6. [showDecryptError] is defined for every [int] and presents exactly
    one dialog. Code 0 gives the title "Decrypt done" and the informational
    type; the negated user-cancelled code gives "Decrypt disk", "User
    cancelled operation", informational; the negated wrong-passphrase code
    gives the error type and the message about a wrong passphrase or PIN;
    every other code gives the generic failure, of error type, whose message
    contains the decimal text of the code. *)
Theorem decryptOutcome_mapping dev devName code w :
  is_int code ->
  exec (showDecryptError dev devName code) w
  = Some (mkWorld (encryptDialogs w) (decryptDialogs w) (heap w) (deferred w)
            (trace w ++ [decryptOutcomeDialog dev devName code])) /\
  (exists title msg type,
     decryptOutcome dev devName code = (title, msg, type) /\
     decryptOutcomeDialog dev devName code = ShowDialog title msg type) /\
  (code = 0 ->
   exists msg, decryptOutcome dev devName code = ("Decrypt done", msg, kInfo)) /\
  (code = - kUserCancelled ->
   decryptOutcome dev devName code
   = ("Decrypt disk", "User cancelled operation", kInfo)) /\
  (code = - kErrorWrongPassphrase ->
   decryptOutcome dev devName code
   = ("Decrypt disk", "Wrong passpharse or PIN", kError)) /\
  (code <> 0 -> code <> - kUserCancelled -> code <> - kErrorWrongPassphrase ->
   exists msg,
     decryptOutcome dev devName code = ("Decrypt failed", msg, kError) /\
     QString.contains (QString.number code) msg).
Proof.
  intros Hint. split; [apply showDecryptError_trace|].
  split.
  { unfold decryptOutcomeDialog.
    destruct (decryptOutcome dev devName code) as [[title msg] type]. eauto. }
  unfold decryptOutcome.
  rewrite !(int_neg_eqb code) by (first [exact Hint | cbv; split; congruence]).
  unfold kSuccess, kUserCancelled, kErrorWrongPassphrase. cbn [Z.opp].
  split; [intros ->; cbn; eauto|].
  split; [intros ->; reflexivity|].
  split; [intros ->; reflexivity|].
  intros H0 H1 H2.
  repeat match goal with
         | |- context [Z.eqb code ?k] => destruct (Z.eqb_spec code k) as [?|_]; [lia|]
         end.
  eexists. split; [reflexivity|].
  unfold QString.argInt, tr.
  change (QString.arg "Device %1 Decrypt failed, please see log for more information.(%2)"
            (deviceLabel devName dev))
    with (("Device " +:+ deviceLabel devName dev)
          +:+ " Decrypt failed, please see log for more information.(%2)").
  apply arg_contains_after. discriminate.
Qed.

(** C6 at the code -7, which is none of the known ones. *)
Lemma decryptOutcome_mapping_witness :
  is_int (-7) /\
  exists msg,
    decryptOutcome "/dev/sdb1" "data" (-7) = ("Decrypt failed", msg, kError) /\
    QString.contains (QString.number (-7)) msg.
Proof.
  assert (Hint : is_int (-7)) by (unfold is_int, int_min, int_max; lia).
  split; [exact Hint|].
  destruct (decryptOutcome_mapping "/dev/sdb1" "data" (-7) emptyWorld Hint)
    as (_ & _ & _ & _ & _ & Hother).
  apply Hother; unfold kUserCancelled, kErrorWrongPassphrase; lia.
Defined.

Example decryptOutcome_done :
  decryptOutcome "/dev/sdb1" "data" 0
  = ("Decrypt done", "Device data(sdb1) has been decrypted", kInfo).
Proof. reflexivity. Qed.

Example decryptOutcome_cancelled :
  decryptOutcome "/dev/sdb1" "data" (-1)
  = ("Decrypt disk", "User cancelled operation", kInfo).
Proof. reflexivity. Qed.

Example decryptOutcome_wrong :
  decryptOutcome "/dev/sdb1" "data" (-2)
  = ("Decrypt disk", "Wrong passpharse or PIN", kError).
Proof. reflexivity. Qed.

Example decryptOutcome_other :
  decryptOutcome "/dev/sdb1" "data" (-7)
  = ("Decrypt failed",
     "Device data(sdb1) Decrypt failed, please see log for more information.(-7)",
     kError).
Proof. vm_compute. reflexivity. Qed.

Example decryptOutcome_positive :
  decryptOutcome "/dev/sdb1" "data" 2
  = ("Decrypt failed",
     "Device data(sdb1) Decrypt failed, please see log for more information.(2)",
     kError).
Proof. vm_compute. reflexivity. Qed.

(** ** The device label *)

(** C10, at a display name that is itself a place marker. The second [arg]
    of the chain replaces the lowest marker of the text, which is the one
    the display name brought in: the label is not the name followed by the
    device in parentheses, and the dialog shows it that way. *)
Theorem deviceLabel_place_marker :
  deviceLabel "%1" "/dev/sda1" = "sda1(%2)" /\
  deviceLabel "%1" "/dev/sda1" <> "%1" +:+ "(" +:+ QString.mid 5 "/dev/sda1" +:+ ")" /\
  exec (onEncryptResult "/dev/sda1" "%1" 0) emptyWorld
  = Some (mkWorld ∅ ∅ ∅ []
            [RestoreOverrideCursor;
             ShowDialog "Encrypt done" "Device sda1(%2) has been encrypted" kInfo]).
Proof.
  split; [reflexivity|]. split; [discriminate|]. vm_compute. reflexivity.
Qed.

Example deviceLabel_usual : deviceLabel "disk" "/dev/sda1" = "disk(sda1)".
Proof. reflexivity. Qed.

Example deviceLabel_short_identifier : deviceLabel "disk" "sda1" = "disk()".
Proof. reflexivity. Qed.

Example deviceLabel_percent_only : deviceLabel "100%" "/dev/sda1" = "100%(sda1)".
Proof. reflexivity. Qed.

(** ** The invariant of the registries *)

Lemma slotsRemove_lookup_in ss m dev :
  RemoveEncryptDialog dev ∈ ss -> slotsRemove ss m !! dev = None.
Proof.
  unfold slotsRemove. revert m. induction ss as [|[dev'] ss IH]; intros m Hin.
  - apply elem_of_nil in Hin. contradiction.
  - cbn [foldl]. apply elem_of_cons in Hin as [Heq|Hin].
    + injection Heq as <-. clear IH.
      assert (Hgone : forall ss' (m' : gmap string Handle), m' !! dev = None ->
                foldl (fun m s => match s with RemoveEncryptDialog d => delete d m end)
                  m' ss' !! dev = None).
      { induction ss' as [|[d2] ss' IH']; intros m' Hm'; cbn [foldl]; [exact Hm'|].
        apply IH'. destruct (decide (d2 = dev)) as [->|Hne].
        - apply lookup_delete_eq.
        - rewrite lookup_delete_ne by exact Hne. exact Hm'. }
      apply Hgone, lookup_delete_eq.
    + apply IH, Hin.
Qed.

Lemma slotsRemove_lookup_notin ss m dev :
  RemoveEncryptDialog dev ∉ ss -> slotsRemove ss m !! dev = m !! dev.
Proof.
  unfold slotsRemove. revert m. induction ss as [|[dev'] ss IH]; intros m Hnotin.
  - reflexivity.
  - cbn [foldl]. apply not_elem_of_cons in Hnotin as [Hne Hnotin].
    rewrite (IH _ Hnotin). apply lookup_delete_ne. congruence.
Qed.

Lemma slotsRemove_lookup_Some ss m dev h :
  slotsRemove ss m !! dev = Some h ->
  (RemoveEncryptDialog dev ∉ ss) /\ m !! dev = Some h.
Proof.
  intros Hsome. destruct (decide (RemoveEncryptDialog dev ∈ ss)) as [Hin|Hnotin].
  - rewrite (slotsRemove_lookup_in _ _ _ Hin) in Hsome. discriminate.
  - rewrite (slotsRemove_lookup_notin _ _ _ Hnotin) in Hsome. auto.
Qed.

Section InvariantSteps.

Variables (enc dec : gmap string Handle) (hp : gmap Handle EncryptProcessDialog)
        (posted : list Handle).
Hypothesis Hwf : wellFormedParts enc dec hp posted.

(** A new encrypt dialog at a free address, for a device without entry. *)
Lemma wellFormed_new_encrypt dev h title progress visible :
enc !! dev = None -> hp !! h = None ->
wellFormedParts (<[dev := h]> enc) dec
  (<[h := mkDialog title progress visible [RemoveEncryptDialog dev]]> hp) posted.
Proof.
destruct Hwf as (Ha & Hb & Hc & Hd & He). intros Hnone Hfree.
split; [|split; [|split; [|split]]].
- intros dev' h' Hreg. destruct (decide (dev = dev')) as [<-|Hne].
  + rewrite lookup_insert_eq in Hreg. injection Hreg as <-.
    rewrite lookup_insert_eq. eexists. split; [reflexivity|].
    cbn [dlgDestroyed]. apply list_elem_of_here.
  + rewrite lookup_insert_ne in Hreg by exact Hne.
    destruct (Ha dev' h' Hreg) as (d & Hd' & Hin). exists d. split; [|exact Hin].
    rewrite lookup_insert_ne; [exact Hd'|]. congruence.
- intros h' d dev' Hlook Hin. destruct (decide (h = h')) as [<-|Hne].
  + rewrite lookup_insert_eq in Hlook. injection Hlook as <-.
    cbn [dlgDestroyed] in Hin. apply list_elem_of_singleton in Hin.
    injection Hin as ->. apply lookup_insert_eq.
  + rewrite lookup_insert_ne in Hlook by exact Hne.
    pose proof (Hb h' d dev' Hlook Hin) as Hreg.
    rewrite lookup_insert_ne; [exact Hreg|]. congruence.
- intros dev' h' Hreg. destruct (Hc dev' h' Hreg) as (d & Hd' & Hnil).
  exists d. split; [|exact Hnil]. rewrite lookup_insert_ne; [exact Hd'|]. congruence.
- intros h' d Hlook. destruct (decide (h = h')) as [<-|Hne].
  + left. exists dev. apply lookup_insert_eq.
  + rewrite lookup_insert_ne in Hlook by exact Hne.
    destruct (Hd h' d Hlook) as [[dev' Hreg]|[H|H]]; [left|right; left|right; right];
      auto.
    exists dev'. rewrite lookup_insert_ne; [exact Hreg|]. congruence.
- intros h' Hin. apply lookup_insert_is_Some'. right. apply He, Hin.
Qed.

(** A new decrypt dialog at a free address, for a device without entry. *)
Lemma wellFormed_new_decrypt dev h title progress visible :
dec !! dev = None -> hp !! h = None ->
wellFormedParts enc (<[dev := h]> dec)
  (<[h := mkDialog title progress visible []]> hp) posted.
Proof.
destruct Hwf as (Ha & Hb & Hc & Hd & He). intros Hnone Hfree.
split; [|split; [|split; [|split]]].
- intros dev' h' Hreg. destruct (Ha dev' h' Hreg) as (d & Hd' & Hin).
  exists d. split; [|exact Hin]. rewrite lookup_insert_ne; [exact Hd'|]. congruence.
- intros h' d dev' Hlook Hin. destruct (decide (h = h')) as [<-|Hne].
  + rewrite lookup_insert_eq in Hlook. injection Hlook as <-.
    cbn [dlgDestroyed] in Hin. apply elem_of_nil in Hin. contradiction.
  + rewrite lookup_insert_ne in Hlook by exact Hne. exact (Hb h' d dev' Hlook Hin).
- intros dev' h' Hreg. destruct (decide (dev = dev')) as [<-|Hne].
  + rewrite lookup_insert_eq in Hreg. injection Hreg as <-.
    rewrite lookup_insert_eq. eexists. split; reflexivity.
  + rewrite lookup_insert_ne in Hreg by exact Hne.
    destruct (Hc dev' h' Hreg) as (d & Hd' & Hnil). exists d. split; [|exact Hnil].
    rewrite lookup_insert_ne; [exact Hd'|]. congruence.
- intros h' d Hlook. destruct (decide (h = h')) as [<-|Hne].
  + right; left. exists dev. apply lookup_insert_eq.
  + rewrite lookup_insert_ne in Hlook by exact Hne.
    destruct (Hd h' d Hlook) as [H|[[dev' Hreg]|H]]; [left|right; left|right; right];
      auto.
    exists dev'. rewrite lookup_insert_ne; [exact Hreg|]. congruence.
- intros h' Hin. apply lookup_insert_is_Some'. right. apply He, Hin.
Qed.

(** A dialog changes its progress and visibility, not its slots. *)
Lemma wellFormed_update h d title progress visible :
hp !! h = Some d ->
wellFormedParts enc dec
  (<[h := mkDialog title progress visible (dlgDestroyed d)]> hp) posted.
Proof.
destruct Hwf as (Ha & Hb & Hc & Hd & He). intros Hlive.
split; [|split; [|split; [|split]]].
- intros dev' h' Hreg. destruct (Ha dev' h' Hreg) as (d' & Hd' & Hin).
  destruct (decide (h = h')) as [<-|Hne].
  + rewrite lookup_insert_eq. eexists. split; [reflexivity|].
    cbn [dlgDestroyed]. congruence.
  + exists d'. rewrite lookup_insert_ne by exact Hne. auto.
- intros h' d' dev' Hlook Hin. destruct (decide (h = h')) as [<-|Hne].
  + rewrite lookup_insert_eq in Hlook. injection Hlook as <-.
    cbn [dlgDestroyed] in Hin. exact (Hb h d dev' Hlive Hin).
  + rewrite lookup_insert_ne in Hlook by exact Hne. exact (Hb h' d' dev' Hlook Hin).
- intros dev' h' Hreg. destruct (Hc dev' h' Hreg) as (d' & Hd' & Hnil).
  destruct (decide (h = h')) as [<-|Hne].
  + rewrite lookup_insert_eq. eexists. split; [reflexivity|].
    cbn [dlgDestroyed]. congruence.
  + exists d'. rewrite lookup_insert_ne by exact Hne. auto.
- intros h' d' Hlook. destruct (decide (h = h')) as [<-|Hne].
  + exact (Hd h d Hlive).
  + rewrite lookup_insert_ne in Hlook by exact Hne. exact (Hd h' d' Hlook).
- intros h' Hin. apply lookup_insert_is_Some'. right. apply He, Hin.
Qed.

(** The dialog of an encrypt entry is destroyed and the entry removed. *)
Lemma wellFormed_encrypt_result dev h d :
enc !! dev = Some h -> hp !! h = Some d ->
wellFormedParts (delete dev (slotsRemove (dlgDestroyed d) enc)) dec
  (delete h hp) (filter (fun h' => h' <> h) posted).
Proof.
destruct Hwf as (Ha & Hb & Hc & Hd & He). intros Hreg Hlive.
assert (Hkeep : forall dev' h', enc !! dev' = Some h' -> h' <> h ->
          delete dev (slotsRemove (dlgDestroyed d) enc) !! dev' = Some h').
{ intros dev' h' Hreg' Hne.
  rewrite lookup_delete_ne by congruence.
  rewrite slotsRemove_lookup_notin; [exact Hreg'|].
  intros Hin. pose proof (Hb h d dev' Hlive Hin). congruence. }
assert (Hslot : dlgDestroyed d <> []).
{ destruct (Ha dev h Hreg) as (d' & Hd' & Hin).
  assert (d' = d) as -> by congruence.
  intros Hnil. rewrite Hnil in Hin. apply elem_of_nil in Hin. contradiction. }
split; [|split; [|split; [|split]]].
- intros dev' h' Hreg'. apply lookup_delete_Some in Hreg' as [Hne Hreg'].
  apply slotsRemove_lookup_Some in Hreg' as [Hnotin Hreg'].
  destruct (Ha dev' h' Hreg') as (d' & Hd' & Hin). exists d'. split; [|exact Hin].
  rewrite lookup_delete_ne; [exact Hd'|].
  intros <-. assert (d' = d) as -> by congruence. contradiction.
- intros h' d' dev' Hlook Hin. apply lookup_delete_Some in Hlook as [Hne Hlook].
  apply Hkeep; [exact (Hb h' d' dev' Hlook Hin)|congruence].
- intros dev' h' Hreg'. destruct (Hc dev' h' Hreg') as (d' & Hd' & Hnil).
  exists d'. split; [|exact Hnil]. rewrite lookup_delete_ne; [exact Hd'|].
  intros <-. assert (d' = d) as -> by congruence. contradiction.
- intros h' d' Hlook. apply lookup_delete_Some in Hlook as [Hne Hlook].
  destruct (Hd h' d' Hlook) as [[dev' Hreg']|[H|H]].
  + left. exists dev'. apply Hkeep; [exact Hreg'|congruence].
  + right; left. exact H.
  + right; right. apply list_elem_of_filter. split; [congruence|exact H].
- intros h' Hin. apply list_elem_of_filter in Hin as [Hne Hin].
  rewrite lookup_delete_ne by congruence. apply He, Hin.
Qed.

(** The deletion of the dialog of a decrypt entry is posted and the entry
  removed. *)
Lemma wellFormed_decrypt_result dev h :
dec !! dev = Some h ->
wellFormedParts enc (delete dev dec) hp (posted ++ [h]).
Proof.
destruct Hwf as (Ha & Hb & Hc & Hd & He). intros Hreg.
split; [|split; [|split; [|split]]].
- exact Ha.
- exact Hb.
- intros dev' h' Hreg'. apply lookup_delete_Some in Hreg' as [Hne Hreg'].
  exact (Hc dev' h' Hreg').
- intros h' d' Hlook. destruct (Hd h' d' Hlook) as [H|[[dev' Hreg']|H]].
  + left. exact H.
  + destruct (decide (dev = dev')) as [<-|Hne].
    * right; right. assert (h' = h) as -> by congruence.
      apply elem_of_app. right. apply list_elem_of_here.
    * right; left. exists dev'. rewrite lookup_delete_ne by exact Hne. exact Hreg'.
  + right; right. apply elem_of_app. left. exact H.
- intros h' Hin. apply elem_of_app in Hin as [Hin|Hin]; [apply He, Hin|].
  apply list_elem_of_singleton in Hin as ->.
  destruct (Hc dev h Hreg) as (d & Hd' & _). eauto.
Qed.

End InvariantSteps.

Lemma wellFormed_emptyWorld : wellFormed emptyWorld.
Proof.
  unfold wellFormed, wellFormedParts, emptyWorld.
  cbn [encryptDialogs decryptDialogs heap deferred].
  split; [|split; [|split; [|split]]].
  - intros dev h Hreg. rewrite lookup_empty in Hreg. discriminate.
  - intros h d dev Hlook. rewrite lookup_empty in Hlook. discriminate.
  - intros dev h Hreg. rewrite lookup_empty in Hreg. discriminate.
  - intros h d Hlook. rewrite lookup_empty in Hlook. discriminate.
  - intros h Hin. apply elem_of_nil in Hin. contradiction.
Qed.

Section Invariant.

Variables kRebootRequired rebootDialogUser : Z.

Let handle := bindDaemonSignals kRebootRequired rebootDialogUser.
Let deliverAll := deliver kRebootRequired rebootDialogUser.

(** Every slot serves its notification in a well-formed state and leaves a
  well-formed state. *)
Lemma bindDaemonSignals_wellFormed n w :
wellFormed w ->
exists w1, exec (handle n) w = Some w1 /\ wellFormed w1.
Proof.
intros Hwf. unfold handle. pose proof Hwf as (Ha & Hb & Hc & Hd & He).
destruct n as [dev devName unused code | dev devName code | dev devName progress
              | dev devName unused code | dev devName progress
              | dev devName unused code];
  cbn [bindDaemonSignals].
- destruct (onPreencryptResult_trace rebootDialogUser dev devName unused code w)
    as [evs ->].
  eexists. split; [reflexivity|]. exact Hwf.
- destruct (encryptDialogs w !! dev) as [h|] eqn:Hreg.
  + destruct (Ha dev h Hreg) as (d & Hlive & _).
    rewrite (onEncryptResult_present _ _ _ _ _ _ Hreg Hlive).
    eexists. split; [reflexivity|].
    exact (wellFormed_encrypt_result _ _ _ _ Hwf dev h d Hreg Hlive).
  + rewrite (onEncryptResult_absent _ _ _ _ Hreg).
    eexists. split; [reflexivity|]. exact Hwf.
- destruct (encryptDialogs w !! dev) as [h|] eqn:Hreg.
  + destruct (Ha dev h Hreg) as (d & Hlive & _).
    rewrite (onEncryptProgress_update _ _ _ _ _ _ Hreg Hlive).
    eexists. split; [reflexivity|].
    exact (wellFormed_update _ _ _ _ Hwf h d _ _ _ Hlive).
  + rewrite (onEncryptProgress_new _ _ _ _ Hreg).
    eexists. split; [reflexivity|].
    exact (wellFormed_new_encrypt _ _ _ _ Hwf dev _ _ _ _ Hreg (fresh_not_live w)).
- destruct (decryptDialogs w !! dev) as [h|] eqn:Hreg.
  + destruct (Hc dev h Hreg) as (d & Hlive & _).
    rewrite (onDecryptResult_present _ _ _ _ _ _ _ _ _ Hreg Hlive).
    eexists. split; [reflexivity|].
    exact (wellFormed_decrypt_result _ _ _ _ Hwf dev h Hreg).
  + rewrite (onDecryptResult_absent _ _ _ _ _ _ _ Hreg).
    eexists. split; [reflexivity|]. exact Hwf.
- destruct (decryptDialogs w !! dev) as [h|] eqn:Hreg.
  + destruct (Hc dev h Hreg) as (d & Hlive & _).
    rewrite (onDecryptProgress_update _ _ _ _ _ _ Hreg Hlive).
    eexists. split; [reflexivity|].
    exact (wellFormed_update _ _ _ _ Hwf h d _ _ _ Hlive).
  + rewrite (onDecryptProgress_new _ _ _ _ Hreg).
    eexists. split; [reflexivity|].
    exact (wellFormed_new_decrypt _ _ _ _ Hwf dev _ _ _ _ Hreg (fresh_not_live w)).
- destruct (onChgPassphraseResult_trace dev devName unused code w) as [evs ->].
  eexists. split; [reflexivity|]. exact Hwf.
Qed.

(** X1. In a well-formed state every sequence of notifications of the
  daemon, of any kinds and for any devices in any order, is served without
  a null or dangling dialog pointer being used, and the state stays
  well-formed: encrypt entries point to live dialogs that carry their
  removing slot, decrypt entries to live dialogs without slot, and every
  live dialog is referenced by a registry or awaits its posted
  deletion. *)
Theorem deliver_wellFormed ns w :
wellFormed w ->
exists w1, exec (deliverAll ns) w = Some w1 /\ wellFormed w1.
Proof.
revert w. induction ns as [|n ns IH]; intros w Hwf.
- exists w. split; [destruct w; reflexivity|exact Hwf].
- destruct (bindDaemonSignals_wellFormed n w Hwf) as (w1 & Hrun & Hwf1).
  destruct (IH w1 Hwf1) as (w2 & Hrun2 & Hwf2).
  exists w2. split; [|exact Hwf2].
  unfold deliverAll. rewrite exec_deliver_cons. fold handle. rewrite Hrun.
  exact Hrun2.
Qed.

End Invariant.

(** X1 at the initial state and a mixed run of notifications. *)
Lemma deliver_wellFormed_witness :
  wellFormed emptyWorld /\
  exists w1,
    exec (deliver Sample.kRebootRequired 1 notificationRun) emptyWorld = Some w1 /\
    wellFormed w1.
Proof.
  split; [exact wellFormed_emptyWorld|].
  apply (deliver_wellFormed Sample.kRebootRequired 1 notificationRun emptyWorld).
  exact wellFormed_emptyWorld.
Defined.

Example deliver_notificationRun :
  exec (deliver Sample.kRebootRequired 1 notificationRun) emptyWorld
  = Some (mkWorld {[ "/dev/sda1" := 2%nat ]} ∅
            {[ 2%nat := mkDialog "Encrypting...disk(sda1)" (Some half) true
                          [RemoveEncryptDialog "/dev/sda1"];
               1%nat := mkDialog "Decrypting...data(sdb1)" (Some half) true [] ]}
            [1%nat]
            [RestoreOverrideCursor; NewProcessDialog 0%nat "Encrypting...disk(sda1)";
             UpdateProgress 0%nat 0; ShowProcessDialog 0%nat;
             RestoreOverrideCursor; NewProcessDialog 1%nat "Decrypting...data(sdb1)";
             UpdateProgress 1%nat half; ShowProcessDialog 1%nat;
             RestoreOverrideCursor;
             ShowDialog "Encrypt disk" "User cancelled operation" kInfo;
             RestoreOverrideCursor; Destroyed 0%nat;
             ShowDialog "Encrypt done" "Device disk(sda1) has been encrypted" kInfo;
             RestoreOverrideCursor; DeleteLater 1%nat;
             ExecDDialog "Decrypt device" "Please reboot to decrypt device data(sdb1)."
               ["Reboot later"; "Reboot now"];
             RequestReboot;
             RestoreOverrideCursor;
             ExecDDialog "Decrypt device" "Please reboot to decrypt device data(sdb1)."
               ["Reboot later"; "Reboot now"];
             RequestReboot;
             RestoreOverrideCursor;
             ShowDialog "Change passphrase failed" "Wrong passpharse or PIN" kError;
             RestoreOverrideCursor; NewProcessDialog 2%nat "Encrypting...disk(sda1)";
             UpdateProgress 2%nat half; ShowProcessDialog 2%nat]).
Proof. vm_compute. reflexivity. Qed.

(** X17. The slot connected in [onEncryptProgress] does its work: when the
    dialog of an encrypt entry is destroyed by anything, in a well-formed
    state, the entry of the device leaves the encrypt registry with it, the
    decrypt registry is untouched and the state is well-formed again, so
    that every later notification is still served. *)
Theorem destroyed_encrypt_dialog_unregisters dev h w :
  wellFormed w ->
  encryptDialogs w !! dev = Some h ->
  exists w1,
    exec (destroy (Some h)) w = Some w1 /\
    encryptDialogs w1 !! dev = None /\
    heap w1 !! h = None /\
    decryptDialogs w1 = decryptDialogs w /\
    wellFormed w1.
Proof.
  intros Hwf Hreg. pose proof Hwf as (Ha & _).
  destruct (Ha dev h Hreg) as (d & Hlive & Hslot).
  rewrite (destroy_live h d w Hlive). eexists. split; [reflexivity|].
  cbn [encryptDialogs decryptDialogs heap].
  assert (Hgone : slotsRemove (dlgDestroyed d) (encryptDialogs w) !! dev = None)
    by (apply slotsRemove_lookup_in, Hslot).
  split; [exact Hgone|]. split; [apply lookup_delete_eq|]. split; [reflexivity|].
  unfold wellFormed. cbn [encryptDialogs decryptDialogs heap deferred].
  rewrite <- (delete_id _ dev Hgone).
  exact (wellFormed_encrypt_result _ _ _ _ Hwf dev h d Hreg Hlive).
Qed.

(** X17 at the dialog of the encryption of /dev/sda1, once the state is
    known to be well-formed. *)
Lemma encryptingWorld_wellFormed : wellFormed encryptingWorld.
Proof.
  destruct (bindDaemonSignals_wellFormed Sample.kRebootRequired 0
              (EncryptProgress "/dev/sda1" "disk" half) emptyWorld
              wellFormed_emptyWorld) as (w1 & Hrun & Hwf).
  assert (Heq : w1 = encryptingWorld).
  { assert (Hrun' : exec (bindDaemonSignals Sample.kRebootRequired 0
                            (EncryptProgress "/dev/sda1" "disk" half)) emptyWorld
                    = Some encryptingWorld) by (vm_compute; reflexivity).
    congruence. }
  rewrite <- Heq. exact Hwf.
Qed.

Lemma destroyed_encrypt_dialog_unregisters_witness :
  wellFormed encryptingWorld /\
  encryptDialogs encryptingWorld !! "/dev/sda1" = Some 0%nat /\
  exists w1,
    exec (destroy (Some 0%nat)) encryptingWorld = Some w1 /\
    encryptDialogs w1 !! "/dev/sda1" = None /\
    heap w1 !! 0%nat = None /\
    decryptDialogs w1 = decryptDialogs encryptingWorld /\
    wellFormed w1.
Proof.
  split; [exact encryptingWorld_wellFormed|]. split; [reflexivity|].
  apply (destroyed_encrypt_dialog_unregisters "/dev/sda1" 0%nat encryptingWorld).
  - exact encryptingWorld_wellFormed.
  - reflexivity.
Defined.

(** ** One operation from its first progress to its result *)

Lemma filter_other_id (h : Handle) (posted : list Handle) :
  h ∉ posted -> filter (fun h' => h' <> h) posted = posted.
Proof.
  induction posted as [|x posted IH]; intros Hnotin; [reflexivity|].
  apply not_elem_of_cons in Hnotin as [Hne Hnotin].
  rewrite filter_cons_True by congruence. rewrite (IH Hnotin). reflexivity.
Qed.

Section Lifecycle.

Variables kRebootRequired rebootDialogUser : Z.

Let handle := bindDaemonSignals kRebootRequired rebootDialogUser.
Let deliverAll := deliver kRebootRequired rebootDialogUser.

Lemma exec_deliver_nil w : exec (deliverAll []) w = Some w.
Proof. destruct w; reflexivity. Qed.

Lemma exec_deliver_app ns ns' w :
exec (deliverAll (ns ++ ns')) w
= match exec (deliverAll ns) w with
  | Some w1 => exec (deliverAll ns') w1
  | None => None
  end.
Proof.
revert w. induction ns as [|n ns IH]; intros w.
- rewrite exec_deliver_nil. reflexivity.
- cbn [app]. unfold deliverAll.
  rewrite !(exec_deliver_cons kRebootRequired rebootDialogUser).
  destruct (exec (bindDaemonSignals kRebootRequired rebootDialogUser n) w) as [w1|];
    [apply IH|reflexivity].
Qed.

(** A progress notification for a device that has its dialog, in full. *)
Lemma onProgress_update_world kind dev devName progress w h d :
registry kind w !! dev = Some h ->
heap w !! h = Some d ->
exec (handle (progressNotification kind dev devName progress)) w
= Some (mkWorld (encryptDialogs w) (decryptDialogs w)
          (<[h := mkDialog (dlgTitle d) (Some progress) true (dlgDestroyed d)]> (heap w))
          (deferred w)
          (trace w ++ [UpdateProgress h progress; ShowProcessDialog h])).
Proof.
intros Hreg Hlive. unfold handle.
destruct kind; cbn [progressNotification bindDaemonSignals registry] in *.
- exact (onEncryptProgress_update _ _ _ _ _ _ Hreg Hlive).
- exact (onDecryptProgress_update _ _ _ _ _ _ Hreg Hlive).
Qed.

(** More progress for a device that has its dialog: the registries and the
  posted deletions stay, the dialog keeps its title and slots and shows
  the progress received last. *)
Lemma progressList_run kind dev ps w h d :
registry kind w !! dev = Some h ->
heap w !! h = Some d ->
exists d' w1,
  exec (deliverAll (progressList kind dev ps)) w = Some w1 /\
  encryptDialogs w1 = encryptDialogs w /\
  decryptDialogs w1 = decryptDialogs w /\
  deferred w1 = deferred w /\
  heap w1 = <[h := d']> (heap w) /\
  dlgTitle d' = dlgTitle d /\
  dlgDestroyed d' = dlgDestroyed d /\
  dlgProgress d' = default (dlgProgress d) (Some <$> last (snd <$> ps)) /\
  created (trace w1) = created (trace w).
Proof.
revert w d. induction ps as [|[devName progress] ps IH]; intros w d Hreg Hlive.
- exists d, w. rewrite exec_deliver_nil. repeat split.
  symmetry. apply insert_id. exact Hlive.
- pose proof (onProgress_update_world kind dev devName progress w h d Hreg Hlive)
    as Hrun.
  set (d1 := mkDialog (dlgTitle d) (Some progress) true (dlgDestroyed d)) in *.
  set (w1 := mkWorld (encryptDialogs w) (decryptDialogs w) (<[h := d1]> (heap w))
               (deferred w)
               (trace w ++ [UpdateProgress h progress; ShowProcessDialog h])) in *.
  assert (Hreg1 : registry kind w1 !! dev = Some h)
    by (destruct kind; exact Hreg).
  assert (Hlive1 : heap w1 !! h = Some d1) by apply lookup_insert_eq.
  destruct (IH w1 d1 Hreg1 Hlive1)
    as (d' & w2 & Hrun2 & He2 & Hd2 & Hq2 & Hheap2 & Ht & Hs & Hp & Hc).
  exists d', w2. cbn [progressList map fst snd]. unfold deliverAll.
  rewrite (exec_deliver_cons kRebootRequired rebootDialogUser).
  unfold handle in Hrun. rewrite Hrun.
  split; [exact Hrun2|]. split; [exact He2|]. split; [exact Hd2|].
  split; [exact Hq2|].
  split; [rewrite Hheap2; cbn [heap w1]; apply insert_insert_eq|].
  split; [exact Ht|]. split; [exact Hs|].
  split.
  + rewrite Hp. cbn [dlgProgress d1]. clear.
    destruct ps as [|[n2 p2] ps]; [reflexivity|].
    change (snd <$> (devName, progress) :: (n2, p2) :: ps)
      with (progress :: p2 :: (snd <$> ps)).
    change (snd <$> (n2, p2) :: ps) with (p2 :: (snd <$> ps)).
    rewrite last_cons_cons.
    destruct (last (p2 :: (snd <$> ps))) as [x|] eqn:Hlast; [reflexivity|].
    apply last_None in Hlast. discriminate.
  + rewrite Hc. cbn [trace w1]. rewrite created_app. cbn [created]. lia.
Qed.

(** X2. An encryption reported from its first progress to its result, for
  a device without entry in a well-formed state, is served and leaves
  nothing behind: both registries, the dialogs and the posted deletions
  are exactly as before, and one progress dialog was created for it,
  however many progress notifications there were and whatever the result
  code is. *)
Theorem encrypt_operation_leaves_nothing dev devName progress ps devName' unused code w :
wellFormed w ->
encryptDialogs w !! dev = None ->
exists w1,
  exec (deliverAll (operation Encrypt dev devName progress ps devName' unused code)) w
  = Some w1 /\
  encryptDialogs w1 = encryptDialogs w /\
  decryptDialogs w1 = decryptDialogs w /\
  heap w1 = heap w /\
  deferred w1 = deferred w /\
  created (trace w1) = S (created (trace w)).
Proof.
intros (_ & _ & _ & _ & Hposted) Hnone.
set (h := fresh (dom (heap w))).
assert (Hfree : heap w !! h = None) by apply fresh_not_live.
pose proof (onEncryptProgress_new dev devName progress w Hnone) as Hfirst.
cbv zeta in Hfirst. fold h in Hfirst.
set (d0 := mkDialog (QString.arg (tr "Encrypting...%1") (deviceLabel devName dev))
             (Some progress) true [RemoveEncryptDialog dev]) in *.
set (w0 := mkWorld (<[dev := h]> (encryptDialogs w)) (decryptDialogs w)
             (<[h := d0]> (heap w)) (deferred w) _) in Hfirst.
destruct (progressList_run Encrypt dev ps w0 h d0)
  as (d' & w1 & Hrun1 & He1 & Hd1 & Hq1 & Hh1 & _ & Hs1 & _ & Hc1).
{ apply lookup_insert_eq. }
{ apply lookup_insert_eq. }
assert (Hreg1 : encryptDialogs w1 !! dev = Some h)
  by (rewrite He1; apply lookup_insert_eq).
assert (Hlive1 : heap w1 !! h = Some d')
  by (rewrite Hh1; apply lookup_insert_eq).
eexists. unfold operation, deliverAll.
rewrite (exec_deliver_cons kRebootRequired rebootDialogUser).
cbn [progressNotification bindDaemonSignals]. rewrite Hfirst.
rewrite exec_deliver_app. fold deliverAll. rewrite Hrun1.
unfold deliverAll. rewrite (exec_deliver_cons kRebootRequired rebootDialogUser).
cbn [resultNotification bindDaemonSignals].
rewrite (onEncryptResult_present _ _ _ _ _ _ Hreg1 Hlive1).
rewrite exec_deliver_nil.
split; [reflexivity|].
cbn [encryptDialogs decryptDialogs heap deferred trace].
rewrite Hs1, He1, Hd1, Hh1, Hq1. cbn [dlgDestroyed d0 slotsRemove foldl w0
  encryptDialogs decryptDialogs heap deferred].
split.
{ rewrite delete_insert_id by exact Hnone. apply delete_id. exact Hnone. }
split; [reflexivity|].
split.
{ rewrite insert_insert_eq. apply delete_insert_id. exact Hfree. }
split.
{ apply filter_other_id. intros Hin. destruct (Hposted h Hin) as [d Hd].
  congruence. }
rewrite !created_app, Hc1. cbn [trace w0]. rewrite created_app.
destruct (encryptResultDialog dev devName' code) eqn:Hdlg;
  unfold encryptResultDialog in Hdlg; destruct (code =? 0); try discriminate.
all: cbn [created]; lia.
Qed.

(** X3. A decryption reported from its first progress to its result, for a
  device without entry, is served and restores both registries. Unlike an
  encryption it leaves its dialog alive: the dialog, created at a free
  address and without slot, is still in the heap and its deletion is
  posted, once, behind the deletions already posted. *)
Theorem decrypt_operation_posts_deletion dev devName progress ps devName' unused code w :
decryptDialogs w !! dev = None ->
exists h d w1,
  exec (deliverAll (operation Decrypt dev devName progress ps devName' unused code)) w
  = Some w1 /\
  heap w !! h = None /\
  encryptDialogs w1 = encryptDialogs w /\
  decryptDialogs w1 = decryptDialogs w /\
  heap w1 = <[h := d]> (heap w) /\
  dlgDestroyed d = [] /\
  deferred w1 = deferred w ++ [h] /\
  created (trace w1) = S (created (trace w)).
Proof.
intros Hnone.
set (h := fresh (dom (heap w))).
assert (Hfree : heap w !! h = None) by apply fresh_not_live.
pose proof (onDecryptProgress_new dev devName progress w Hnone) as Hfirst.
cbv zeta in Hfirst. fold h in Hfirst.
set (d0 := mkDialog (QString.arg (tr "Decrypting...%1") (deviceLabel devName dev))
             (Some progress) true []) in *.
set (w0 := mkWorld (encryptDialogs w) (<[dev := h]> (decryptDialogs w))
             (<[h := d0]> (heap w)) (deferred w) _) in Hfirst.
destruct (progressList_run Decrypt dev ps w0 h d0)
  as (d' & w1 & Hrun1 & He1 & Hd1 & Hq1 & Hh1 & _ & Hs1 & _ & Hc1).
{ apply lookup_insert_eq. }
{ apply lookup_insert_eq. }
assert (Hreg1 : decryptDialogs w1 !! dev = Some h)
  by (rewrite Hd1; apply lookup_insert_eq).
assert (Hlive1 : heap w1 !! h = Some d')
  by (rewrite Hh1; apply lookup_insert_eq).
exists h, d'. eexists. unfold operation, deliverAll.
rewrite (exec_deliver_cons kRebootRequired rebootDialogUser).
cbn [progressNotification bindDaemonSignals]. rewrite Hfirst.
rewrite exec_deliver_app. fold deliverAll. rewrite Hrun1.
unfold deliverAll. rewrite (exec_deliver_cons kRebootRequired rebootDialogUser).
cbn [resultNotification bindDaemonSignals].
rewrite (onDecryptResult_present _ _ _ _ _ _ _ _ _ Hreg1 Hlive1).
rewrite exec_deliver_nil.
split; [reflexivity|]. split; [exact Hfree|].
cbn [encryptDialogs decryptDialogs heap deferred trace].
rewrite He1, Hd1, Hh1, Hq1. cbn [w0 encryptDialogs decryptDialogs heap deferred].
split; [reflexivity|].
split; [apply delete_insert_id; exact Hnone|].
split; [apply insert_insert_eq|].
split; [exact Hs1|]. split; [reflexivity|].
rewrite created_app, Hc1. cbn [trace w0]. rewrite created_app.
assert (Hnew : created (RestoreOverrideCursor :: DeleteLater h
                 :: decryptResultEvents kRebootRequired rebootDialogUser dev devName' code)
               = 0%nat).
{ unfold decryptResultEvents, rebootOnDecryptedEvents, decryptOutcomeDialog.
  destruct (code =? - kRebootRequired).
  - destruct (rebootDialogUser =? 1); reflexivity.
  - destruct (decryptOutcome dev devName' code) as [[t m] ty]. reflexivity. }
rewrite Hnew. cbn [created]. lia.
Qed.

End Lifecycle.

(** X2 at the initial state: an encryption of /dev/sda1 with three progress
    notifications that ends in failure. *)
Lemma encrypt_operation_leaves_nothing_witness :
  wellFormed emptyWorld /\
  encryptDialogs emptyWorld !! "/dev/sda1" = None /\
  exists w1,
    exec (deliver Sample.kRebootRequired 0
            (operation Encrypt "/dev/sda1" "disk" 0 [("disk", half); ("disk", half)]
               "disk" "" (-5))) emptyWorld = Some w1 /\
    encryptDialogs w1 = encryptDialogs emptyWorld /\
    decryptDialogs w1 = decryptDialogs emptyWorld /\
    heap w1 = heap emptyWorld /\
    deferred w1 = deferred emptyWorld /\
    created (trace w1) = S (created (trace emptyWorld)).
Proof.
  split; [exact wellFormed_emptyWorld|]. split; [reflexivity|].
  apply (encrypt_operation_leaves_nothing Sample.kRebootRequired 0 "/dev/sda1" "disk" 0
           [("disk", half); ("disk", half)] "disk" "" (-5) emptyWorld).
  - exact wellFormed_emptyWorld.
  - reflexivity.
Defined.

(** X3 while an encryption of /dev/sda1 is under way: a decryption of
    /dev/sdb1 from its first progress to its result. *)
Lemma decrypt_operation_posts_deletion_witness :
  decryptDialogs encryptingWorld !! "/dev/sdb1" = None /\
  exists h d w1,
    exec (deliver Sample.kRebootRequired 0
            (operation Decrypt "/dev/sdb1" "data" 0 [("data", half)] "data" "" 0))
      encryptingWorld = Some w1 /\
    heap encryptingWorld !! h = None /\
    encryptDialogs w1 = encryptDialogs encryptingWorld /\
    decryptDialogs w1 = decryptDialogs encryptingWorld /\
    heap w1 = <[h := d]> (heap encryptingWorld) /\
    dlgDestroyed d = [] /\
    deferred w1 = deferred encryptingWorld ++ [h] /\
    created (trace w1) = S (created (trace encryptingWorld)).
Proof.
  split; [reflexivity|].
  apply (decrypt_operation_posts_deletion Sample.kRebootRequired 0 "/dev/sdb1" "data" 0
           [("data", half)] "data" "" 0 encryptingWorld).
  reflexivity.
Defined.

Section BothRegistries.

Variables kRebootRequired rebootDialogUser : Z.

Let deliverAll := deliver kRebootRequired rebootDialogUser.

(** X18. The two registries are independent for one and the same device:
  after an encrypt and a decrypt progress for a device that had no entry,
  the device has an entry in each registry, with two different live
  dialogs; the encrypt result that follows destroys the encrypt dialog
  and removes the encrypt entry only, the decrypt entry and its dialog
  stay. *)
Theorem device_in_both_registries dev devName progress devName' progress' devName'' code w :
encryptDialogs w !! dev = None ->
decryptDialogs w !! dev = None ->
exists he hd w2 w3,
  exec (deliverAll [EncryptProgress dev devName progress;
                    DecryptProgress dev devName' progress']) w = Some w2 /\
  encryptDialogs w2 !! dev = Some he /\
  decryptDialogs w2 !! dev = Some hd /\
  he <> hd /\ live w2 he /\ live w2 hd /\
  exec (deliverAll [EncryptDiskResult dev devName'' code]) w2 = Some w3 /\
  encryptDialogs w3 !! dev = None /\
  decryptDialogs w3 !! dev = Some hd /\
  heap w3 !! he = None /\ live w3 hd.
Proof.
intros Henc Hdec.
pose proof (onEncryptProgress_new dev devName progress w Henc) as Hrun1.
cbv zeta in Hrun1.
set (he := fresh (dom (heap w))) in *.
set (de := mkDialog (QString.arg (tr "Encrypting...%1") (deviceLabel devName dev))
             (Some progress) true [RemoveEncryptDialog dev]) in *.
set (w1 := mkWorld (<[dev := he]> (encryptDialogs w)) (decryptDialogs w)
             (<[he := de]> (heap w)) (deferred w) _) in Hrun1.
pose proof (onDecryptProgress_new dev devName' progress' w1 Hdec) as Hrun2.
cbv zeta in Hrun2.
set (hd := fresh (dom (heap w1))) in *.
set (dd := mkDialog (QString.arg (tr "Decrypting...%1") (deviceLabel devName' dev))
             (Some progress') true []) in *.
set (w2 := mkWorld (encryptDialogs w1) (<[dev := hd]> (decryptDialogs w1))
             (<[hd := dd]> (heap w1)) (deferred w1) _) in Hrun2.
assert (Hne : he <> hd).
{ intros Heq. pose proof (fresh_not_live w1) as Hfree. fold hd in Hfree.
  rewrite <- Heq in Hfree. cbn [heap w1] in Hfree.
  rewrite lookup_insert_eq in Hfree. discriminate. }
assert (Hreg2 : encryptDialogs w2 !! dev = Some he) by apply lookup_insert_eq.
assert (Hlive2 : heap w2 !! he = Some de).
{ cbn [heap w2 w1]. rewrite lookup_insert_ne by congruence. apply lookup_insert_eq. }
exists he, hd, w2. eexists. unfold deliverAll.
rewrite (exec_deliver_cons kRebootRequired rebootDialogUser).
cbn [bindDaemonSignals]. rewrite Hrun1.
rewrite (exec_deliver_cons kRebootRequired rebootDialogUser).
cbn [bindDaemonSignals]. rewrite Hrun2.
rewrite (exec_deliver_nil kRebootRequired rebootDialogUser).
rewrite (exec_deliver_cons kRebootRequired rebootDialogUser).
cbn [bindDaemonSignals].
rewrite (onEncryptResult_present _ _ _ _ _ _ Hreg2 Hlive2).
rewrite (exec_deliver_nil kRebootRequired rebootDialogUser).
split; [reflexivity|]. split; [exact Hreg2|].
split; [apply lookup_insert_eq|]. split; [exact Hne|].
split; [eexists; exact Hlive2|].
split; [eexists; apply lookup_insert_eq|].
split; [reflexivity|]. cbn [encryptDialogs decryptDialogs heap].
split; [apply lookup_delete_eq|]. split; [apply lookup_insert_eq|].
split; [apply lookup_delete_eq|].
unfold live. cbn [heap]. rewrite lookup_delete_ne by exact Hne.
cbn [heap w2]. rewrite lookup_insert_eq. eauto.
Qed.

End BothRegistries.

(** X18 at /dev/sda1 in the initial state. *)
Lemma device_in_both_registries_witness :
  encryptDialogs emptyWorld !! "/dev/sda1" = None /\
  decryptDialogs emptyWorld !! "/dev/sda1" = None /\
  exists he hd w2 w3,
    exec (deliver Sample.kRebootRequired 0
            [EncryptProgress "/dev/sda1" "disk" half;
             DecryptProgress "/dev/sda1" "disk" half]) emptyWorld = Some w2 /\
    encryptDialogs w2 !! "/dev/sda1" = Some he /\
    decryptDialogs w2 !! "/dev/sda1" = Some hd /\
    he <> hd /\ live w2 he /\ live w2 hd /\
    exec (deliver Sample.kRebootRequired 0 [EncryptDiskResult "/dev/sda1" "disk" 0]) w2
    = Some w3 /\
    encryptDialogs w3 !! "/dev/sda1" = None /\
    decryptDialogs w3 !! "/dev/sda1" = Some hd /\
    heap w3 !! he = None /\ live w3 hd.
Proof.
  split; [reflexivity|]. split; [reflexivity|].
  apply (device_in_both_registries Sample.kRebootRequired 0 "/dev/sda1" "disk" half
           "disk" half "disk" 0 emptyWorld); reflexivity.
Defined.

(** ** What a notification leaves alone *)

Lemma onEncryptProgress_dangling dev devName progress w h :
  encryptDialogs w !! dev = Some h ->
  heap w !! h = None ->
  exec (onEncryptProgress dev devName progress) w = None.
Proof.
  intros Hsome Hdead. unfold onEncryptProgress. cmd_unfold.
  heap_simpl. reflexivity.
Qed.

Section Frames.

Variables kRebootRequired rebootDialogUser : Z.

Let handle := bindDaemonSignals kRebootRequired rebootDialogUser.

(** The world a served notification leaves, by what the registry held. *)
Lemma bindDaemonSignals_cases n w w1 :
exec (handle n) w = Some w1 ->
exists evs,
  trace w1 = trace w ++ evs /\
  match registryOf n with
  | None =>
      encryptDialogs w1 = encryptDialogs w /\ decryptDialogs w1 = decryptDialogs w /\
      heap w1 = heap w /\ deferred w1 = deferred w
  | Some Encrypt =>
      decryptDialogs w1 = decryptDialogs w /\
      (isEncryptResult n = false ->
       forall dev', dev' <> deviceOf n ->
         encryptDialogs w1 !! dev' = encryptDialogs w !! dev')
  | Some Decrypt =>
      encryptDialogs w1 = encryptDialogs w /\
      forall dev', dev' <> deviceOf n ->
        decryptDialogs w1 !! dev' = decryptDialogs w !! dev'
  end.
Proof.
unfold handle.
destruct n as [dev devName unused code | dev devName code | dev devName progress
              | dev devName unused code | dev devName progress
              | dev devName unused code];
  cbn [bindDaemonSignals registryOf deviceOf isEncryptResult].
- destruct (onPreencryptResult_trace rebootDialogUser dev devName unused code w)
    as [evs ->].
  intros [= <-]. eexists. split; [reflexivity|]. repeat split.
- destruct (encryptDialogs w !! dev) as [h|] eqn:Hreg.
  + destruct (heap w !! h) as [d|] eqn:Hlive.
    * rewrite (onEncryptResult_present _ _ _ _ _ _ Hreg Hlive). intros [= <-].
      eexists. split; [reflexivity|]. split; [reflexivity|]. discriminate.
    * rewrite (onEncryptResult_dangling _ _ _ _ _ Hreg Hlive). discriminate.
  + rewrite (onEncryptResult_absent _ _ _ _ Hreg). intros [= <-].
    eexists. split; [reflexivity|]. split; [reflexivity|]. discriminate.
- destruct (encryptDialogs w !! dev) as [h|] eqn:Hreg.
  + destruct (heap w !! h) as [d|] eqn:Hlive.
    * rewrite (onEncryptProgress_update _ _ _ _ _ _ Hreg Hlive). intros [= <-].
      eexists. split; [reflexivity|]. split; reflexivity.
    * rewrite (onEncryptProgress_dangling _ _ _ _ _ Hreg Hlive). discriminate.
  + rewrite (onEncryptProgress_new _ _ _ _ Hreg). intros [= <-].
    eexists. split; [reflexivity|]. split; [reflexivity|].
    intros _ dev' Hne. cbn [encryptDialogs]. apply lookup_insert_ne. congruence.
- destruct (decryptDialogs w !! dev) as [h|] eqn:Hreg.
  + destruct (heap w !! h) as [d|] eqn:Hlive.
    * rewrite (onDecryptResult_present _ _ _ _ _ _ _ _ _ Hreg Hlive). intros [= <-].
      eexists. split; [reflexivity|]. split; [reflexivity|].
      intros dev' Hne. cbn [decryptDialogs]. apply lookup_delete_ne. congruence.
    * rewrite (onDecryptResult_dangling _ _ _ _ _ _ _ _ Hreg Hlive). discriminate.
  + rewrite (onDecryptResult_absent _ _ _ _ _ _ _ Hreg). intros [= <-].
    eexists. split; [reflexivity|]. split; reflexivity.
- destruct (decryptDialogs w !! dev) as [h|] eqn:Hreg.
  + destruct (heap w !! h) as [d|] eqn:Hlive.
    * rewrite (onDecryptProgress_update _ _ _ _ _ _ Hreg Hlive). intros [= <-].
      eexists. split; [reflexivity|]. split; reflexivity.
    * rewrite (onDecryptProgress_dangling _ _ _ _ _ Hreg Hlive). discriminate.
  + rewrite (onDecryptProgress_new _ _ _ _ Hreg). intros [= <-].
    eexists. split; [reflexivity|]. split; [reflexivity|].
    intros dev' Hne. cbn [decryptDialogs]. apply lookup_insert_ne. congruence.
- destruct (onChgPassphraseResult_trace dev devName unused code w) as [evs ->].
  intros [= <-]. eexists. split; [reflexivity|]. repeat split.
Qed.

(** X4. Whenever a slot serves a notification, the log of events only
  grows. The pre-encrypt and the change-passphrase result change neither
  registry, nor the dialogs, nor the posted deletions. An encrypt
  notification never changes the decrypt registry and a decrypt
  notification never changes the encrypt registry, also for the same
  device. Decrypt notifications and encrypt progress leave the entries of
  every other device as they are. *)
Theorem bindDaemonSignals_frame n w w1 :
exec (handle n) w = Some w1 ->
(exists evs, trace w1 = trace w ++ evs) /\
(registryOf n <> Some Encrypt -> encryptDialogs w1 = encryptDialogs w) /\
(registryOf n <> Some Decrypt -> decryptDialogs w1 = decryptDialogs w) /\
(registryOf n = None -> heap w1 = heap w /\ deferred w1 = deferred w) /\
(isEncryptResult n = false ->
 forall dev', dev' <> deviceOf n ->
   encryptDialogs w1 !! dev' = encryptDialogs w !! dev' /\
   decryptDialogs w1 !! dev' = decryptDialogs w !! dev').
Proof.
intros Hrun. destruct (bindDaemonSignals_cases n w w1 Hrun) as (evs & Htr & Hcase).
split; [eauto|].
destruct (registryOf n) as [[|]|].
- destruct Hcase as (Hd & Hother).
  split; [congruence|]. split; [intros _; exact Hd|]. split; [discriminate|].
  intros Hnot dev' Hne. split; [exact (Hother Hnot dev' Hne)|]. rewrite Hd. reflexivity.
- destruct Hcase as (He & Hother).
  split; [intros _; exact He|]. split; [congruence|]. split; [discriminate|].
  intros _ dev' Hne. split; [rewrite He; reflexivity|exact (Hother dev' Hne)].
- destruct Hcase as (He & Hd & Hh & Hq).
  split; [intros _; exact He|]. split; [intros _; exact Hd|].
  split; [auto|]. intros _ dev' _. rewrite He, Hd. auto.
Qed.

(** A served progress notification leaves the device with an entry. *)
Lemma onProgress_registers kind dev devName progress w w1 :
exec (handle (progressNotification kind dev devName progress)) w = Some w1 ->
is_Some (registry kind w1 !! dev).
Proof.
unfold handle.
destruct kind; cbn [progressNotification bindDaemonSignals registry].
- destruct (encryptDialogs w !! dev) as [h|] eqn:Hreg.
  + destruct (heap w !! h) as [d|] eqn:Hlive.
    * rewrite (onEncryptProgress_update _ _ _ _ _ _ Hreg Hlive). intros [= <-].
      cbn [encryptDialogs]. eauto.
    * rewrite (onEncryptProgress_dangling _ _ _ _ _ Hreg Hlive). discriminate.
  + rewrite (onEncryptProgress_new _ _ _ _ Hreg). intros [= <-].
    cbn [encryptDialogs]. rewrite lookup_insert_eq. eauto.
- destruct (decryptDialogs w !! dev) as [h|] eqn:Hreg.
  + destruct (heap w !! h) as [d|] eqn:Hlive.
    * rewrite (onDecryptProgress_update _ _ _ _ _ _ Hreg Hlive). intros [= <-].
      cbn [decryptDialogs]. eauto.
    * rewrite (onDecryptProgress_dangling _ _ _ _ _ Hreg Hlive). discriminate.
  + rewrite (onDecryptProgress_new _ _ _ _ Hreg). intros [= <-].
    cbn [decryptDialogs]. rewrite lookup_insert_eq. eauto.
Qed.

End Frames.

(** ** Jobs under way *)

Lemma slotsRemove_lookup_None ss (m : gmap string Handle) dev :
  m !! dev = None -> slotsRemove ss m !! dev = None.
Proof.
  intros Hnone. destruct (decide (RemoveEncryptDialog dev ∈ ss)) as [Hin|Hnotin].
  - apply slotsRemove_lookup_in, Hin.
  - rewrite slotsRemove_lookup_notin by exact Hnotin. exact Hnone.
Qed.

Lemma hasEnDecryptJob_value w :
  hasEnDecryptJob w
  = Some (negb (bool_decide (encryptDialogs w = ∅) && bool_decide (decryptDialogs w = ∅)), w).
Proof. reflexivity. Qed.

Section Jobs.

Variables kRebootRequired rebootDialogUser : Z.

Let handle := bindDaemonSignals kRebootRequired rebootDialogUser.

(** X5. [hasEnDecryptJob] follows the operations: it answers true in every
  state a served progress notification leaves, and it answers false once
  the result has been served for the device that held the only entry of
  the two registries. It never changes the state. *)
Theorem hasEnDecryptJob_follows_operations kind dev devName unused w w1 :
(forall progress,
   exec (handle (progressNotification kind dev devName progress)) w = Some w1 ->
   hasEnDecryptJob w1 = Some (true, w1)) /\
(forall code h,
   registry kind w = {[dev := h]} ->
   registry (otherKind kind) w = ∅ ->
   exec (handle (resultNotification kind dev devName unused code)) w = Some w1 ->
   hasEnDecryptJob w1 = Some (false, w1)).
Proof.
split.
- intros progress Hrun. rewrite hasEnDecryptJob_value. f_equal. f_equal.
  apply negb_true_iff, andb_false_iff.
  destruct (onProgress_registers kRebootRequired rebootDialogUser kind dev devName
              progress w w1 Hrun) as [h Hreg].
  destruct kind; cbn [registry] in Hreg; [left|right];
    apply bool_decide_eq_false; intros Hempty; rewrite Hempty, lookup_empty in Hreg;
    discriminate.
- intros code h Henc Hdec Hrun. rewrite hasEnDecryptJob_value. f_equal. f_equal.
  apply negb_false_iff, andb_true_iff. unfold handle in Hrun.
  destruct kind; cbn [resultNotification bindDaemonSignals] in Hrun;
    cbn [registry otherKind] in Henc, Hdec.
  + assert (Hreg : encryptDialogs w !! dev = Some h)
      by (rewrite Henc; apply lookup_singleton_eq).
    destruct (heap w !! h) as [d|] eqn:Hlive.
    * rewrite (onEncryptResult_present _ _ _ _ _ _ Hreg Hlive) in Hrun.
      injection Hrun as <-. cbn [encryptDialogs decryptDialogs].
      split; apply bool_decide_eq_true; [|exact Hdec].
      apply map_empty. intros dev'. destruct (decide (dev = dev')) as [<-|Hne].
      -- apply lookup_delete_eq.
      -- rewrite lookup_delete_ne by exact Hne. apply slotsRemove_lookup_None.
         rewrite Henc. apply lookup_singleton_ne. exact Hne.
    * rewrite (onEncryptResult_dangling _ _ _ _ _ Hreg Hlive) in Hrun. discriminate.
  + assert (Hreg : decryptDialogs w !! dev = Some h)
      by (rewrite Henc; apply lookup_singleton_eq).
    destruct (heap w !! h) as [d|] eqn:Hlive.
    * rewrite (onDecryptResult_present _ _ _ _ _ _ _ _ _ Hreg Hlive) in Hrun.
      injection Hrun as <-. cbn [encryptDialogs decryptDialogs].
      split; apply bool_decide_eq_true; [exact Hdec|].
      rewrite Henc. apply delete_singleton_eq.
    * rewrite (onDecryptResult_dangling _ _ _ _ _ _ _ _ Hreg Hlive) in Hrun.
      discriminate.
Qed.

(** X6. A progress notification for a device that has a live dialog sets
  the progress of that dialog to the value received and makes it visible;
  it keeps the title the dialog was created with and its slots, whatever
  display name the notification carries, and touches no other dialog. *)
Theorem onProgress_updates_in_place kind dev devName progress w h d :
registry kind w !! dev = Some h ->
heap w !! h = Some d ->
exists w1,
  exec (handle (progressNotification kind dev devName progress)) w = Some w1 /\
  heap w1 !! h = Some (mkDialog (dlgTitle d) (Some progress) true (dlgDestroyed d)) /\
  (forall h', h' <> h -> heap w1 !! h' = heap w !! h') /\
  (forall devName',
     exec (handle (progressNotification kind dev devName' progress)) w = Some w1).
Proof.
intros Hreg Hlive. eexists.
split; [exact (onProgress_update_world kRebootRequired rebootDialogUser kind dev
                 devName progress w h d Hreg Hlive)|].
cbn [heap]. split; [apply lookup_insert_eq|].
split; [intros h' Hne; apply lookup_insert_ne; congruence|].
intros devName'.
exact (onProgress_update_world kRebootRequired rebootDialogUser kind dev
         devName' progress w h d Hreg Hlive).
Qed.

End Jobs.

(** The world after the decryption of /dev/sdb1 ended with the reboot
    sentinel and the user chose "Reboot now". *)
Lemma decryptingWorld_result :
  exec (bindDaemonSignals Sample.kRebootRequired 1
          (DecryptDiskResult "/dev/sdb1" "data" "" (-4))) decryptingWorld
  = Some (mkWorld ∅ ∅ (heap decryptingWorld) [0%nat]
            (trace decryptingWorld ++
             [RestoreOverrideCursor; DeleteLater 0%nat;
              ExecDDialog "Decrypt device" "Please reboot to decrypt device data(sdb1)."
                ["Reboot later"; "Reboot now"];
              RequestReboot])).
Proof. vm_compute. reflexivity. Qed.

(** X4 at the result of the decryption of /dev/sdb1. *)
Lemma bindDaemonSignals_frame_witness :
  exists w1,
    exec (bindDaemonSignals Sample.kRebootRequired 1 decryptRebootResult) decryptingWorld = Some w1 /\
    (exists evs, trace w1 = trace decryptingWorld ++ evs) /\
    (registryOf decryptRebootResult <> Some Encrypt -> encryptDialogs w1 = encryptDialogs decryptingWorld) /\
    (registryOf decryptRebootResult <> Some Decrypt -> decryptDialogs w1 = decryptDialogs decryptingWorld) /\
    (registryOf decryptRebootResult = None ->
     heap w1 = heap decryptingWorld /\ deferred w1 = deferred decryptingWorld) /\
    (isEncryptResult decryptRebootResult = false ->
     forall dev', dev' <> deviceOf decryptRebootResult ->
       encryptDialogs w1 !! dev' = encryptDialogs decryptingWorld !! dev' /\
       decryptDialogs w1 !! dev' = decryptDialogs decryptingWorld !! dev').
Proof.
  eexists. split; [exact decryptingWorld_result|].
  apply (bindDaemonSignals_frame Sample.kRebootRequired 1 decryptRebootResult decryptingWorld).
  vm_compute. reflexivity.
Defined.

(** X5 at the first progress of the encryption of /dev/sda1. *)
Lemma hasEnDecryptJob_follows_operations_witness :
  exec (bindDaemonSignals Sample.kRebootRequired 0
          (progressNotification Encrypt "/dev/sda1" "disk" half)) emptyWorld
  = Some encryptingWorld /\
  hasEnDecryptJob encryptingWorld = Some (true, encryptingWorld).
Proof.
  assert (Hrun : exec (bindDaemonSignals Sample.kRebootRequired 0
                         (progressNotification Encrypt "/dev/sda1" "disk" half))
                   emptyWorld = Some encryptingWorld)
    by (vm_compute; reflexivity).
  split; [exact Hrun|].
  destruct (hasEnDecryptJob_follows_operations Sample.kRebootRequired 0 Encrypt
              "/dev/sda1" "disk" "" emptyWorld encryptingWorld) as [Hprogress _].
  exact (Hprogress half Hrun).
Defined.

(** X6 at a second progress of the encryption of /dev/sda1, under another
    display name. *)
Lemma onProgress_updates_in_place_witness :
  registry Encrypt encryptingWorld !! "/dev/sda1" = Some 0%nat /\
  exists w1,
    exec (bindDaemonSignals Sample.kRebootRequired 0
            (progressNotification Encrypt "/dev/sda1" "renamed" 0)) encryptingWorld
    = Some w1 /\
    heap w1 !! 0%nat
    = Some (mkDialog "Encrypting...disk(sda1)" (Some 0) true
              [RemoveEncryptDialog "/dev/sda1"]).
Proof.
  split; [reflexivity|].
  destruct (onProgress_updates_in_place Sample.kRebootRequired 0 Encrypt "/dev/sda1"
              "renamed" 0 encryptingWorld 0%nat
              (mkDialog "Encrypting...disk(sda1)" (Some half) true
                 [RemoveEncryptDialog "/dev/sda1"]))
    as (w1 & Hrun & Hdlg & _).
  - reflexivity.
  - reflexivity.
  - exists w1. split; [exact Hrun|exact Hdlg].
Defined.

(** ** What the result slots present *)

Lemma showPreEncryptError_trace dev devName code w :
  exists title msg type,
    preEncryptOutcome dev devName code = (title, msg, type) /\
    exec (showPreEncryptError dev devName code) w
    = Some (mkWorld (encryptDialogs w) (decryptDialogs w) (heap w) (deferred w)
              (trace w ++ [ShowDialog title msg type])).
Proof.
  unfold showPreEncryptError.
  destruct (preEncryptOutcome dev devName code) as [[title msg] type].
  exists title, msg, type. split; [reflexivity|]. cmd_unfold. reflexivity.
Qed.

Lemma onPreencryptResult_failure rebootDialogUser dev devName unused code w :
  code <> kSuccess ->
  exists title msg type,
    preEncryptOutcome dev devName code = (title, msg, type) /\
    exec (onPreencryptResult rebootDialogUser dev devName unused code) w
    = Some (mkWorld (encryptDialogs w) (decryptDialogs w) (heap w) (deferred w)
              (trace w ++ [RestoreOverrideCursor; ShowDialog title msg type])).
Proof.
  intros Hne. unfold onPreencryptResult, showPreEncryptError.
  destruct (preEncryptOutcome dev devName code) as [[title msg] type].
  exists title, msg, type. split; [reflexivity|].
  destruct (Z.eqb_spec code kSuccess) as [?|_]; [contradiction|].
  cmd_unfold. heap_simpl. reflexivity.
Qed.

Lemma onPreencryptResult_success rebootDialogUser dev devName unused w :
  exec (onPreencryptResult rebootDialogUser dev devName unused kSuccess) w
  = Some (mkWorld (encryptDialogs w) (decryptDialogs w) (heap w) (deferred w)
            (trace w ++ RestoreOverrideCursor :: rebootOnPreencryptedDialog dev devName
               :: (if rebootDialogUser =? 1 then [RequestReboot] else []))).
Proof.
  unfold onPreencryptResult, showRebootOnPreencrypted, rebootOnPreencryptedDialog.
  cbn [Z.eqb kSuccess negb].
  destruct (rebootDialogUser =? 1); cmd_unfold; heap_simpl; reflexivity.
Qed.

(** X7. The pre-encrypt result slot, for every [int] code. Code 0 opens the
    reboot confirmation titled "Preencrypt done" and nothing else; the
    negated user-cancelled code shows "Encrypt disk" / "User cancelled
    operation" as information; every other code, the negated
    wrong-passphrase code included, shows "Preencrypt failed" as an error
    with the decimal code in the message. The slot restores the cursor
    first, changes nothing but the log, and never shows the "Preencrypt
    done" text of [showPreEncryptError]. *)
Theorem onPreencryptResult_outcomes rebootDialogUser dev devName unused code w :
  is_int code ->
  exists evs,
    exec (onPreencryptResult rebootDialogUser dev devName unused code) w
    = Some (mkWorld (encryptDialogs w) (decryptDialogs w) (heap w) (deferred w)
              (trace w ++ RestoreOverrideCursor :: evs)) /\
    (code = 0 ->
     evs = rebootOnPreencryptedDialog dev devName
           :: (if rebootDialogUser =? 1 then [RequestReboot] else [])) /\
    (code = - kUserCancelled ->
     evs = [ShowDialog "Encrypt disk" "User cancelled operation" kInfo]) /\
    (code <> 0 -> code <> - kUserCancelled ->
     exists msg,
       evs = [ShowDialog "Preencrypt failed" msg kError] /\
       QString.contains (QString.number code) msg).
Proof.
  intros Hint. destruct (Z.eq_dec code 0) as [->|Hne].
  - eexists. split; [apply onPreencryptResult_success|].
    split; [reflexivity|]. split; [discriminate|]. intros H; contradiction.
  - destruct (onPreencryptResult_failure rebootDialogUser dev devName unused code w Hne)
      as (title & msg & type & Hout & Hrun).
    eexists. split; [exact Hrun|]. split; [intros; contradiction|].
    revert Hout. unfold preEncryptOutcome.
    rewrite !(int_neg_eqb code) by (first [exact Hint | cbv; split; congruence]).
    unfold kSuccess, kUserCancelled.
    split.
    + intros ->. revert Hout. cbn [Z.eqb Z.opp]. intros [= <- <- <-]. reflexivity.
    + intros _ Hnc. revert Hout.
      repeat match goal with
             | |- context [Z.eqb code ?k] => destruct (Z.eqb_spec code k) as [?|_]; [lia|]
             end.
      intros [= <- <- <-]. eexists. split; [reflexivity|].
      unfold QString.argInt, tr.
      change (QString.arg "Device %1 preencrypt failed, please see log for more information.(%2)"
                (deviceLabel devName dev))
        with (("Device " +:+ deviceLabel devName dev)
              +:+ " preencrypt failed, please see log for more information.(%2)").
      apply arg_contains_after. discriminate.
Qed.

Lemma onChgPassphraseResult_world dev devName unused code w :
  exec (onChgPassphraseResult dev devName unused code) w
  = Some (mkWorld (encryptDialogs w) (decryptDialogs w) (heap w) (deferred w)
            (trace w ++ [RestoreOverrideCursor;
                         ShowDialog (fst (fst (chgPwdOutcome dev devName code)))
                           (snd (fst (chgPwdOutcome dev devName code)))
                           (snd (chgPwdOutcome dev devName code))])).
Proof.
  unfold onChgPassphraseResult, showChgPwdError.
  destruct (chgPwdOutcome dev devName code) as [[title msg] type].
  cmd_unfold. heap_simpl. reflexivity.
Qed.

(** X8. The change-passphrase result slot, for every [int] code: it
    restores the cursor, presents exactly one dialog and changes nothing
    else. Code 0 gives "Change passphrase done" as information, the negated
    user-cancelled code "Change passphrase" / "User cancelled operation" as
    information, the negated change-passphrase-failed code "Change
    passphrase failed" / "Wrong passpharse or PIN" as an error, and every
    other code "Change passphrase failed" as an error with the decimal code
    in the message. *)
Theorem onChgPassphraseResult_outcomes dev devName unused code w :
  is_int code ->
  exists title msg type,
    exec (onChgPassphraseResult dev devName unused code) w
    = Some (mkWorld (encryptDialogs w) (decryptDialogs w) (heap w) (deferred w)
              (trace w ++ [RestoreOverrideCursor; ShowDialog title msg type])) /\
    (code = 0 -> title = "Change passphrase done" /\ type = kInfo) /\
    (code = - kUserCancelled ->
     title = "Change passphrase" /\ msg = "User cancelled operation" /\ type = kInfo) /\
    (code = - kErrorChangePassphraseFailed ->
     title = "Change passphrase failed" /\ msg = "Wrong passpharse or PIN" /\
     type = kError) /\
    (code <> 0 -> code <> - kUserCancelled -> code <> - kErrorChangePassphraseFailed ->
     title = "Change passphrase failed" /\ type = kError /\
     QString.contains (QString.number code) msg).
Proof.
  intros Hint. do 3 eexists.
  split; [apply onChgPassphraseResult_world|].
  unfold chgPwdOutcome.
  rewrite !(int_neg_eqb code) by (first [exact Hint | cbv; split; congruence]).
  unfold kSuccess, kUserCancelled, kErrorChangePassphraseFailed.
  repeat match goal with
         | |- context [Z.eqb code ?k] =>
             destruct (Z.eqb_spec code k) as [?|?];
             [cbn [fst snd]; repeat split; intros; try reflexivity; lia|]
         end.
  cbn [fst snd].
  split; [intros; lia|]. split; [intros; lia|]. split; [intros; lia|].
  intros _ _ _. split; [reflexivity|]. split; [reflexivity|].
  unfold QString.argInt, tr.
  change (QString.arg
            "Device %1 change passphrase failed, please see log for more information.(%2)"
            (deviceLabel devName dev))
    with (("Device " +:+ deviceLabel devName dev)
          +:+ " change passphrase failed, please see log for more information.(%2)").
  apply arg_contains_after. discriminate.
Qed.

(** X9. The encrypt result slot knows two outcomes only. Code 0 presents
    "Encrypt done" as information; every other code, the negated
    user-cancelled code included, presents "Encrypt failed" as an error
    with the decimal code in the message. The dialog is the last event of
    the slot. *)
Theorem onEncryptResult_outcomes dev devName code w :
  entryLive Encrypt dev w ->
  exists w1 evs title msg type,
    exec (onEncryptResult dev devName code) w = Some w1 /\
    trace w1 = trace w ++ RestoreOverrideCursor :: evs ++ [ShowDialog title msg type] /\
    (forall e, e ∈ evs -> presentsDialog e = false) /\
    (code = 0 -> title = "Encrypt done" /\ type = kInfo) /\
    (code <> 0 ->
     title = "Encrypt failed" /\ type = kError /\
     QString.contains (QString.number code) msg).
Proof.
  intros Hlive. unfold entryLive in Hlive; cbn [registry] in Hlive.
  assert (Hdlg : exists title msg type,
            encryptResultDialog dev devName code = ShowDialog title msg type /\
            (code = 0 -> title = "Encrypt done" /\ type = kInfo) /\
            (code <> 0 ->
             title = "Encrypt failed" /\ type = kError /\
             QString.contains (QString.number code) msg)).
  { unfold encryptResultDialog. destruct (Z.eqb_spec code 0) as [->|Hne].
    - do 3 eexists. split; [reflexivity|]. split; [auto|]. intros H; contradiction.
    - do 3 eexists. split; [reflexivity|]. split; [intros; contradiction|].
      intros _. split; [reflexivity|]. split; [reflexivity|].
      unfold QString.argInt, tr.
      change (QString.arg
                "Device %1 encrypt failed, please see log for more information.(%2)"
                (deviceLabel devName dev))
        with (("Device " +:+ deviceLabel devName dev)
              +:+ " encrypt failed, please see log for more information.(%2)").
      apply arg_contains_after. discriminate. }
  destruct Hdlg as (title & msg & type & Hdlg & Hzero & Hother).
  destruct (encryptDialogs w !! dev) as [h|] eqn:Hreg.
  - destruct (Hlive h eq_refl) as [d Hd].
    rewrite (onEncryptResult_present _ _ _ _ _ _ Hreg Hd), Hdlg.
    eexists. exists [Destroyed h], title, msg, type.
    split; [reflexivity|]. split; [reflexivity|]. split; [|auto].
    intros e He. apply list_elem_of_singleton in He as ->. reflexivity.
  - rewrite (onEncryptResult_absent _ _ _ _ Hreg), Hdlg.
    eexists. exists [], title, msg, type.
    split; [reflexivity|]. split; [reflexivity|]. split; [|auto].
    intros e He. apply elem_of_nil in He. contradiction.
Qed.

(** ** Reboot requests *)

Lemma requests_app evs evs' : requests (evs ++ evs') = (requests evs + requests evs')%nat.
Proof.
  induction evs as [|e evs IH]; [reflexivity|].
  destruct e; cbn [requests app]; rewrite IH; reflexivity.
Qed.

Section RebootRequests.

Variables kRebootRequired rebootDialogUser : Z.

Let handle := bindDaemonSignals kRebootRequired rebootDialogUser.

Lemma requests_decryptResultEvents dev devName code :
requests (decryptResultEvents kRebootRequired rebootDialogUser dev devName code)
= if (code =? - kRebootRequired) && (rebootDialogUser =? 1) then 1%nat else 0%nat.
Proof.
unfold decryptResultEvents, rebootOnDecryptedEvents, decryptOutcomeDialog.
destruct (code =? - kRebootRequired); cbn [andb].
- destruct (rebootDialogUser =? 1); reflexivity.
- destruct (decryptOutcome dev devName code) as [[t m] ty]. reflexivity.
Qed.

(** X10. A served notification requests a reboot at most once, and exactly
  when it is a successful pre-encryption or a decryption ending with the
  reboot sentinel and the user chose the button with index 1 ("Reboot
  now") in the confirmation. Progress notifications, encrypt and
  change-passphrase results, failures, and a confirmation that is
  dismissed or answered "Reboot later" never request a reboot. *)
Theorem bindDaemonSignals_reboot_requests n w w1 :
exec (handle n) w = Some w1 ->
exists evs,
  trace w1 = trace w ++ evs /\
  requests evs
  = if asksReboot kRebootRequired n && (rebootDialogUser =? 1) then 1%nat else 0%nat.
Proof.
unfold handle.
destruct n as [dev devName unused code | dev devName code | dev devName progress
              | dev devName unused code | dev devName progress
              | dev devName unused code];
  cbn [bindDaemonSignals asksReboot andb].
- destruct (Z.eqb_spec code kSuccess) as [->|Hne]; cbn [andb].
  + rewrite onPreencryptResult_success. intros [= <-].
    eexists. split; [reflexivity|]. unfold rebootOnPreencryptedDialog.
    destruct (rebootDialogUser =? 1); reflexivity.
  + destruct (onPreencryptResult_failure rebootDialogUser dev devName unused code w Hne)
      as (title & msg & type & _ & ->).
    intros [= <-]. eexists. split; reflexivity.
- destruct (encryptDialogs w !! dev) as [h|] eqn:Hreg.
  + destruct (heap w !! h) as [d|] eqn:Hlive.
    * rewrite (onEncryptResult_present _ _ _ _ _ _ Hreg Hlive). intros [= <-].
      eexists. split; [reflexivity|].
      unfold encryptResultDialog. destruct (code =? 0); reflexivity.
    * rewrite (onEncryptResult_dangling _ _ _ _ _ Hreg Hlive). discriminate.
  + rewrite (onEncryptResult_absent _ _ _ _ Hreg). intros [= <-].
    eexists. split; [reflexivity|].
    unfold encryptResultDialog. destruct (code =? 0); reflexivity.
- destruct (encryptDialogs w !! dev) as [h|] eqn:Hreg.
  + destruct (heap w !! h) as [d|] eqn:Hlive.
    * rewrite (onEncryptProgress_update _ _ _ _ _ _ Hreg Hlive). intros [= <-].
      eexists. split; reflexivity.
    * rewrite (onEncryptProgress_dangling _ _ _ _ _ Hreg Hlive). discriminate.
  + rewrite (onEncryptProgress_new _ _ _ _ Hreg). intros [= <-].
    eexists. split; reflexivity.
- destruct (decryptDialogs w !! dev) as [h|] eqn:Hreg.
  + destruct (heap w !! h) as [d|] eqn:Hlive.
    * rewrite (onDecryptResult_present _ _ _ _ _ _ _ _ _ Hreg Hlive). intros [= <-].
      eexists. split; [reflexivity|]. cbn [requests].
      apply requests_decryptResultEvents.
    * rewrite (onDecryptResult_dangling _ _ _ _ _ _ _ _ Hreg Hlive). discriminate.
  + rewrite (onDecryptResult_absent _ _ _ _ _ _ _ Hreg). intros [= <-].
    eexists. split; [reflexivity|]. cbn [requests].
    apply requests_decryptResultEvents.
- destruct (decryptDialogs w !! dev) as [h|] eqn:Hreg.
  + destruct (heap w !! h) as [d|] eqn:Hlive.
    * rewrite (onDecryptProgress_update _ _ _ _ _ _ Hreg Hlive). intros [= <-].
      eexists. split; reflexivity.
    * rewrite (onDecryptProgress_dangling _ _ _ _ _ Hreg Hlive). discriminate.
  + rewrite (onDecryptProgress_new _ _ _ _ Hreg). intros [= <-].
    eexists. split; reflexivity.
- rewrite onChgPassphraseResult_world.
  intros [= <-]. eexists. split; reflexivity.
Qed.

End RebootRequests.

(** X7 at the negated wrong-passphrase code, which the pre-encrypt
    presenter does not know. *)
Lemma onPreencryptResult_outcomes_witness :
  is_int (-2) /\
  exists evs msg,
    exec (onPreencryptResult 0 "/dev/sdc1" "usb" "" (-2)) emptyWorld
    = Some (logged emptyWorld (RestoreOverrideCursor :: evs)) /\
    evs = [ShowDialog "Preencrypt failed" msg kError] /\
    QString.contains (QString.number (-2)) msg.
Proof.
  assert (Hint : is_int (-2)) by (unfold is_int, int_min, int_max; lia).
  split; [exact Hint|].
  destruct (onPreencryptResult_outcomes 0 "/dev/sdc1" "usb" "" (-2) emptyWorld Hint)
    as (evs & Hrun & _ & _ & Hother).
  destruct Hother as (msg & Hevs & Hmsg); [lia|unfold kUserCancelled; lia|].
  exists evs, msg. split; [exact Hrun|]. split; [exact Hevs|exact Hmsg].
Defined.

(** X8 at the negated change-passphrase-failed code. *)
Lemma onChgPassphraseResult_outcomes_witness :
  is_int (-3) /\
  exists title msg type,
    exec (onChgPassphraseResult "/dev/sda1" "disk" "" (-3)) emptyWorld
    = Some (logged emptyWorld [RestoreOverrideCursor; ShowDialog title msg type]) /\
    title = "Change passphrase failed" /\ msg = "Wrong passpharse or PIN" /\
    type = kError.
Proof.
  assert (Hint : is_int (-3)) by (unfold is_int, int_min, int_max; lia).
  split; [exact Hint|].
  destruct (onChgPassphraseResult_outcomes "/dev/sda1" "disk" "" (-3) emptyWorld Hint)
    as (title & msg & type & Hrun & _ & _ & Hfailed & _).
  exists title, msg, type. split; [exact Hrun|]. apply Hfailed. reflexivity.
Defined.

(** X9 at the result of an encryption under way that the user cancelled. *)
Lemma onEncryptResult_outcomes_witness :
  entryLive Encrypt "/dev/sda1" encryptingWorld /\
  exists w1 evs title msg type,
    exec (onEncryptResult "/dev/sda1" "disk" (-1)) encryptingWorld = Some w1 /\
    trace w1 = trace encryptingWorld
               ++ RestoreOverrideCursor :: evs ++ [ShowDialog title msg type] /\
    title = "Encrypt failed" /\ type = kError /\
    QString.contains (QString.number (-1)) msg.
Proof.
  split; [exact encryptingWorld_live|].
  destruct (onEncryptResult_outcomes "/dev/sda1" "disk" (-1) encryptingWorld)
    as (w1 & evs & title & msg & type & Hrun & Htr & _ & _ & Hother).
  - intros h Hreg. vm_compute in Hreg. injection Hreg as <-.
    eexists. vm_compute. reflexivity.
  - exists w1, evs, title, msg, type. split; [exact Hrun|]. split; [exact Htr|].
    apply Hother. lia.
Defined.

(** X10 at a decryption that ends with the reboot sentinel, "Reboot now". *)
Lemma bindDaemonSignals_reboot_requests_witness :
  exists w1 evs,
    exec (bindDaemonSignals Sample.kRebootRequired 1
            (DecryptDiskResult "/dev/sdb1" "data" "" (-4))) decryptingWorld = Some w1 /\
    trace w1 = trace decryptingWorld ++ evs /\
    requests evs = 1%nat.
Proof.
  eexists.
  destruct (bindDaemonSignals_reboot_requests Sample.kRebootRequired 1
              (DecryptDiskResult "/dev/sdb1" "data" "" (-4)) decryptingWorld _
              decryptingWorld_result) as (evs & Htr & Hreq).
  exists evs. split; [exact decryptingWorld_result|]. split; [exact Htr|exact Hreq].
Defined.

(** ** Texts for devices without place markers *)

Lemma noPercent_append s t : noPercent (s +:+ t) = noPercent s && noPercent t.
Proof.
  induction s as [|c s IH]; [reflexivity|].
  rewrite append_cons. cbn [noPercent]. rewrite IH. apply andb_assoc.
Qed.

Lemma escapes_plain_prefix s t :
  noPercent s = true -> QString.escapes (s +:+ t) = QString.escapes t.
Proof.
  induction s as [|c s IH]; [reflexivity|].
  cbn [noPercent]. intros H. apply andb_true_iff in H as [Hc Hs].
  rewrite append_cons. cbn [QString.escapes].
  apply negb_true_iff in Hc. rewrite Hc. apply IH, Hs.
Qed.

Lemma replaceArgEscapes_plain_prefix lowest a s t :
  noPercent s = true ->
  QString.replaceArgEscapes lowest a O (s +:+ t)
  = s +:+ QString.replaceArgEscapes lowest a O t.
Proof.
  induction s as [|c s IH]; [reflexivity|].
  cbn [noPercent]. intros H. apply andb_true_iff in H as [Hc Hs].
  rewrite !append_cons. cbn [QString.replaceArgEscapes].
  apply negb_true_iff in Hc. rewrite Hc. rewrite (IH Hs). reflexivity.
Qed.

(** [arg] copies a prefix without ['%'] and works on the rest. *)
Lemma arg_plain_prefix s t a :
  noPercent s = true -> QString.arg (s +:+ t) a = s +:+ QString.arg t a.
Proof.
  intros Hs. unfold QString.arg, QString.min_escape.
  rewrite (escapes_plain_prefix s t Hs).
  destruct (QString.escapes t) as [|n ns]; [reflexivity|].
  apply replaceArgEscapes_plain_prefix, Hs.
Qed.

(** The generic failure text of the presenters, once the label is in. *)
Lemma failure_text label what code :
  noPercent label = true -> noPercent what = true ->
  QString.argInt (("Device " +:+ label) +:+ what +:+ "(%2)") code
  = "Device " +:+ label +:+ what +:+ "(" +:+ QString.number code +:+ ")".
Proof.
  intros Hlabel Hwhat. unfold QString.argInt.
  change (what +:+ "(%2)") with (what +:+ "(" +:+ "%2)").
  rewrite <- (append_assoc what "(" "%2)").
  rewrite <- (append_assoc ("Device " +:+ label) (what +:+ "(") "%2)").
  rewrite arg_plain_prefix.
  - change (QString.arg "%2)" (QString.number code))
      with (QString.number code +:+ ")").
    rewrite !append_assoc. reflexivity.
  - rewrite !noPercent_append. cbn [noPercent QString.is_percent Ascii.eqb negb andb].
    rewrite Hlabel, Hwhat. reflexivity.
Qed.

Lemma mid_prefix prefix x n :
  String.length prefix = n -> QString.mid n (prefix +:+ x) = x.
Proof.
  revert n. induction prefix as [|c prefix IH]; intros n Hlen.
  - cbn in Hlen. subst n. destruct x; reflexivity.
  - cbn [String.length] in Hlen. subst n. rewrite append_cons.
    cbn [QString.mid]. apply IH. reflexivity.
Qed.

Lemma mid_short s n : (String.length s <= n)%nat -> QString.mid n s = "".
Proof.
  revert n. induction s as [|c s IH]; intros n Hlen.
  - destruct n; reflexivity.
  - cbn [String.length] in Hlen. destruct n as [|n]; [lia|].
    cbn [QString.mid]. apply IH. lia.
Qed.

(** X11. For a display name without ['%'] the label is the name followed,
    in parentheses, by the device identifier without its first five
    characters, whatever the identifier holds. The five characters are
    dropped without being looked at: any prefix of length five goes, and an
    identifier of five characters or fewer leaves empty parentheses. *)
Theorem deviceLabel_of_plain_name devName dev :
  noPercent devName = true ->
  deviceLabel devName dev = devName +:+ "(" +:+ QString.mid 5 dev +:+ ")" /\
  (forall prefix x, String.length prefix = 5%nat ->
     dev = prefix +:+ x -> deviceLabel devName dev = devName +:+ "(" +:+ x +:+ ")") /\
  ((String.length dev <= 5)%nat -> deviceLabel devName dev = devName +:+ "()").
Proof.
  intros Hplain. pose proof (deviceLabel_plain devName dev Hplain) as Hlabel.
  split; [exact Hlabel|]. split.
  - intros prefix x Hlen ->. rewrite Hlabel, (mid_prefix prefix x 5 Hlen). reflexivity.
  - intros Hshort. rewrite Hlabel, (mid_short dev 5 Hshort). reflexivity.
Qed.

(** X11 at a usual device. *)
Lemma deviceLabel_of_plain_name_witness :
  noPercent "disk" = true /\
  deviceLabel "disk" "/dev/sda1" = "disk" +:+ "(" +:+ "sda1" +:+ ")".
Proof.
  split; [reflexivity|].
  destruct (deviceLabel_of_plain_name "disk" "/dev/sda1" eq_refl) as (_ & Hprefix & _).
  exact (Hprefix "/dev/" "sda1" eq_refl eq_refl).
Defined.

(** X12. For a device whose display name and identifier (past its first
    five characters) hold no ['%'], the generic failure message of each of
    the four presenters is "Device <label> <operation> failed, please see
    log for more information.(<code>)", with the label as name(identifier)
    and the code in decimal; the branch is taken for every [int] code that
    the presenter does not know. *)
Theorem failure_messages_of_plain_device dev devName code :
  is_int code ->
  noPercent devName = true ->
  noPercent (QString.mid 5 dev) = true ->
  let label := devName +:+ "(" +:+ QString.mid 5 dev +:+ ")" in
  let text what :=
    "Device " +:+ label +:+ what +:+ "(" +:+ QString.number code +:+ ")" in
  (code <> 0 ->
   encryptResultDialog dev devName code
   = ShowDialog "Encrypt failed"
       (text " encrypt failed, please see log for more information.") kError) /\
  (code <> 0 -> code <> - kUserCancelled ->
   preEncryptOutcome dev devName code
   = ("Preencrypt failed",
      text " preencrypt failed, please see log for more information.", kError)) /\
  (code <> 0 -> code <> - kUserCancelled -> code <> - kErrorWrongPassphrase ->
   decryptOutcome dev devName code
   = ("Decrypt failed",
      text " Decrypt failed, please see log for more information.", kError)) /\
  (code <> 0 -> code <> - kUserCancelled -> code <> - kErrorChangePassphraseFailed ->
   chgPwdOutcome dev devName code
   = ("Change passphrase failed",
      text " change passphrase failed, please see log for more information.", kError)).
Proof.
  intros Hint Hname Hdev label text.
  assert (Hlabel : deviceLabel devName dev = label)
    by exact (deviceLabel_plain devName dev Hname).
  assert (Hplain : noPercent label = true).
  { unfold label. rewrite !noPercent_append, Hname, Hdev. reflexivity. }
  assert (Htext : forall what, noPercent what = true ->
            QString.argInt (("Device " +:+ label) +:+ what +:+ "(%2)") code = text what)
    by (intros what Hwhat; exact (failure_text label what code Hplain Hwhat)).
  split; [|split; [|split]].
  - intros H0. unfold encryptResultDialog. rewrite Hlabel.
    destruct (Z.eqb_spec code 0) as [?|_]; [contradiction|].
    unfold tr.
    change (QString.arg "Device %1 encrypt failed, please see log for more information.(%2)" label)
      with (("Device " +:+ label) +:+ " encrypt failed, please see log for more information." +:+ "(%2)").
    rewrite (Htext " encrypt failed, please see log for more information." eq_refl). reflexivity.
  - intros H0 H1. unfold preEncryptOutcome. rewrite Hlabel.
    rewrite !(int_neg_eqb code) by (first [exact Hint | cbv; split; congruence]).
    repeat match goal with
           | |- context [Z.eqb code ?k] =>
               destruct (Z.eqb_spec code k) as [?|_];
               [unfold kSuccess, kUserCancelled in *; lia|]
           end.
    unfold tr.
    change (QString.arg "Device %1 preencrypt failed, please see log for more information.(%2)" label)
      with (("Device " +:+ label) +:+ " preencrypt failed, please see log for more information." +:+ "(%2)").
    rewrite (Htext " preencrypt failed, please see log for more information." eq_refl). reflexivity.
  - intros H0 H1 H2. unfold decryptOutcome. rewrite Hlabel.
    rewrite !(int_neg_eqb code) by (first [exact Hint | cbv; split; congruence]).
    repeat match goal with
           | |- context [Z.eqb code ?k] =>
               destruct (Z.eqb_spec code k) as [?|_];
               [unfold kSuccess, kUserCancelled, kErrorWrongPassphrase in *; lia|]
           end.
    unfold tr.
    change (QString.arg "Device %1 Decrypt failed, please see log for more information.(%2)" label)
      with (("Device " +:+ label) +:+ " Decrypt failed, please see log for more information." +:+ "(%2)").
    rewrite (Htext " Decrypt failed, please see log for more information." eq_refl). reflexivity.
  - intros H0 H1 H3. unfold chgPwdOutcome. rewrite Hlabel.
    rewrite !(int_neg_eqb code) by (first [exact Hint | cbv; split; congruence]).
    repeat match goal with
           | |- context [Z.eqb code ?k] =>
               destruct (Z.eqb_spec code k) as [?|_];
               [unfold kSuccess, kUserCancelled, kErrorChangePassphraseFailed in *; lia|]
           end.
    unfold tr.
    change (QString.arg "Device %1 change passphrase failed, please see log for more information.(%2)" label)
      with (("Device " +:+ label) +:+ " change passphrase failed, please see log for more information." +:+ "(%2)").
    rewrite (Htext " change passphrase failed, please see log for more information." eq_refl). reflexivity.
Qed.

(** X12 at a usual device and the code -7. *)
Lemma failure_messages_of_plain_device_witness :
  is_int (-7) /\
  noPercent "data" = true /\
  noPercent (QString.mid 5 "/dev/sdb1") = true /\
  decryptOutcome "/dev/sdb1" "data" (-7)
  = ("Decrypt failed",
     "Device " +:+ ("data" +:+ "(" +:+ QString.mid 5 "/dev/sdb1" +:+ ")")
     +:+ " Decrypt failed, please see log for more information."
     +:+ "(" +:+ QString.number (-7) +:+ ")",
     kError).
Proof.
  assert (Hint : is_int (-7)) by (unfold is_int, int_min, int_max; lia).
  split; [exact Hint|]. split; [reflexivity|]. split; [reflexivity|].
  destruct (failure_messages_of_plain_device "/dev/sdb1" "data" (-7) Hint eq_refl eq_refl)
    as (_ & _ & Hdecrypt & _).
  apply Hdecrypt; unfold kUserCancelled, kErrorWrongPassphrase; lia.
Defined.

(** ** The password hook, scheme by scheme *)

Section HookSchemes.

Variables kPasswordOnly kTPMOnly kTPMAndPIN : Z.
Variable encKeyType : string -> Z.
Variable getPassphraseFromTPM : string -> string -> string.
Variable unlockDialogUser : UnlockType -> Z * (UnlockType * string).

Hypothesis Hdistinct : distinctKeyTypes kPasswordOnly kTPMOnly kTPMAndPIN.

Let hook := onAcquireDevicePwd kPasswordOnly kTPMOnly kTPMAndPIN encKeyType
            getPassphraseFromTPM unlockDialogUser.

Ltac scheme_unfold :=
unfold hook, onAcquireDevicePwd, acquirePassphraseByPIN, acquirePassphraseByTPM,
  acquirePassphrase, recoveryAdvice, showDialog, emit, modify, bind, ret.

Ltac scheme_types :=
destruct Hdistinct as (Hpt & Hpp & Htp);
rewrite ?Z.eqb_refl;
rewrite ?(proj2 (Z.eqb_neq kPasswordOnly kTPMOnly) Hpt);
rewrite ?(proj2 (Z.eqb_neq kPasswordOnly kTPMAndPIN) Hpp);
rewrite ?(proj2 (Z.eqb_neq kTPMOnly kTPMAndPIN) Htp);
rewrite ?(proj2 (Z.eqb_neq kTPMOnly kPasswordOnly) (not_eq_sym Hpt));
rewrite ?(proj2 (Z.eqb_neq kTPMAndPIN kPasswordOnly) (not_eq_sym Hpp));
rewrite ?(proj2 (Z.eqb_neq kTPMAndPIN kTPMOnly) (not_eq_sym Htp)).

Ltac scheme_done :=
cbn [encryptDialogs decryptDialogs heap deferred trace andb negb orb fst snd
     QString.isEmpty];
rewrite <- ?app_assoc; cbn [app].

(** X13. A device protected by a password only. The hook opens the unlock
  dialog for a password and never asks the TPM. Any [exec] result other
  than 1 is a dismissal: the passphrase is empty, cancelled is true and
  no advice is shown. On 1 the passphrase is the text of the dialog as it
  is; when that text is empty the advice "Wrong passphrase" is shown once,
  unless the caller had passed cancelled = true, and cancelled is true. *)
Theorem onAcquireDevicePwd_password dev p0 c0 w r kind text :
encKeyType dev = kPasswordOnly ->
unlockDialogUser kPwd = (r, (kind, text)) ->
exists p c evs,
  hook dev (Some p0) (Some c0) w
  = Some (mkAcquired true (Some p) (Some c), logged w (ExecUnlockDialog kPwd :: evs)) /\
  (r <> 1 -> p = "" /\ c = true /\ evs = []) /\
  (r = 1 -> p = text /\
            c = (c0 || QString.isEmpty text) /\
            evs = if QString.isEmpty text && negb c0
                  then [recoveryAdvice "Wrong passphrase"] else []).
Proof.
intros Htype Huser. scheme_unfold. rewrite Htype, Huser. scheme_types.
unfold logged. destruct w as [wenc wdec wheap wq wt].
destruct (Z.eqb_spec r 1) as [->|Hr]; cbn [negb fst snd].
- destruct (QString.isEmpty text) eqn:Hemp, c0; scheme_done;
    do 3 eexists; (split; [reflexivity|]);
    (split; [intros Hr; contradiction|]); intros _; auto.
- scheme_done. do 3 eexists. split; [reflexivity|].
  split; [auto|]. intros; contradiction.
Qed.

(** X14. A device protected by the TPM alone. No dialog is opened and the
  passphrase is what the TPM gives for the device and an empty PIN. When
  it is empty and the caller had passed cancelled = false, the advice
  "TPM error" is shown once and cancelled is forced to true; otherwise
  cancelled is as the caller passed it and nothing is shown. *)
Theorem onAcquireDevicePwd_by_tpm dev p0 c0 w :
encKeyType dev = kTPMOnly ->
let p := getPassphraseFromTPM dev "" in
hook dev (Some p0) (Some c0) w
= Some (mkAcquired true (Some p) (Some (c0 || QString.isEmpty p)),
        logged w (if QString.isEmpty p && negb c0
                 then [recoveryAdvice "TPM error"] else [])).
Proof.
intros Htype p. scheme_unfold. rewrite Htype. scheme_types.
unfold logged. destruct w as [wenc wdec wheap wq wt]. cbn [encryptDialogs decryptDialogs heap deferred trace].
fold p. destruct (QString.isEmpty p), c0; cbn [andb negb orb];
  rewrite ?app_nil_r; reflexivity.
Qed.

(** X15. A device protected by the TPM and a PIN. The hook opens the unlock
  dialog for a PIN. Any [exec] result other than 1 is a dismissal, silent
  as for a password. On 1, a key of kind PIN is handed to the TPM with
  the device and the TPM's answer is the passphrase; a key of any other
  kind is the passphrase as it is. An empty passphrase gets the advice
  "Wrong PIN" once, unless the caller had passed cancelled = true, and
  cancelled is true. *)
Theorem onAcquireDevicePwd_tpm_pin dev p0 c0 w r kind text :
encKeyType dev = kTPMAndPIN ->
unlockDialogUser kPin = (r, (kind, text)) ->
exists p c evs,
  hook dev (Some p0) (Some c0) w
  = Some (mkAcquired true (Some p) (Some c), logged w (ExecUnlockDialog kPin :: evs)) /\
  (r <> 1 -> p = "" /\ c = true /\ evs = []) /\
  (r = 1 ->
   p = (if UnlockType_eqb kind kPin then getPassphraseFromTPM dev text else text) /\
   c = (c0 || QString.isEmpty p) /\
   evs = if QString.isEmpty p && negb c0 then [recoveryAdvice "Wrong PIN"] else []).
Proof.
intros Htype Huser. scheme_unfold. rewrite Htype, Huser. scheme_types.
unfold logged. destruct w as [wenc wdec wheap wq wt]. cbn [encryptDialogs decryptDialogs heap deferred trace].
destruct (Z.eqb_spec r 1) as [->|Hr]; cbn [negb fst snd].
- destruct (UnlockType_eqb kind kPin);
    match goal with
    | |- context [QString.isEmpty ?x] => destruct (QString.isEmpty x) eqn:Hemp
    end;
    destruct c0; cbn [andb negb orb];
    cbn [encryptDialogs decryptDialogs heap deferred trace];
    rewrite <- ?app_assoc; do 3 eexists; (split; [reflexivity|]);
    split; try (intros; congruence); intros _; rewrite ?Hemp; auto.
- cbn [QString.isEmpty andb negb]. do 3 eexists. split; [reflexivity|].
  split; [auto|]. intros; contradiction.
Qed.

End HookSchemes.

Lemma Sample_distinctKeyTypes :
  distinctKeyTypes Sample.kPasswordOnly Sample.kTPMOnly Sample.kTPMAndPIN.
Proof. repeat split; discriminate. Qed.

(** X13 at a password device whose user types "abc123". *)
Lemma onAcquireDevicePwd_password_witness :
  distinctKeyTypes Sample.kPasswordOnly Sample.kTPMOnly Sample.kTPMAndPIN /\
  Sample.encKeyType "/dev/sda1" = Sample.kPasswordOnly /\
  Sample.userAccepts kPwd = (1, (kPwd, "abc123")) /\
  exists p c evs,
    Sample.hook Sample.userAccepts "/dev/sda1" (Some "") (Some false) emptyWorld
    = Some (mkAcquired true (Some p) (Some c),
            logged emptyWorld (ExecUnlockDialog kPwd :: evs)) /\
    (1 <> 1 -> p = "" /\ c = true /\ evs = []) /\
    (1 = 1 -> p = "abc123" /\
              c = (false || QString.isEmpty "abc123") /\
              evs = if QString.isEmpty "abc123" && negb false
                    then [recoveryAdvice "Wrong passphrase"] else []).
Proof.
  split; [repeat split; discriminate|]. split; [reflexivity|]. split; [reflexivity|].
  apply (onAcquireDevicePwd_password Sample.kPasswordOnly Sample.kTPMOnly
           Sample.kTPMAndPIN Sample.encKeyType Sample.getPassphraseFromTPM
           Sample.userAccepts Sample_distinctKeyTypes "/dev/sda1" "" false emptyWorld
           1 kPwd "abc123").
  - reflexivity.
  - reflexivity.
Defined.

(** X14 at a TPM-only device whose TPM gives nothing for an empty PIN. *)
Lemma onAcquireDevicePwd_by_tpm_witness :
  distinctKeyTypes Sample.kPasswordOnly Sample.kTPMOnly Sample.kTPMAndPIN /\
  Sample.encKeyType "/dev/sdc1" = Sample.kTPMOnly /\
  Sample.hook Sample.userAccepts "/dev/sdc1" (Some "") (Some false) emptyWorld
  = Some (mkAcquired true (Some "") (Some true),
          logged emptyWorld [recoveryAdvice "TPM error"]).
Proof.
  split; [repeat split; discriminate|]. split; [reflexivity|].
  apply (onAcquireDevicePwd_by_tpm Sample.kPasswordOnly Sample.kTPMOnly
           Sample.kTPMAndPIN Sample.encKeyType Sample.getPassphraseFromTPM
           Sample.userAccepts Sample_distinctKeyTypes "/dev/sdc1" "" false emptyWorld).
  reflexivity.
Defined.

(** X15 at a TPM-and-PIN device whose user types a PIN the TPM does not
    know. *)
Lemma onAcquireDevicePwd_tpm_pin_witness :
  distinctKeyTypes Sample.kPasswordOnly Sample.kTPMOnly Sample.kTPMAndPIN /\
  Sample.encKeyType "/dev/sdb1" = Sample.kTPMAndPIN /\
  Sample.userAccepts kPin = (1, (kPin, "abc123")) /\
  exists p c evs,
    Sample.hook Sample.userAccepts "/dev/sdb1" (Some "") (Some false) emptyWorld
    = Some (mkAcquired true (Some p) (Some c),
            logged emptyWorld (ExecUnlockDialog kPin :: evs)) /\
    (1 <> 1 -> p = "" /\ c = true /\ evs = []) /\
    (1 = 1 ->
     p = (if UnlockType_eqb kPin kPin
          then Sample.getPassphraseFromTPM "/dev/sdb1" "abc123" else "abc123") /\
     c = (false || QString.isEmpty p) /\
     evs = if QString.isEmpty p && negb false then [recoveryAdvice "Wrong PIN"] else []).
Proof.
  split; [repeat split; discriminate|]. split; [reflexivity|]. split; [reflexivity|].
  apply (onAcquireDevicePwd_tpm_pin Sample.kPasswordOnly Sample.kTPMOnly
           Sample.kTPMAndPIN Sample.encKeyType Sample.getPassphraseFromTPM
           Sample.userAccepts Sample_distinctKeyTypes "/dev/sdb1" "" false emptyWorld
           1 kPin "abc123").
  - reflexivity.
  - reflexivity.
Defined.

Example onAcquireDevicePwd_pin_known :
  Sample.hook (fun init => (1, (kPin, "1234"))) "/dev/sdb1" (Some "") (Some false)
    emptyWorld
  = Some (mkAcquired true (Some "tpm-secret") (Some false),
          logged emptyWorld [ExecUnlockDialog kPin]).
Proof. reflexivity. Qed.

Example onAcquireDevicePwd_pin_fallback_key :
  Sample.hook (fun init => (1, (kRec, "recovery-key"))) "/dev/sdb1" (Some "") (Some false)
    emptyWorld
  = Some (mkAcquired true (Some "recovery-key") (Some false),
          logged emptyWorld [ExecUnlockDialog kPin]).
Proof. reflexivity. Qed.

Example onAcquireDevicePwd_exec_two_is_dismissal :
  Sample.hook (fun init => (2, (kPwd, "abc123"))) "/dev/sda1" (Some "old") (Some false)
    emptyWorld
  = Some (mkAcquired true (Some "") (Some true),
          logged emptyWorld [ExecUnlockDialog kPwd]).
Proof. reflexivity. Qed.

(** ** The dialogs of the password hook *)

Section HookDialogs.

Variables kPasswordOnly kTPMOnly kTPMAndPIN : Z.
Variable encKeyType : string -> Z.
Variable getPassphraseFromTPM : string -> string -> string.
Variable unlockDialogUser : UnlockType -> Z * (UnlockType * string).

Let hook := onAcquireDevicePwd kPasswordOnly kTPMOnly kTPMAndPIN encKeyType
            getPassphraseFromTPM unlockDialogUser.

(** X16. Whatever the key types, the device and the user: the hook changes
  nothing but the log; when it returns false it opens no dialog at all;
  it opens at most one unlock dialog and shows at most one advice; and
  the advice is shown only when the passphrase is empty and the caller had
  passed cancelled = false, in which case cancelled ends true. With a
  passphrase in the slot no advice is shown. *)
Theorem onAcquireDevicePwd_dialogs dev pwd cancelled w :
exists r evs,
  hook dev pwd cancelled w = Some (r, logged w evs) /\
  (acqReturn r = false -> evs = []) /\
  (unlockDialogs evs <= 1)%nat /\
  (advices evs <= 1)%nat /\
  (advices evs = 1%nat ->
   acqPwd r = Some "" /\ acqCancelled r = Some true /\ cancelled = Some false) /\
  (forall p, acqPwd r = Some p -> QString.isEmpty p = false -> acqReturn r = true ->
     advices evs = 0%nat).
Proof.
unfold hook, onAcquireDevicePwd, acquirePassphraseByPIN, acquirePassphraseByTPM,
  acquirePassphrase, showDialog, emit, modify, bind, ret, logged.
destruct w as [wenc wdec wheap wq wt]; cbn [encryptDialogs decryptDialogs heap deferred trace].
destruct pwd as [p0|], cancelled as [c0|];
  repeat match goal with
    | _ => progress (cbn [negb andb fst snd QString.isEmpty UnlockType_eqb])
    | |- context [Z.eqb ?a ?b] => destruct (Z.eqb_spec a b)
    | |- context [unlockDialogUser ?k] =>
        let r := fresh "r" in let k' := fresh "k" in let s := fresh "s" in
        destruct (unlockDialogUser k) as [r [k' s]] eqn:?
    | |- context [UnlockType_eqb ?a kPin] => is_var a; destruct a
    | |- context [QString.isEmpty ?p] =>
        let H := fresh "Hemp" in destruct p eqn:H
    | |- context [negb ?c] => is_var c; destruct c
    end;
  cbn [encryptDialogs decryptDialogs heap deferred trace];
  rewrite <- ?app_assoc;
  (eexists; first [ eexists; split; [reflexivity|]
                  | exists []; split; [rewrite app_nil_r; reflexivity|] ]);
  cbn [acqReturn acqPwd acqCancelled unlockDialogs advices app];
  repeat split; intros; try discriminate; try lia; try congruence;
  try match goal with
      | H : Some _ = Some ?p, H' : QString.isEmpty ?p = false |- _ =>
          injection H as <-; rewrite ?Hemp in H'; discriminate H'
      end.
Qed.

End HookDialogs.

(** X16 at a TPM-and-PIN device whose user types a PIN the TPM does not
    know: one advice, an empty passphrase, cancelled forced. *)
Lemma onAcquireDevicePwd_dialogs_witness :
  exists r evs,
    Sample.hook Sample.userAccepts "/dev/sdb1" (Some "") (Some false) emptyWorld
    = Some (r, logged emptyWorld evs) /\
    advices evs = 1%nat /\
    acqPwd r = Some "" /\ acqCancelled r = Some true.
Proof.
  destruct (onAcquireDevicePwd_dialogs Sample.kPasswordOnly Sample.kTPMOnly
              Sample.kTPMAndPIN Sample.encKeyType Sample.getPassphraseFromTPM
              Sample.userAccepts "/dev/sdb1" (Some "") (Some false) emptyWorld)
    as (r & evs & Hrun & _ & _ & _ & Hadvice & _).
  exists r, evs. split; [exact Hrun|].
  assert (Hone : advices evs = 1%nat).
  { vm_compute in Hrun. injection Hrun as _ <-. reflexivity. }
  split; [exact Hone|]. destruct (Hadvice Hone) as (Hp & Hc & _). auto.
Defined.
